(** * EGTS packet encoder ([egts-emul.py], class [EGTStrack])

    A shallow embedding of the record accumulator, the packet assembler and
    the two table-driven checksums, followed by the properties of the
    encoder that are stated about them.

    Conventions of the embedding.
    - A Python [bytes] object is a [list byte]; indexing it yields the
      integer value of the byte.
    - A Python [int] is a [Z]; [int.to_bytes] is fallible and raises
      [OverflowError] outside the range of the requested width.
    - A Python exception is a constructor of [exn]; a method of the class is
      a function from the object's fields to an outcome and the fields as
      they are when the method returns or raises.
    - [datetime.datetime.now()] is an input of the method that reads it, and
      the two [print] calls are left out. *)

From Stdlib Require Import String ZArith List Lia Bool.
From Stdlib Require Import Strings.Byte PrimFloat FloatOps SpecFloat.
Import ListNotations.
Local Open Scope Z_scope.

Set Implicit Arguments.

(** ** Bytes *)

Definition bytes := list byte.

Definition byte_val (b : byte) : Z := Z.of_N (Byte.to_N b).

Definition byte_of_Z (z : Z) : byte :=
  match Byte.of_N (Z.to_N (z mod 256)) with
  | Some b => b
  | None => x00
  end.

Definition len {A : Type} (l : list A) : Z := Z.of_nat (length l).

(** ** Exceptions and fallible results *)

Inductive exn : Set :=
| TypeError
| OverflowError
| UnboundLocalError
| KeyError
| ValueError
| IndexError.

Definition result (A : Type) : Type := exn + A.

Definition Ok {A : Type} (a : A) : result A := inr a.
Definition Raise {A : Type} (e : exn) : result A := inl e.

Definition rbind {A B : Type} (r : result A) (f : A -> result B) : result B :=
  match r with
  | inl e => inl e
  | inr a => f a
  end.

Declare Scope result_scope.
Delimit Scope result_scope with result.
Notation "x <- r ;; k" := (rbind r (fun x => k))
  (at level 61, r at next level, right associativity) : result_scope.

(** [seq[i]] on a tuple or a bytes object: negative indices count from the
    end, anything else out of range raises [IndexError]. *)
Definition getitem {A : Type} (l : list A) (i : Z) : result A :=
  let j := if i <? 0 then i + len l else i in
  if (0 <=? j) && (j <? len l) then
    match nth_error l (Z.to_nat j) with
    | Some a => Ok a
    | None => Raise IndexError
    end
  else Raise IndexError.

(** [z.to_bytes(n, byteorder='little')]. *)
Fixpoint le_bytes (n : nat) (z : Z) : bytes :=
  match n with
  | O => []
  | S n' => byte_of_Z z :: le_bytes n' (z / 256)
  end.

Definition to_bytes (n : nat) (z : Z) : result bytes :=
  if (0 <=? z) && (z <? 256 ^ Z.of_nat n) then Ok (le_bytes n z)
  else Raise OverflowError.

(** [int.from_bytes(b, byteorder='little')], used to read fields back. *)
Fixpoint from_bytes (b : bytes) : Z :=
  match b with
  | [] => 0
  | x :: b' => byte_val x + 256 * from_bytes b'
  end.

(** ** Checksum tables *)

Definition CRC8_TABLE : list Z := [
    0x00; 0x31; 0x62; 0x53; 0xC4; 0xF5; 0xA6; 0x97;
    0xB9; 0x88; 0xDB; 0xEA; 0x7D; 0x4C; 0x1F; 0x2E;
    0x43; 0x72; 0x21; 0x10; 0x87; 0xB6; 0xE5; 0xD4;
    0xFA; 0xCB; 0x98; 0xA9; 0x3E; 0x0F; 0x5C; 0x6D;
    0x86; 0xB7; 0xE4; 0xD5; 0x42; 0x73; 0x20; 0x11;
    0x3F; 0x0E; 0x5D; 0x6C; 0xFB; 0xCA; 0x99; 0xA8;
    0xC5; 0xF4; 0xA7; 0x96; 0x01; 0x30; 0x63; 0x52;
    0x7C; 0x4D; 0x1E; 0x2F; 0xB8; 0x89; 0xDA; 0xEB;
    0x3D; 0x0C; 0x5F; 0x6E; 0xF9; 0xC8; 0x9B; 0xAA;
    0x84; 0xB5; 0xE6; 0xD7; 0x40; 0x71; 0x22; 0x13;
    0x7E; 0x4F; 0x1C; 0x2D; 0xBA; 0x8B; 0xD8; 0xE9;
    0xC7; 0xF6; 0xA5; 0x94; 0x03; 0x32; 0x61; 0x50;
    0xBB; 0x8A; 0xD9; 0xE8; 0x7F; 0x4E; 0x1D; 0x2C;
    0x02; 0x33; 0x60; 0x51; 0xC6; 0xF7; 0xA4; 0x95;
    0xF8; 0xC9; 0x9A; 0xAB; 0x3C; 0x0D; 0x5E; 0x6F;
    0x41; 0x70; 0x23; 0x12; 0x85; 0xB4; 0xE7; 0xD6;
    0x7A; 0x4B; 0x18; 0x29; 0xBE; 0x8F; 0xDC; 0xED;
    0xC3; 0xF2; 0xA1; 0x90; 0x07; 0x36; 0x65; 0x54;
    0x39; 0x08; 0x5B; 0x6A; 0xFD; 0xCC; 0x9F; 0xAE;
    0x80; 0xB1; 0xE2; 0xD3; 0x44; 0x75; 0x26; 0x17;
    0xFC; 0xCD; 0x9E; 0xAF; 0x38; 0x09; 0x5A; 0x6B;
    0x45; 0x74; 0x27; 0x16; 0x81; 0xB0; 0xE3; 0xD2;
    0xBF; 0x8E; 0xDD; 0xEC; 0x7B; 0x4A; 0x19; 0x28;
    0x06; 0x37; 0x64; 0x55; 0xC2; 0xF3; 0xA0; 0x91;
    0x47; 0x76; 0x25; 0x14; 0x83; 0xB2; 0xE1; 0xD0;
    0xFE; 0xCF; 0x9C; 0xAD; 0x3A; 0x0B; 0x58; 0x69;
    0x04; 0x35; 0x66; 0x57; 0xC0; 0xF1; 0xA2; 0x93;
    0xBD; 0x8C; 0xDF; 0xEE; 0x79; 0x48; 0x1B; 0x2A;
    0xC1; 0xF0; 0xA3; 0x92; 0x05; 0x34; 0x67; 0x56;
    0x78; 0x49; 0x1A; 0x2B; 0xBC; 0x8D; 0xDE; 0xEF;
    0x82; 0xB3; 0xE0; 0xD1; 0x46; 0x77; 0x24; 0x15;
    0x3B; 0x0A; 0x59; 0x68; 0xFF; 0xCE; 0x9D; 0xAC
  ]%Z.

Definition CRC16_TABLE : list Z := [
    0x0000; 0x1021; 0x2042; 0x3063; 0x4084; 0x50a5;
    0x60c6; 0x70e7; 0x8108; 0x9129; 0xa14a; 0xb16b;
    0xc18c; 0xd1ad; 0xe1ce; 0xf1ef; 0x1231; 0x0210;
    0x3273; 0x2252; 0x52b5; 0x4294; 0x72f7; 0x62d6;
    0x9339; 0x8318; 0xb37b; 0xa35a; 0xd3bd; 0xc39c;
    0xf3ff; 0xe3de; 0x2462; 0x3443; 0x0420; 0x1401;
    0x64e6; 0x74c7; 0x44a4; 0x5485; 0xa56a; 0xb54b;
    0x8528; 0x9509; 0xe5ee; 0xf5cf; 0xc5ac; 0xd58d;
    0x3653; 0x2672; 0x1611; 0x0630; 0x76d7; 0x66f6;
    0x5695; 0x46b4; 0xb75b; 0xa77a; 0x9719; 0x8738;
    0xf7df; 0xe7fe; 0xd79d; 0xc7bc; 0x48c4; 0x58e5;
    0x6886; 0x78a7; 0x0840; 0x1861; 0x2802; 0x3823;
    0xc9cc; 0xd9ed; 0xe98e; 0xf9af; 0x8948; 0x9969;
    0xa90a; 0xb92b; 0x5af5; 0x4ad4; 0x7ab7; 0x6a96;
    0x1a71; 0x0a50; 0x3a33; 0x2a12; 0xdbfd; 0xcbdc;
    0xfbbf; 0xeb9e; 0x9b79; 0x8b58; 0xbb3b; 0xab1a;
    0x6ca6; 0x7c87; 0x4ce4; 0x5cc5; 0x2c22; 0x3c03;
    0x0c60; 0x1c41; 0xedae; 0xfd8f; 0xcdec; 0xddcd;
    0xad2a; 0xbd0b; 0x8d68; 0x9d49; 0x7e97; 0x6eb6;
    0x5ed5; 0x4ef4; 0x3e13; 0x2e32; 0x1e51; 0x0e70;
    0xff9f; 0xefbe; 0xdfdd; 0xcffc; 0xbf1b; 0xaf3a;
    0x9f59; 0x8f78; 0x9188; 0x81a9; 0xb1ca; 0xa1eb;
    0xd10c; 0xc12d; 0xf14e; 0xe16f; 0x1080; 0x00a1;
    0x30c2; 0x20e3; 0x5004; 0x4025; 0x7046; 0x6067;
    0x83b9; 0x9398; 0xa3fb; 0xb3da; 0xc33d; 0xd31c;
    0xe37f; 0xf35e; 0x02b1; 0x1290; 0x22f3; 0x32d2;
    0x4235; 0x5214; 0x6277; 0x7256; 0xb5ea; 0xa5cb;
    0x95a8; 0x8589; 0xf56e; 0xe54f; 0xd52c; 0xc50d;
    0x34e2; 0x24c3; 0x14a0; 0x0481; 0x7466; 0x6447;
    0x5424; 0x4405; 0xa7db; 0xb7fa; 0x8799; 0x97b8;
    0xe75f; 0xf77e; 0xc71d; 0xd73c; 0x26d3; 0x36f2;
    0x0691; 0x16b0; 0x6657; 0x7676; 0x4615; 0x5634;
    0xd94c; 0xc96d; 0xf90e; 0xe92f; 0x99c8; 0x89e9;
    0xb98a; 0xa9ab; 0x5844; 0x4865; 0x7806; 0x6827;
    0x18c0; 0x08e1; 0x3882; 0x28a3; 0xcb7d; 0xdb5c;
    0xeb3f; 0xfb1e; 0x8bf9; 0x9bd8; 0xabbb; 0xbb9a;
    0x4a75; 0x5a54; 0x6a37; 0x7a16; 0x0af1; 0x1ad0;
    0x2ab3; 0x3a92; 0xfd2e; 0xed0f; 0xdd6c; 0xcd4d;
    0xbdaa; 0xad8b; 0x9de8; 0x8dc9; 0x7c26; 0x6c07;
    0x5c64; 0x4c45; 0x3ca2; 0x2c83; 0x1ce0; 0x0cc1;
    0xef1f; 0xff3e; 0xcf5d; 0xdf7c; 0xaf9b; 0xbfba;
    0x8fd9; 0x9ff8; 0x6e17; 0x7e36; 0x4e55; 0x5e74;
    0x2e93; 0x3eb2; 0x0ed1; 0x1ef0
  ]%Z.

(** ** Checksum engine *)

(** [header_crc]: the loop [while i < len(header)] starts at [i = 0] and adds
    one to [i] each time round, so it runs [len(header)] times; [n] counts
    the iterations that are left. *)
Fixpoint header_crc_loop (n : nat) (header : bytes) (crc i : Z) : result Z :=
  match n with
  | O => Ok crc
  | S n' =>
      (x <- getitem header i ;;
       crc' <- getitem CRC8_TABLE (Z.lxor crc (byte_val x)) ;;
       header_crc_loop n' header crc' (i + 1))%result
  end.

Definition header_crc (header : bytes) : result Z :=
  header_crc_loop (length header) header 0xFF 0.

Fixpoint data_crc_loop (n : nat) (data : bytes) (crc i : Z) : result Z :=
  match n with
  | O => Ok crc
  | S n' =>
      (x <- getitem data i ;;
       t <- getitem CRC16_TABLE (Z.lxor (Z.shiftr crc 8) (byte_val x)) ;;
       data_crc_loop n' data (Z.lxor (Z.shiftl crc 8 mod 0x10000) t) (i + 1))%result
  end.

Definition data_crc (data : bytes) : result Z :=
  data_crc_loop (length data) data 0xFFFF 0.

(** The checksums as the specification words them: left folds over the
    bytes, with total table look-ups. *)
Definition TABLE8 (k : Z) : Z := nth (Z.to_nat k) CRC8_TABLE 0.
Definition TABLE16 (k : Z) : Z := nth (Z.to_nat k) CRC16_TABLE 0.

Definition header_crc8_step (crc : Z) (x : byte) : Z :=
  TABLE8 (Z.lxor crc (byte_val x)).

Definition payload_crc16_step (crc : Z) (x : byte) : Z :=
  Z.lxor (Z.shiftl crc 8 mod 0x10000) (TABLE16 (Z.lxor (Z.shiftr crc 8) (byte_val x))).

Definition header_crc8 (b : bytes) : Z := fold_left header_crc8_step b 0xFF.
Definition payload_crc16 (b : bytes) : Z := fold_left payload_crc16_step b 0xFFFF.

(** ** Numbers, dictionaries and the clock *)

(** A keyword argument is an [int] or a [float] (binary64). *)
Inductive pynum : Set :=
| PyInt (z : Z)
| PyFloat (f : float).

(** [kwargs]: a dictionary with string keys. *)
Definition dict := list (string * pynum).

Fixpoint dict_getitem (d : dict) (k : string) : result pynum :=
  match d with
  | [] => Raise KeyError
  | (k', v) :: d' => if String.eqb k k' then Ok v else dict_getitem d' k
  end.

(** [x < 0]. *)
Definition py_lt0 (x : pynum) : bool :=
  match x with
  | PyInt z => z <? 0
  | PyFloat f => PrimFloat.ltb f 0
  end.

(** [float(z)], exact for [0 <= z <= 2^53]. *)
Definition float_of_Z (z : Z) : float := PrimFloat.of_uint63 (Uint63Axioms.of_Z z).

(** [int(f)]: the integer part of a float, towards zero. *)
Definition int_of_float (f : float) : result Z :=
  match Prim2SF f with
  | S754_nan => Raise ValueError
  | S754_infinity _ => Raise OverflowError
  | S754_zero _ => Ok 0
  | S754_finite s m e =>
      let a := if 0 <=? e then Z.pos m * 2 ^ e else Z.pos m / 2 ^ (- e) in
      Ok (if s then - a else a)
  end.

(** [int(abs(x) / d * 0xFFFFFFFF)] for a float [x] and [d] one of 90, 180. *)
Definition coord_int (f : float) (d : Z) : result Z :=
  int_of_float (PrimFloat.mul (PrimFloat.div (PrimFloat.abs f) (float_of_Z d))
                              (float_of_Z 0xFFFFFFFF)).

(** [int(abs(x) / d * 0xFFFFFFFF).to_bytes(4, byteorder='little')].
    For an [int] up to [2^53] the true division is the binary64 division of
    the converted operands.  Above [2^53] the quotient by 90 or 180, times
    [0xFFFFFFFF], is infinite or beyond four bytes, and the expression
    raises [OverflowError] at one of its three steps. *)
Definition coord_bytes (x : pynum) (d : Z) : result bytes :=
  match x with
  | PyFloat f => (n <- coord_int f d ;; to_bytes 4 n)%result
  | PyInt z =>
      if Z.abs z <=? 2 ^ 53
      then (n <- coord_int (float_of_Z (Z.abs z)) d ;; to_bytes 4 n)%result
      else Raise OverflowError
  end.

(** [int(x * 10).to_bytes(2, byteorder='little')]. *)
Definition speed_bytes (x : pynum) : result bytes :=
  match x with
  | PyInt z => to_bytes 2 (z * 10)
  | PyFloat f => (n <- int_of_float (PrimFloat.mul f (float_of_Z 10)) ;; to_bytes 2 n)%result
  end.

(** A [datetime] is the number of microseconds since
    [datetime(2010, 1, 1, 0, 0, 0)]. *)
Definition datetime := Z.

(** [get_date_time]: whole seconds, towards zero, of the time since the
    initial date less 180 minutes.  (The source truncates the float
    [total_seconds()]; the two agree while the result is below [2 ^ 34],
    which covers every result that fits the four bytes the callers ask
    for, and from there on both are outside these four bytes.) *)
Definition get_date_time (value : datetime) : Z :=
  Z.quot (value - 180 * 60 * 1000000) 1000000.

(** ** The session object *)

Record EGTStrack : Type := mkEGTStrack {
  _tid : Z;
  _imei : string;
  _pt : bytes;
  _hcs : bytes;
  _sfrcs : Z + bytes;
  _service : option bytes;
  _fdl : bytes;
  _pid : Z;
  _rn : Z
}.

Definition set_pt (v : bytes) (o : EGTStrack) : EGTStrack :=
  mkEGTStrack (_tid o) (_imei o) v (_hcs o) (_sfrcs o) (_service o) (_fdl o) (_pid o) (_rn o).
Definition set_hcs (v : bytes) (o : EGTStrack) : EGTStrack :=
  mkEGTStrack (_tid o) (_imei o) (_pt o) v (_sfrcs o) (_service o) (_fdl o) (_pid o) (_rn o).
Definition set_sfrcs (v : Z + bytes) (o : EGTStrack) : EGTStrack :=
  mkEGTStrack (_tid o) (_imei o) (_pt o) (_hcs o) v (_service o) (_fdl o) (_pid o) (_rn o).
Definition set_service (v : option bytes) (o : EGTStrack) : EGTStrack :=
  mkEGTStrack (_tid o) (_imei o) (_pt o) (_hcs o) (_sfrcs o) v (_fdl o) (_pid o) (_rn o).
Definition set_fdl (v : bytes) (o : EGTStrack) : EGTStrack :=
  mkEGTStrack (_tid o) (_imei o) (_pt o) (_hcs o) (_sfrcs o) (_service o) v (_pid o) (_rn o).
Definition set_pid (v : Z) (o : EGTStrack) : EGTStrack :=
  mkEGTStrack (_tid o) (_imei o) (_pt o) (_hcs o) (_sfrcs o) (_service o) (_fdl o) v (_rn o).
Definition set_rn (v : Z) (o : EGTStrack) : EGTStrack :=
  mkEGTStrack (_tid o) (_imei o) (_pt o) (_hcs o) (_sfrcs o) (_service o) (_fdl o) (_pid o) v.

(** A method: it reads and writes the fields of [self], and returns a value
    or raises; what it wrote before raising stays written. *)
Definition M (A : Type) : Type := EGTStrack -> result A * EGTStrack.

Definition ret {A : Type} (a : A) : M A := fun self => (Ok a, self).
Definition raise {A : Type} (e : exn) : M A := fun self => (Raise e, self).
Definition lift {A : Type} (r : result A) : M A := fun self => (r, self).
Definition get : M EGTStrack := fun self => (Ok self, self).
Definition modify (f : EGTStrack -> EGTStrack) : M unit := fun self => (Ok tt, f self).

Definition bind {A B : Type} (m : M A) (f : A -> M B) : M B :=
  fun self =>
    match m self with
    | (inl e, self') => (inl e, self')
    | (inr a, self') => f a self'
    end.

Declare Scope method_scope.
Delimit Scope method_scope with method.
Notation "x <- m ;; k" := (bind m (fun x => k))
  (at level 61, m at next level, right associativity) : method_scope.
Notation "m ;;; k" := (bind m (fun _ => k))
  (at level 61, right associativity) : method_scope.

(** [s.encode('utf-8')]: a [string] is held as its UTF-8 bytes. *)
Definition encode (s : string) : bytes := list_byte_of_string s.

(** [str(deviceimei)]. *)
Definition str (deviceimei : option string) : string :=
  match deviceimei with
  | Some s => s
  | None => "None"%string
  end.

(** The bytes held so far, for [self._service += ...]. *)
Definition pending (self : EGTStrack) : bytes :=
  match _service self with
  | Some b => b
  | None => []
  end.

(** ** Record accumulator: [add_service] *)

Section AddService.

Variable record_types : Z.
Variable kwargs : dict.
(** The clock as read for [tm] and, in the position branch, for [ntm]. *)
Variables now_tm now_ntm : datetime.
(** [rn], [sst], [rst], [rfl] as they are when the branches start. *)
Variable rn : bytes.

Local Open Scope method_scope.

(** Each branch leaves the two locals [headService] and [_service]. *)

(** [record_types == 1]: terminal identity. *)
Definition add_service_1 : M (bytes * bytes) :=
  let sst := [x01] in
  let rst := [x01] in
  self <- get ;;
  _oid <- lift (to_bytes 4 (_tid self)) ;;
  tm <- lift (to_bytes 4 (get_date_time now_tm)) ;;
  let rfl := [x05] in
  modify (set_pt [x01]) ;;;
  srt <- lift (to_bytes 1 record_types) ;;
  tid <- lift (to_bytes 4 (_tid self)) ;;
  let mservice :=
    (tid ++ [x9e] ++ encode (_imei self) ++ encode "0000000000000000"
         ++ encode "rus" ++ encode "000000000000000")%list in
  srl <- lift (to_bytes 2 (len mservice)) ;;
  let service := (srt ++ srl ++ mservice)%list in
  rl <- lift (to_bytes 2 (len service)) ;;
  let headService := (rl ++ rn ++ rfl ++ _oid ++ tm ++ sst ++ rst)%list in
  ret (headService, service).

(** [record_types == 2]: module data. *)
Definition add_service_2 : M (bytes * bytes) :=
  let sst := [x01] in
  let rst := [x01] in
  let rfl := [x05] in
  self <- get ;;
  _oid <- lift (to_bytes 4 (_tid self)) ;;
  tm <- lift (to_bytes 4 (get_date_time now_tm)) ;;
  srt <- lift (to_bytes 1 record_types) ;;
  let mservice :=
    ([x03]
       ++ [x11; x31; x31; x31; x31; x31; x31]
       ++ [x11; x31; x31]
       ++ [x11; x31; x31]
       ++ [x01]
       ++ [x01]
       ++ [x00]
       ++ [x00]
       ++ [x11; x31; x31; x31; x31; x31; x31])%list in
  srl <- lift (to_bytes 2 (len mservice)) ;;
  let service := (srt ++ srl ++ mservice)%list in
  rl <- lift (to_bytes 2 (len service)) ;;
  let headService := (rl ++ rn ++ rfl ++ _oid ++ tm ++ sst ++ rst)%list in
  ret (headService, service).

(** [record_types == 16]: position data. *)
Definition add_service_16 : M (bytes * bytes) :=
  let sst := [x02] in
  let rst := [x02] in
  self <- get ;;
  _oid <- lift (to_bytes 4 (_tid self)) ;;
  tm <- lift (to_bytes 4 (get_date_time now_tm)) ;;
  let rfl := [x05] in
  modify (set_pt [x01]) ;;;
  srt <- lift (to_bytes 1 record_types) ;;
  let llflags := 1 in
  long <- lift (dict_getitem kwargs "long") ;;
  let llflags := if py_lt0 long then Z.lor llflags 2 else llflags in
  lat <- lift (dict_getitem kwargs "lat") ;;
  let llflags := if py_lt0 lat then Z.lor llflags 4 else llflags in
  _long <- lift (coord_bytes long 180) ;;
  lat <- lift (coord_bytes lat 90) ;;
  ntm <- lift (to_bytes 4 (get_date_time now_ntm)) ;;
  flags <- lift (to_bytes 1 llflags) ;;
  speed <- lift (dict_getitem kwargs "speed") ;;
  spd <- lift (speed_bytes speed) ;;
  dir <- lift (to_bytes 1 0) ;;
  odm <- lift (to_bytes 3 1200) ;;
  let din := [x01] in
  let src := [x00] in
  let mservice :=
    (ntm ++ lat ++ _long ++ flags ++ spd ++ dir ++ odm ++ din ++ src)%list in
  srl <- lift (to_bytes 2 (len mservice)) ;;
  let service := (srt ++ srl ++ mservice)%list in
  rl <- lift (to_bytes 2 (len service)) ;;
  let headService := (rl ++ rn ++ rfl ++ _oid ++ tm ++ sst ++ rst)%list in
  ret (headService, service).

(** [record_types == 4]: service identity; no object id and no time in the
    record header, and [rfl] keeps its initial value. *)
Definition add_service_4 : M (bytes * bytes) :=
  let sst := [x01] in
  let rst := [x01] in
  let rfl := [x00] in
  modify (set_pt [x01]) ;;;
  self <- get ;;
  srt <- lift (to_bytes 1 record_types) ;;
  tid <- lift (to_bytes 4 (_tid self)) ;;
  let mservice := ([x02] ++ [x02] ++ tid ++ [x02] ++ encode (_imei self))%list in
  srl <- lift (to_bytes 2 (len mservice)) ;;
  let service := (srt ++ srl ++ mservice)%list in
  rl <- lift (to_bytes 2 (len service)) ;;
  let headService := (rl ++ rn ++ rfl ++ sst ++ rst)%list in
  ret (headService, service).

(** The [if]/[elif] chain; with no branch taken the two locals stay
    unbound. *)
Definition add_service_branches : M (option (bytes * bytes)) :=
  if record_types =? 1 then r <- add_service_1 ;; ret (Some r)
  else if record_types =? 2 then r <- add_service_2 ;; ret (Some r)
  else if record_types =? 16 then r <- add_service_16 ;; ret (Some r)
  else if record_types =? 4 then r <- add_service_4 ;; ret (Some r)
  else ret None.

End AddService.

(** [add_service(record_types, **kwargs)].  The buffer is made the empty
    byte string if it is [None], the record number is encoded, a branch is
    taken, and only then is the record put at the end of the buffer and the
    counter moved on; [headService + _service] with the locals unbound
    raises [UnboundLocalError]. *)
Definition add_service (record_types : Z) (kwargs : dict)
    (now_tm now_ntm : datetime) : M unit :=
  (self <- get ;;
   match _service self with
   | None => modify (set_service (Some []))
   | Some _ => ret tt
   end ;;;
   rn <- lift (to_bytes 2 (_rn self)) ;;
   r <- add_service_branches record_types kwargs now_tm now_ntm rn ;;
   match r with
   | None => raise UnboundLocalError
   | Some (headService, service) =>
       self <- get ;;
       match _service self with
       | None => raise TypeError
       | Some b => modify (set_service (Some (b ++ headService ++ service)%list))
       end ;;;
       self <- get ;;
       modify (set_rn (_rn self + 1))
   end)%method.

(** ** Packet assembler: the [bytes] property and [new_message] *)

(** The property [bytes]: the ten header bytes, from the fields as they
    are when it is read. *)
Definition bytes_property : M bytes :=
  (self <- get ;;
   let packetPVR := [x01] in
   let packetSKID := [x00] in
   let packetFLAGS := [x00] in
   let packetHL := [x0b] in
   let packetHE := [x00] in
   pid <- lift (to_bytes 2 (_pid self)) ;;
   ret (packetPVR ++ packetSKID ++ packetFLAGS ++ packetHL ++ packetHE
          ++ _fdl self ++ pid ++ _pt self)%list)%method.

(** [new_message].  Past the guard the inner test [self._service != None]
    holds, and the fields [_hcs], [_service] and [_sfrcs] that are read for
    the result are the ones just written or tested, so they appear here as
    the locals [hcs], [service] and [sfrcs]. *)
Definition new_message : M bytes :=
  (self <- get ;;
   match _service self with
   | None => raise TypeError
   | Some service =>
       modify (set_pid (_rn self)) ;;;
       crc <- lift (data_crc service) ;;
       sfrcs <- lift (to_bytes 2 crc) ;;
       modify (set_sfrcs (inr sfrcs)) ;;;
       fdl <- lift (to_bytes 2 (len service)) ;;
       modify (set_fdl fdl) ;;;
       getBytes <- bytes_property ;;
       hc <- lift (header_crc getBytes) ;;
       hcs <- lift (to_bytes 1 hc) ;;
       modify (set_hcs hcs) ;;;
       let getBytes := (getBytes ++ hcs ++ service ++ sfrcs)%list in
       modify (set_service None) ;;;
       ret getBytes
   end)%method.

(** ** Construction *)

(** [EGTStrack(deviceid, deviceimei)], with [deviceid] already an [int];
    [now] is the clock as read by the [add_service(1)] the constructor
    makes.  A constructor that raises leaves no object. *)
Definition __init__ (deviceid : Z) (deviceimei : option string) (now : datetime)
    : result EGTStrack :=
  let self :=
    {| _tid := deviceid;
       _imei := str deviceimei;
       _pt := [x01];
       _hcs := [x00];
       _sfrcs := inl 0;
       _service := None;
       _fdl := [x00; x30; x30];
       _pid := 1;
       _rn := 1 |} in
  match add_service 1 [] now now self with
  | (inl e, _) => Raise e
  | (inr _, self') => Ok self'
  end.

(** ** Notions the properties are stated with *)

Definition all_below (bound : Z) (t : list Z) : bool :=
  forallb (fun v => (0 <=? v) && (v <? bound)) t.

(** The transport header of a packet, before its checksum. *)
Definition header_of (fdl pid pt : bytes) : bytes :=
  [x01] ++ [x00] ++ [x00] ++ [x0b] ++ [x00] ++ fdl ++ pid ++ pt.

(** The packet [new_message] returns for a buffer [service], counter [rn]
    and packet type [pt]. *)
Definition packet_of (service : bytes) (rn : Z) (pt : bytes) : bytes :=
  let h := header_of (le_bytes 2 (len service)) (le_bytes 2 rn) pt in
  h ++ le_bytes 1 (header_crc8 h) ++ service ++ le_bytes 2 (payload_crc16 service).

(** What [add_service] leaves alone: every field but the buffer and the
    counter, the packet type being rewritten with the value it has. *)
Definition frame (s s' : EGTStrack) : Prop :=
  _tid s' = _tid s /\ _imei s' = _imei s /\ _hcs s' = _hcs s
  /\ _sfrcs s' = _sfrcs s /\ _fdl s' = _fdl s /\ _pid s' = _pid s
  /\ (_pt s' = _pt s \/ _pt s' = [x01]).

Inductive call : Type :=
| Append (record_types : Z) (kwargs : dict) (now_tm now_ntm : datetime)
| Finalize.

(** The record a returning [add_service] has put at the end of the buffer. *)
Definition appended (s s' : EGTStrack) : bytes :=
  skipn (length (pending s)) (pending s').

(** The calls are made one after the other, a raised exception being caught
    by the caller; the result is the records appended, oldest first, and
    the session as the calls leave it. *)
Fixpoint run (calls : list call) (s : EGTStrack) : list bytes * EGTStrack :=
  match calls with
  | [] => ([], s)
  | Append record_types kwargs now_tm now_ntm :: calls' =>
      match add_service record_types kwargs now_tm now_ntm s with
      | (inl _, s') => run calls' s'
      | (inr _, s') =>
          let (records, s'') := run calls' s' in
          (appended s s' :: records, s'')
      end
  | Finalize :: calls' => run calls' (snd (new_message s))
  end.

(** The [record_number] field of a record: bytes 2 and 3, little-endian. *)
Definition record_number (record : bytes) : Z :=
  from_bytes (firstn 2 (skipn 2 record)).

(** The fields of a packet's transport header. *)
Definition frame_data_length (packet : bytes) : Z :=
  from_bytes (firstn 2 (skipn 5 packet)).
Definition packet_id (packet : bytes) : Z :=
  from_bytes (firstn 2 (skipn 7 packet)).

(** The numbers [first], [first + 1], ... *)
Fixpoint count_from (first : Z) (n : nat) : list Z :=
  match n with
  | O => []
  | S n' => first :: count_from (first + 1) n'
  end.

(** A session is made by the constructor and then goes from call to call;
    a call that raises leaves the session as the exception found it. *)
Inductive reachable : EGTStrack -> Prop :=
| reach_init (deviceid : Z) (deviceimei : option string) (now : datetime)
    (s : EGTStrack) :
    __init__ deviceid deviceimei now = Ok s -> reachable s
| reach_add_service (s s' : EGTStrack) (record_types : Z) (kwargs : dict)
    (now_tm now_ntm : datetime) (r : result unit) :
    reachable s ->
    add_service record_types kwargs now_tm now_ntm s = (r, s') ->
    reachable s'
| reach_new_message (s s' : EGTStrack) (r : result bytes) :
    reachable s -> new_message s = (r, s') -> reachable s'.

(** The terminal identity record ([record_types == 1]) of a terminal [tid]
    with hardware identifier [imei], at time [tm], numbered [rn]. *)
Definition record_1 (tid : Z) (imei : string) (tm rn : Z) : bytes :=
  let mservice :=
    le_bytes 4 tid ++ [x9e] ++ encode imei ++ encode "0000000000000000"
      ++ encode "rus" ++ encode "000000000000000" in
  let service := [x01] ++ le_bytes 2 (len mservice) ++ mservice in
  (le_bytes 2 (len service) ++ le_bytes 2 rn ++ [x05] ++ le_bytes 4 tid
     ++ le_bytes 4 tm ++ [x01] ++ [x01]) ++ service.

(** The service identity record ([record_types == 4]). *)
Definition record_4 (tid : Z) (imei : string) (rn : Z) : bytes :=
  let mservice := [x02] ++ [x02] ++ le_bytes 4 tid ++ [x02] ++ encode imei in
  let service := le_bytes 1 4 ++ le_bytes 2 (len mservice) ++ mservice in
  (le_bytes 2 (len service) ++ le_bytes 2 rn ++ [x00] ++ [x01] ++ [x01])
    ++ service.

(** [n] service identity records appended one after the other. *)
Definition appends_4 (n : nat) : list call := repeat (Append 4 [] 0 0) n.

(** [n] times: a service identity record is appended and the packet that
    holds it is taken. *)
Fixpoint cycles_4 (n : nat) : list call :=
  match n with
  | O => []
  | S n' => Append 4 [] 0 0 :: Finalize :: cycles_4 n'
  end.

(** [llflags] as the position branch leaves it. *)
Definition position_flags (long lat : pynum) : Z :=
  let llflags := 1 in
  let llflags := if py_lt0 long then Z.lor llflags 2 else llflags in
  if py_lt0 lat then Z.lor llflags 4 else llflags.

(** The position record ([record_types == 16]) from its encoded fields. *)
Definition record_16 (tid tm ntm rn : Z) (lat long : bytes) (llflags : Z)
    (spd : bytes) : bytes :=
  let mservice :=
    le_bytes 4 ntm ++ lat ++ long ++ le_bytes 1 llflags ++ spd
      ++ le_bytes 1 0 ++ le_bytes 3 1200 ++ [x01] ++ [x00] in
  let service := le_bytes 1 16 ++ le_bytes 2 (len mservice) ++ mservice in
  (le_bytes 2 (len service) ++ le_bytes 2 rn ++ [x05] ++ le_bytes 4 tid
     ++ le_bytes 4 tm ++ [x02] ++ [x02]) ++ service.



(** The driver's first point: longitude 40.055205, latitude 47.423826 (the
    binary64 values these decimals denote), speed 90. *)
Definition demo_long : float := 0x1.40710f51ac9bp+5%float.
Definition demo_lat : float := 0x1.7b63fee2c98e5p+5%float.
Definition demo_kwargs : dict :=
  [("long"%string, PyFloat demo_long); ("lat"%string, PyFloat demo_lat);
   ("speed"%string, PyInt 90)].

(** A call in a script: an exception ends the script. *)
Definition call_ok {A : Type} (m : M A) (s : EGTStrack) : result (A * EGTStrack) :=
  match m s with
  | (inl e, _) => Raise e
  | (inr a, s') => Ok (a, s')
  end.

(** A session for terminal 111111111; the caller appends a terminal
    identity record, then the position record of the driver's first point,
    and takes the packet.  [t0] .. [t3] are the clock as the four reads
    find it. *)
Definition end_to_end (deviceimei : option string) (t0 t1 t2 t3 : datetime)
    : result bytes :=
  (s0 <- __init__ 111111111 deviceimei t0 ;;
   r1 <- call_ok (add_service 1 [] t1 t1) s0 ;;
   r2 <- call_ok (add_service 16 demo_kwargs t2 t3) (snd r1) ;;
   r3 <- call_ok new_message (snd r2) ;;
   Ok (fst r3))%result.

(** The same with the constructor's terminal identity record as the only
    one. *)
Definition end_to_end_implicit (deviceimei : option string)
    (t0 t2 t3 : datetime) : result bytes :=
  (s0 <- __init__ 111111111 deviceimei t0 ;;
   r2 <- call_ok (add_service 16 demo_kwargs t2 t3) s0 ;;
   r3 <- call_ok new_message (snd r2) ;;
   Ok (fst r3))%result.

(** The last two bytes of a packet. *)
Definition trailer (packet : bytes) : bytes :=
  skipn (length packet - 2) packet.

(** The position record of the driver's first point. *)
Definition demo_record_16 (tm ntm rn : Z) : bytes :=
  record_16 111111111 tm ntm rn (le_bytes 4 2263153129) (le_bytes 4 955754419)
    (position_flags (PyFloat demo_long) (PyFloat demo_lat)) (le_bytes 2 900).

(** ** More of the source, and notions for the further properties *)

(** The first and the last microsecond (counted from the initial date) at
    which [get_date_time] fits the four bytes of a time field:
    2010-01-01T02:59:59.000001 and 2146-02-07T09:28:15.999999. *)
Definition clock_first : datetime := 10799000001.
Definition clock_last : datetime := 4294978095999999.

(** The module data record ([record_types == 2]): its body is constant. *)
Definition record_2_body : bytes :=
  [x03] ++ [x11; x31; x31; x31; x31; x31; x31] ++ [x11; x31; x31]
    ++ [x11; x31; x31] ++ [x01] ++ [x01] ++ [x00] ++ [x00]
    ++ [x11; x31; x31; x31; x31; x31; x31].

(** A record with the common header: [record_length(2) | record_number(2) |
    record_flags(1) | object_id(4) | time(4) | sst(1) | rst(1)], then
    [subrecord_type(1) | subrecord_length(2) | body]. *)
Definition framed (rn tid tm : Z) (rfl : byte) (sst rst : bytes) (srt : Z)
    (body : bytes) : bytes :=
  let service := le_bytes 1 srt ++ le_bytes 2 (len body) ++ body in
  (le_bytes 2 (len service) ++ le_bytes 2 rn ++ [rfl] ++ le_bytes 4 tid
     ++ le_bytes 4 tm ++ sst ++ rst) ++ service.

(** One bit of the division by the polynomial [poly], in a register of [w]
    bits: shift left, and subtract the polynomial if a one came out. *)
Definition crc_shift (w poly crc : Z) : Z :=
  if Z.testbit crc (w - 1)
  then Z.lxor (Z.shiftl crc 1 mod 2 ^ w) poly
  else Z.shiftl crc 1 mod 2 ^ w.

Definition crc_shift8 (w poly crc : Z) : Z :=
  crc_shift w poly (crc_shift w poly (crc_shift w poly (crc_shift w poly
    (crc_shift w poly (crc_shift w poly (crc_shift w poly
      (crc_shift w poly crc))))))).

(** CRC-8 with polynomial [0x31] and CRC-16 with polynomial [0x1021], a
    byte at a time and most significant bit first, without tables. *)
Definition crc8_bitwise_step (crc : Z) (x : byte) : Z :=
  crc_shift8 8 0x31 (Z.lxor crc (byte_val x)).
Definition crc16_bitwise_step (crc : Z) (x : byte) : Z :=
  crc_shift8 16 0x1021 (Z.lxor crc (Z.shiftl (byte_val x) 8)).
Definition crc8_bitwise (b : bytes) : Z := fold_left crc8_bitwise_step b 0xFF.
Definition crc16_bitwise (b : bytes) : Z :=
  fold_left crc16_bitwise_step b 0xFFFF.

(** The integers [0 .. n-1]. *)
Definition below (n : nat) : list Z := map Z.of_nat (seq 0 n).

(** The table step of [data_crc] on a 16-bit register is eight bits of the
    division; [crc16_register_ok] says so of one register. *)
Definition crc16_register_ok (v : Z) : bool :=
  Z.lxor (Z.shiftl v 8 mod 65536) (TABLE16 (Z.shiftr v 8))
  =? crc_shift8 16 0x1021 v.

(** [f] takes different values at different indices below 256. *)
Definition injective_below_256 (f : Z -> Z) : bool :=
  forallb
    (fun i => forallb (fun j => implb (f i =? f j) (i =? j)) (below 256))
    (below 256).

(** [header]: its body is [pass]. *)
Definition header : M unit := ret tt.

(** [b.hex()]: two lower-case hexadecimal digits a byte. *)
Definition hex_digits : list Ascii.ascii := list_ascii_of_string "0123456789abcdef".

Definition hex_digit (n : Z) : Ascii.ascii :=
  nth (Z.to_nat n) hex_digits Ascii.zero.

Fixpoint hex (b : bytes) : string :=
  match b with
  | [] => EmptyString
  | x :: b' =>
      String (hex_digit (byte_val x / 16))
        (String (hex_digit (byte_val x mod 16)) (hex b'))
  end.

(** [__str__]: [self.new_message().hex()]. *)
Definition __str__ : M string := (b <- new_message ;; ret (hex b))%method.

(** Reading hexadecimal back, as [bytes.fromhex] does for a string without
    spaces. *)
Fixpoint hex_index (a : Ascii.ascii) (l : list Ascii.ascii) (i : Z) : option Z :=
  match l with
  | [] => None
  | a' :: l' => if Ascii.eqb a a' then Some i else hex_index a l' (i + 1)
  end.

Definition hex_value (a : Ascii.ascii) : option Z := hex_index a hex_digits 0.

Fixpoint fromhex (s : string) : option bytes :=
  match s with
  | EmptyString => Some []
  | String a (String b s') =>
      match hex_value a, hex_value b, fromhex s' with
      | Some h, Some l, Some r => Some (byte_of_Z (16 * h + l) :: r)
      | _, _, _ => None
      end
  | String _ EmptyString => None
  end.

(** A point of [masspoint]: the keywords the loop passes on. *)
Definition gpoint (long lat : float) : dict :=
  [("long"%string, PyFloat long); ("lat"%string, PyFloat lat);
   ("speed"%string, PyInt 90)].

(** [masspoint]: the eight points, as the binary64 values their decimals
    denote (40.055205, 47.423826; 39.7202, 46.969264; ...). *)
Definition masspoint : list dict :=
  [gpoint 0x1.40710f51ac9b0p+5 0x1.7b63fee2c98e5p+5;
   gpoint 0x1.3dc2f837b4a23p+5 0x1.77c10d7be9857p+5;
   gpoint 0x1.3915d91ab8e8fp+5 0x1.698f9096bb98cp+5;
   gpoint 0x1.3b49bf9c62a1bp+5 0x1.6be3a8e71476bp+5;
   gpoint 0x1.415d1782d3847p+5 0x1.6ec197e564734p+5;
   gpoint 0x1.3f87d4e09784fp+5 0x1.727c01a36e2ebp+5;
   gpoint 0x1.3d7883ba3443dp+5 0x1.744ef3d3a1d32p+5;
   gpoint 0x1.40710f51ac9b0p+5 0x1.7b63fee2c98e5p+5].

(** What ends the script early: an exception of the class, or a call to
    the socket or to [time.sleep] that raises.  These calls are numbered as
    the script makes them: [socket.socket()] is number 0, [sock.connect]
    number 1, and so on. *)
Inductive stop : Type :=
| Raised (e : exn)
| Failed (call : nat).

Section Script.

(** The clock as the script's reads find it, the first read being number
    0. *)
Variable clock : nat -> datetime.

(** Whether the script's call number [i] to the socket or to [time.sleep]
    returns; it raises otherwise. *)
Variable returns : nat -> bool.

(** The loop [for gpoint in masspoint] and the [sock.close()] after it.
    The next read of the clock is number [k], the next call to the socket
    number [i].  The result is the messages [sendall] has returned for, in
    order, and what ended the script early, if anything did. *)
Fixpoint send_points (points : list dict) (k i : nat) (s : EGTStrack)
    : list bytes * option stop :=
  match points with
  | [] => ([], if returns i then None else Some (Failed i))
  | g :: points' =>
      match add_service 16 g (clock k) (clock (S k)) s with
      | (inl e, _) => ([], Some (Raised e))
      | (inr _, s1) =>
          match new_message s1 with
          | (inl e, _) => ([], Some (Raised e))
          | (inr message_b, s2) =>
              if negb (returns i) then ([], Some (Failed i))
              else if negb (returns (S i))
              then ([message_b], Some (Failed (S i)))
              else if negb (returns (S (S i)))
              then ([message_b], Some (Failed (S (S i))))
              else
                let (sent, e) :=
                  send_points points' (S (S k)) (S (S (S i))) s2 in
                (message_b :: sent, e)
          end
      end
  end.

(** Lines 273 to 301: [socket.socket()], [sock.connect], the constructor,
    [new_message], [sock.sendall], [sock.recv], then the loop.  The [print]
    calls are left out here too. *)
Definition script : list bytes * option stop :=
  if negb (returns 0) then ([], Some (Failed 0))
  else if negb (returns 1) then ([], Some (Failed 1))
  else
    match __init__ 111111111 (Some "865811111111111"%string) (clock 0) with
    | inl e => ([], Some (Raised e))
    | inr cmd1 =>
        match new_message cmd1 with
        | (inl e, _) => ([], Some (Raised e))
        | (inr message_b, cmd1') =>
            if negb (returns 2) then ([], Some (Failed 2))
            else if negb (returns 3) then ([message_b], Some (Failed 3))
            else
              let (sent, e) := send_points masspoint 1 4 cmd1' in
              (message_b :: sent, e)
        end
    end.

End Script.

(** The keywords of a position record are there and encode. *)
Definition encodable (g : dict) : bool :=
  match dict_getitem g "long", dict_getitem g "lat", dict_getitem g "speed" with
  | inr long, inr lat, inr speed =>
      match coord_bytes long 180, coord_bytes lat 90, speed_bytes speed with
      | inr _, inr _, inr _ => true
      | _, _, _ => false
      end
  | _, _, _ => false
  end.

(** The packets a sequence of calls returns, oldest first. *)
Fixpoint packets (calls : list call) (s : EGTStrack) : list bytes :=
  match calls with
  | [] => []
  | Append record_types kwargs now_tm now_ntm :: calls' =>
      packets calls' (snd (add_service record_types kwargs now_tm now_ntm s))
  | Finalize :: calls' =>
      match new_message s with
      | (inl _, s') => packets calls' s'
      | (inr packet, s') => packet :: packets calls' s'
      end
  end.

(** The same packets, each with the record counter [new_message] found
    when it was called. *)
Fixpoint finalized (calls : list call) (s : EGTStrack) : list (Z * bytes) :=
  match calls with
  | [] => []
  | Append record_types kwargs now_tm now_ntm :: calls' =>
      finalized calls' (snd (add_service record_types kwargs now_tm now_ntm s))
  | Finalize :: calls' =>
      match new_message s with
      | (inl _, s') => finalized calls' s'
      | (inr packet, s') => (_rn s, packet) :: finalized calls' s'
      end
  end.

(** Each number is at least the one before it, the first at least [lo]. *)
Fixpoint nondecreasing (lo : Z) (l : list Z) : Prop :=
  match l with
  | [] => True
  | x :: l' => lo <= x /\ nondecreasing x l'
  end.

(** * Properties *)

(** ** Bytes and little-endian integers *)

Lemma byte_val_range (b : byte) : 0 <= byte_val b < 256.
Proof.
  unfold byte_val. pose proof (Byte.to_N_bounded b). lia.
Qed.

Lemma byte_val_of_Z (z : Z) : byte_val (byte_of_Z z) = z mod 256.
Proof.
  unfold byte_val, byte_of_Z.
  pose proof (Z.mod_pos_bound z 256 eq_refl) as Hm.
  destruct (Byte.of_N (Z.to_N (z mod 256))) as [b|] eqn:E.
  - apply Byte.to_of_N in E. rewrite E. lia.
  - apply Byte.of_N_None_iff in E. lia.
Qed.

Lemma byte_of_Z_val (b : byte) : byte_of_Z (byte_val b) = b.
Proof.
  unfold byte_of_Z, byte_val.
  pose proof (Byte.to_N_bounded b) as Hb.
  rewrite Z.mod_small by lia.
  rewrite N2Z.id, Byte.of_to_N. reflexivity.
Qed.

Lemma len_app {A : Type} (l1 l2 : list A) : len (l1 ++ l2) = len l1 + len l2.
Proof. unfold len. rewrite length_app. lia. Qed.

Lemma len_nonneg {A : Type} (l : list A) : 0 <= len l.
Proof. unfold len. lia. Qed.

Lemma le_bytes_length (n : nat) (z : Z) : length (le_bytes n z) = n.
Proof.
  revert z. induction n as [|n IH]; intros z; simpl; [reflexivity|].
  now rewrite IH.
Qed.

Lemma from_bytes_le_bytes (n : nat) (z : Z) :
  0 <= z < 256 ^ Z.of_nat n -> from_bytes (le_bytes n z) = z.
Proof.
  revert z. induction n as [|n IH]; intros z Hz.
  - simpl in *. lia.
  - cbn [le_bytes from_bytes].
    rewrite byte_val_of_Z, IH.
    + pose proof (Z.div_mod z 256 ltac:(lia)). lia.
    + rewrite Nat2Z.inj_succ, Z.pow_succ_r in Hz by lia.
      split; [apply Z.div_pos; lia | apply Z.div_lt_upper_bound; lia].
Qed.

Lemma to_bytes_ok (n : nat) (z : Z) :
  0 <= z < 256 ^ Z.of_nat n -> to_bytes n z = Ok (le_bytes n z).
Proof.
  intros [H0 H1]. unfold to_bytes.
  apply Z.leb_le in H0. apply Z.ltb_lt in H1. now rewrite H0, H1.
Qed.

Lemma to_bytes_inv (n : nat) (z : Z) (b : bytes) :
  to_bytes n z = inr b -> 0 <= z < 256 ^ Z.of_nat n /\ b = le_bytes n z.
Proof.
  unfold to_bytes.
  destruct (0 <=? z) eqn:H0; destruct (z <? 256 ^ Z.of_nat n) eqn:H1;
    simpl; intros E; try discriminate.
  apply Z.leb_le in H0. apply Z.ltb_lt in H1.
  inversion E. auto.
Qed.

Lemma to_bytes_error (n : nat) (z : Z) (e : exn) :
  to_bytes n z = inl e -> e = OverflowError /\ ~ (0 <= z < 256 ^ Z.of_nat n).
Proof.
  unfold to_bytes.
  destruct (0 <=? z) eqn:H0; destruct (z <? 256 ^ Z.of_nat n) eqn:H1;
    simpl; intros E; inversion E; split; trivial;
    try apply Z.leb_gt in H0; try apply Z.ltb_ge in H1; lia.
Qed.

(** ** Checksum engine *)

Lemma lxor_range (n a b : Z) :
  0 <= n -> 0 <= a < 2 ^ n -> 0 <= b < 2 ^ n -> 0 <= Z.lxor a b < 2 ^ n.
Proof.
  intros Hn Ha Hb.
  assert (H0 : 0 <= Z.lxor a b) by (apply Z.lxor_nonneg; lia).
  split; [exact H0|].
  destruct (Z.eq_dec (Z.lxor a b) 0) as [E|E].
  { rewrite E. apply Z.pow_pos_nonneg; lia. }
  assert (Hn' : 0 < n).
  { destruct (Z.eq_dec n 0) as [->|]; [|lia].
    exfalso. apply E.
    replace a with 0 by (simpl in Ha; lia). replace b with 0 by (simpl in Hb; lia).
    reflexivity. }
  apply Z.log2_lt_pow2; [lia|].
  pose proof (Z.log2_lxor a b (proj1 Ha) (proj1 Hb)) as Hl.
  assert (Hla : Z.log2 a < n).
  { destruct (Z.eq_dec a 0) as [->|]; [simpl|apply Z.log2_lt_pow2]; lia. }
  assert (Hlb : Z.log2 b < n).
  { destruct (Z.eq_dec b 0) as [->|]; [simpl|apply Z.log2_lt_pow2]; lia. }
  lia.
Qed.

Lemma all_below_nth (bound : Z) (t : list Z) (k : nat) :
  all_below bound t = true -> (k < length t)%nat -> 0 <= nth k t 0 < bound.
Proof.
  unfold all_below. intros H Hk.
  rewrite forallb_forall in H.
  specialize (H (nth k t 0) (nth_In t 0 Hk)).
  apply andb_true_iff in H. destruct H as [H0 H1].
  apply Z.leb_le in H0. apply Z.ltb_lt in H1. lia.
Qed.

Lemma TABLE8_range (k : Z) : 0 <= k < 256 -> 0 <= TABLE8 k < 256.
Proof.
  intros Hk. unfold TABLE8.
  apply all_below_nth; [vm_compute; reflexivity|].
  change (length CRC8_TABLE) with 256%nat. lia.
Qed.

Lemma TABLE16_range (k : Z) : 0 <= k < 256 -> 0 <= TABLE16 k < 65536.
Proof.
  intros Hk. unfold TABLE16.
  apply all_below_nth; [vm_compute; reflexivity|].
  change (length CRC16_TABLE) with 256%nat. lia.
Qed.

Lemma getitem_nth (t : list Z) (k : Z) :
  0 <= k < len t -> getitem t k = Ok (nth (Z.to_nat k) t 0).
Proof.
  intros [H0 H1]. unfold getitem, len in *.
  replace (k <? 0) with false by (symmetry; apply Z.ltb_ge; lia).
  replace (0 <=? k) with true by (symmetry; apply Z.leb_le; lia).
  replace (k <? Z.of_nat (length t)) with true by (symmetry; apply Z.ltb_lt; lia).
  simpl.
  destruct (nth_error t (Z.to_nat k)) as [a|] eqn:E.
  - now rewrite (nth_error_nth t _ 0 E).
  - apply nth_error_None in E. lia.
Qed.

Lemma getitem_app_head (pre suf : bytes) (x : byte) :
  getitem (pre ++ x :: suf) (len pre) = Ok x.
Proof.
  unfold getitem, len.
  replace (Z.of_nat (length pre) <? 0) with false by (symmetry; apply Z.ltb_ge; lia).
  replace (0 <=? Z.of_nat (length pre)) with true by (symmetry; apply Z.leb_le; lia).
  rewrite length_app. simpl length.
  replace (Z.of_nat (length pre) <? Z.of_nat (length pre + S (length suf)))
    with true by (symmetry; apply Z.ltb_lt; lia).
  simpl. rewrite Nat2Z.id, nth_error_app2, Nat.sub_diag by lia.
  reflexivity.
Qed.

Lemma header_crc8_step_range (crc : Z) (x : byte) :
  0 <= crc < 256 -> 0 <= header_crc8_step crc x < 256.
Proof.
  intros Hc. unfold header_crc8_step.
  apply TABLE8_range.
  apply (lxor_range (n := 8)); [lia | exact Hc | apply byte_val_range].
Qed.

Lemma payload_crc16_index_range (crc : Z) (x : byte) :
  0 <= crc < 65536 -> 0 <= Z.lxor (Z.shiftr crc 8) (byte_val x) < 256.
Proof.
  intros Hc.
  apply (lxor_range (n := 8)); [lia | | apply byte_val_range].
  rewrite Z.shiftr_div_pow2 by lia.
  split; [apply Z.div_pos; lia | apply Z.div_lt_upper_bound; lia].
Qed.

Lemma payload_crc16_step_range (crc : Z) (x : byte) :
  0 <= crc < 65536 -> 0 <= payload_crc16_step crc x < 65536.
Proof.
  intros Hc. unfold payload_crc16_step.
  apply (lxor_range (n := 16)); [lia | |].
  - apply (Z.mod_pos_bound (Z.shiftl crc 8) 65536). lia.
  - apply TABLE16_range, payload_crc16_index_range, Hc.
Qed.

Lemma header_crc8_fold_range (b : bytes) (crc : Z) :
  0 <= crc < 256 -> 0 <= fold_left header_crc8_step b crc < 256.
Proof.
  revert crc. induction b as [|x b IH]; intros crc Hc; simpl; [exact Hc|].
  apply IH, header_crc8_step_range, Hc.
Qed.

Lemma payload_crc16_fold_range (b : bytes) (crc : Z) :
  0 <= crc < 65536 -> 0 <= fold_left payload_crc16_step b crc < 65536.
Proof.
  revert crc. induction b as [|x b IH]; intros crc Hc; simpl; [exact Hc|].
  apply IH, payload_crc16_step_range, Hc.
Qed.

Lemma header_crc8_range (b : bytes) : 0 <= header_crc8 b < 256.
Proof. apply header_crc8_fold_range. lia. Qed.

Lemma payload_crc16_range (b : bytes) : 0 <= payload_crc16 b < 65536.
Proof. apply payload_crc16_fold_range. lia. Qed.

(** The index loop of [header_crc], started after a prefix [pre] that has
    been read, is the fold over what is left. *)
Lemma header_crc_loop_fold (suf pre : bytes) (crc : Z) :
  0 <= crc < 256 ->
  header_crc_loop (length suf) (pre ++ suf) crc (len pre)
  = Ok (fold_left header_crc8_step suf crc).
Proof.
  revert pre crc. induction suf as [|x suf IH]; intros pre crc Hc.
  - reflexivity.
  - cbn [length header_crc_loop fold_left].
    rewrite getitem_app_head. cbn [rbind Ok].
    rewrite getitem_nth.
    2:{ change (len CRC8_TABLE) with 256.
        apply (lxor_range (n := 8)); [lia | exact Hc | apply byte_val_range]. }
    cbn [rbind Ok].
    replace (pre ++ x :: suf) with ((pre ++ [x]) ++ suf) by now rewrite <- app_assoc.
    replace (len pre + 1) with (len (pre ++ [x])) by (rewrite len_app; reflexivity).
    apply IH. apply header_crc8_step_range, Hc.
Qed.

Lemma data_crc_loop_fold (suf pre : bytes) (crc : Z) :
  0 <= crc < 65536 ->
  data_crc_loop (length suf) (pre ++ suf) crc (len pre)
  = Ok (fold_left payload_crc16_step suf crc).
Proof.
  revert pre crc. induction suf as [|x suf IH]; intros pre crc Hc.
  - reflexivity.
  - cbn [length data_crc_loop fold_left].
    rewrite getitem_app_head. cbn [rbind Ok].
    rewrite getitem_nth.
    2:{ change (len CRC16_TABLE) with 256. apply payload_crc16_index_range, Hc. }
    cbn [rbind Ok].
    replace (pre ++ x :: suf) with ((pre ++ [x]) ++ suf) by now rewrite <- app_assoc.
    replace (len pre + 1) with (len (pre ++ [x])) by (rewrite len_app; reflexivity).
    apply IH. apply payload_crc16_step_range, Hc.
Qed.

Lemma header_crc_eq (b : bytes) : header_crc b = Ok (header_crc8 b).
Proof. apply (header_crc_loop_fold b [] (crc := 0xFF)). lia. Qed.

Lemma data_crc_eq (b : bytes) : data_crc b = Ok (payload_crc16 b).
Proof. apply (data_crc_loop_fold b [] (crc := 0xFFFF)). lia. Qed.

(** C2: [data_crc] is the left fold from [0xFFFF] with step
    [((crc << 8) mod 0x10000) xor TABLE16[(crc >> 8) xor byte]], and
    [header_crc] the left fold from [0xFF] with step [TABLE8[crc xor byte]];
    neither raises on any byte sequence, and on the empty sequence each
    returns its initial value. *)
Theorem checksums_are_left_folds (b : bytes) :
  data_crc b
  = Ok (fold_left
          (fun crc x =>
             Z.lxor (Z.shiftl crc 8 mod 0x10000)
                    (TABLE16 (Z.lxor (Z.shiftr crc 8) (byte_val x))))
          b 0xFFFF)
  /\ header_crc b
     = Ok (fold_left (fun crc x => TABLE8 (Z.lxor crc (byte_val x))) b 0xFF)
  /\ data_crc [] = Ok 0xFFFF
  /\ header_crc [] = Ok 0xFF.
Proof.
  repeat split.
  - apply data_crc_eq.
  - apply header_crc_eq.
Qed.

(** C10: on every byte sequence [header_crc] returns an integer in
    [0, 255] and [data_crc] one in [0, 65535], so the conversions
    [to_bytes(1)] and [to_bytes(2)] that [new_message] applies to them
    return. *)
Theorem checksum_results_fit (b : bytes) :
  (exists h, header_crc b = Ok h /\ 0 <= h <= 255
             /\ exists hcs, to_bytes 1 h = Ok hcs)
  /\ (exists d, data_crc b = Ok d /\ 0 <= d <= 65535
                /\ exists sfrcs, to_bytes 2 d = Ok sfrcs).
Proof.
  split.
  - exists (header_crc8 b). pose proof (header_crc8_range b) as H.
    split; [apply header_crc_eq|]. split; [lia|].
    eexists. apply to_bytes_ok. simpl. lia.
  - exists (payload_crc16 b). pose proof (payload_crc16_range b) as H.
    split; [apply data_crc_eq|]. split; [lia|].
    eexists. apply to_bytes_ok. simpl. lia.
Qed.

(** ** Packet assembler *)

Ltac run_method :=
  cbv beta iota zeta delta
    [Ok Raise bind lift get modify ret raise bytes_property new_message add_service
     add_service_branches add_service_1 add_service_2 add_service_16
     add_service_4].

Ltac fields :=
  cbn [_tid _imei _pt _hcs _sfrcs _service _fdl _pid _rn
       set_pt set_hcs set_sfrcs set_service set_fdl set_pid set_rn
       fst snd].

Lemma new_message_empty (self : EGTStrack) :
  _service self = None -> new_message self = (Raise TypeError, self).
Proof.
  intros H. run_method. rewrite H. reflexivity.
Qed.

Lemma new_message_ok (self : EGTStrack) (service : bytes) :
  _service self = Some service ->
  len service <= 65535 ->
  0 <= _rn self <= 65535 ->
  exists self',
    new_message self = (Ok (packet_of service (_rn self) (_pt self)), self')
    /\ _service self' = None
    /\ _rn self' = _rn self
    /\ _pid self' = _rn self
    /\ _pt self' = _pt self
    /\ _tid self' = _tid self
    /\ _imei self' = _imei self.
Proof.
  intros Hs Hl Hr. run_method. rewrite Hs. fields.
  rewrite data_crc_eq. cbv beta iota delta [Ok].
  rewrite (@to_bytes_ok 2 (payload_crc16 service))
    by (pose proof (payload_crc16_range service); simpl; lia).
  cbv beta iota delta [Ok]. fields.
  rewrite (@to_bytes_ok 2 (len service))
    by (pose proof (len_nonneg service); simpl; lia).
  cbv beta iota delta [Ok]. fields.
  rewrite (@to_bytes_ok 2 (_rn self)) by (simpl; lia).
  cbv beta iota delta [Ok]. fields.
  rewrite header_crc_eq. cbv beta iota delta [Ok].
  rewrite to_bytes_ok by (apply header_crc8_range).
  cbv beta iota delta [Ok]. fields.
  eexists. split; [reflexivity|]. fields. repeat split; reflexivity.
Qed.

(** [new_message] never writes the record counter, whatever it returns. *)
Lemma new_message_rn (self : EGTStrack) : _rn (snd (new_message self)) = _rn self.
Proof.
  run_method.
  destruct (_service self) as [service|]; [|reflexivity]. fields.
  repeat match goal with
         | |- context [match ?r with inl _ => _ | inr _ => _ end] =>
             destruct r; cbv beta iota; fields
         end; reflexivity.
Qed.

Lemma new_message_pt (self : EGTStrack) : _pt (snd (new_message self)) = _pt self.
Proof.
  run_method.
  destruct (_service self) as [service|]; [|reflexivity]. fields.
  repeat match goal with
         | |- context [match ?r with inl _ => _ | inr _ => _ end] =>
             destruct r; cbv beta iota; fields
         end; reflexivity.
Qed.

(** ** Record accumulator *)

Ltac fields_in H :=
  cbn [_tid _imei _pt _hcs _sfrcs _service _fdl _pid _rn
       set_pt set_hcs set_sfrcs set_service set_fdl set_pid set_rn
       fst snd] in H.

Ltac run_method_in H :=
  cbv beta iota zeta delta
    [Ok Raise bind lift get modify ret raise bytes_property new_message
     add_service add_service_branches add_service_1 add_service_2
     add_service_16 add_service_4] in H.

(** One step of a method whose outcome is [H]: split on the next fallible
    call, keeping what a returning [to_bytes] says about its argument. *)
Ltac case_in H :=
  match type of H with
  | context [match to_bytes ?n ?z with inl _ => _ | inr _ => _ end] =>
      let E := fresh "E" in
      destruct (to_bytes n z) as [?|?] eqn:E;
      [|apply to_bytes_inv in E; destruct E as [? ->]]
  | context [match ?r with inl _ => _ | inr _ => _ end] =>
      let E := fresh "E" in destruct r as [?|?] eqn:E
  end; cbv beta iota in H; fields_in H.

Ltac outcome H := inversion H; subst; clear H; fields.

Lemma add_service_outcome (record_types : Z) (kwargs : dict)
    (now_tm now_ntm : datetime) (s s' : EGTStrack) (r : result unit) :
  add_service record_types kwargs now_tm now_ntm s = (r, s') ->
  frame s s'
  /\ match r with
     | inl _ => _service s' = Some (pending s) /\ _rn s' = _rn s
     | inr _ =>
         exists rl rest,
           length rl = 2%nat
           /\ _service s' = Some (pending s ++ rl ++ le_bytes 2 (_rn s) ++ rest)
           /\ _rn s' = _rn s + 1
           /\ 0 <= _rn s <= 65535
     end.
Proof.
  intros H. unfold frame, pending. run_method_in H.
  destruct (_service s) as [b|] eqn:Hs; fields_in H.
  all: case_in H; [outcome H; rewrite ?Hs; tauto|].
  all: destruct (record_types =? 1); [|destruct (record_types =? 2);
         [|destruct (record_types =? 16); [|destruct (record_types =? 4)]]].
  all: cbv beta iota in H; fields_in H.
  all: repeat case_in H.
  all: rewrite ?Hs in H; cbv beta iota in H; fields_in H.
  all: outcome H; rewrite ?Hs.
  all: try (split; [tauto|split; reflexivity]).
  all: split; [tauto|].
  all: rewrite <- ?app_assoc.
  all: do 2 eexists; split; [apply le_bytes_length|].
  all: split; [reflexivity|]; split; [reflexivity|]; simpl in *; lia.
Qed.

Lemma add_service_unsupported (record_types : Z) (kwargs : dict)
    (now_tm now_ntm : datetime) (s : EGTStrack) :
  record_types <> 1 -> record_types <> 2 ->
  record_types <> 16 -> record_types <> 4 ->
  0 <= _rn s <= 65535 ->
  add_service record_types kwargs now_tm now_ntm s
  = (Raise UnboundLocalError,
      match _service s with
      | None => set_service (Some []) s
      | Some _ => s
      end).
Proof.
  intros H1 H2 H16 H4 Hr. run_method.
  apply Z.eqb_neq in H1, H2, H16, H4.
  destruct (_service s) as [b|]; fields;
    rewrite to_bytes_ok by (simpl; lia);
    cbv beta iota delta [Ok]; rewrite H1, H2, H16, H4; reflexivity.
Qed.

(** *** Record numbers over a session *)

Lemma skipn_length_app {A : Type} (l1 l2 : list A) :
  skipn (length l1) (l1 ++ l2) = l2.
Proof.
  rewrite skipn_app, skipn_all, Nat.sub_diag. reflexivity.
Qed.

Lemma firstn_length_app {A : Type} (l1 l2 : list A) :
  firstn (length l1) (l1 ++ l2) = l1.
Proof.
  rewrite firstn_app, firstn_all, Nat.sub_diag. simpl. apply app_nil_r.
Qed.

Lemma record_number_layout (rl rest : bytes) (rn : Z) :
  length rl = 2%nat -> 0 <= rn <= 65535 ->
  record_number (rl ++ le_bytes 2 rn ++ rest) = rn.
Proof.
  intros Hl Hr. unfold record_number.
  pose proof (skipn_length_app rl (le_bytes 2 rn ++ rest)) as E1.
  pose proof (firstn_length_app (le_bytes 2 rn) rest) as E2.
  rewrite Hl in E1. rewrite le_bytes_length in E2. rewrite E1, E2.
  apply from_bytes_le_bytes. simpl. lia.
Qed.

Lemma add_service_appended (record_types : Z) (kwargs : dict)
    (now_tm now_ntm : datetime) (s s' : EGTStrack) (u : unit) :
  add_service record_types kwargs now_tm now_ntm s = (inr u, s') ->
  record_number (appended s s') = _rn s /\ _rn s' = _rn s + 1.
Proof.
  intros H. apply add_service_outcome in H.
  destruct H as (_ & rl & rest & Hl & Hs & Hr & Hb).
  split; [|exact Hr].
  unfold appended, pending at 2. rewrite Hs, skipn_length_app.
  apply record_number_layout; assumption.
Qed.

Lemma add_service_raises (record_types : Z) (kwargs : dict)
    (now_tm now_ntm : datetime) (s s' : EGTStrack) (e : exn) :
  add_service record_types kwargs now_tm now_ntm s = (inl e, s') ->
  pending s' = pending s /\ _rn s' = _rn s.
Proof.
  intros H. apply add_service_outcome in H.
  destruct H as (_ & Hs & Hr). split; [|exact Hr].
  unfold pending at 1. now rewrite Hs.
Qed.

Lemma run_record_numbers (calls : list call) (s : EGTStrack) :
  map record_number (fst (run calls s))
  = count_from (_rn s) (length (fst (run calls s)))
  /\ _rn (snd (run calls s)) = _rn s + len (fst (run calls s)).
Proof.
  revert s. induction calls as [|c calls IH]; intros s.
  - simpl. split; [reflexivity|]. unfold len. simpl. lia.
  - destruct c as [record_types kwargs now_tm now_ntm|]; cbn [run].
    + destruct (add_service record_types kwargs now_tm now_ntm s)
        as [[e|u] s'] eqn:E.
      * apply add_service_raises in E. destruct E as [_ Hr].
        rewrite <- Hr. apply IH.
      * apply add_service_appended in E. destruct E as [Hn Hr].
        specialize (IH s'). destruct (run calls s') as [records s''].
        cbn [fst snd map length count_from] in *.
        destruct IH as [IH1 IH2]. rewrite Hn, IH1, Hr. split; [reflexivity|].
        rewrite IH2, Hr. unfold len. cbn [length]. lia.
    + rewrite <- (new_message_rn s). apply IH.
Qed.

(** C3: the records a session appends, over any sequence of appends and
    packet finalizations, carry the record numbers [rn], [rn + 1], ... in
    order, [rn] being the counter before the first call; finalizing does not
    touch the counter, which ends [rn] plus the number of records
    appended. *)
Theorem record_numbers_consecutive (calls : list call) (s : EGTStrack) :
  map record_number (fst (run calls s))
  = count_from (_rn s) (length (fst (run calls s)))
  /\ _rn (snd (run calls s)) = _rn s + len (fst (run calls s))
  /\ _rn (snd (new_message s)) = _rn s.
Proof.
  destruct (run_record_numbers calls s) as [H1 H2].
  split; [exact H1|]. split; [exact H2|]. apply new_message_rn.
Qed.

(** On the reset buffer ([None]) [new_message] raises (the code's
    [TypeError]); a [new_message] that returns leaves the buffer reset and
    the record counter as it was, so that calling it again at once
    raises. *)
Lemma finalize_resets_buffer (s : EGTStrack) :
  (_service s = None -> new_message s = (Raise TypeError, s))
  /\ (forall packet s',
        new_message s = (Ok packet, s') ->
        _service s' = None /\ _rn s' = _rn s
        /\ new_message s' = (Raise TypeError, s')).
Proof.
  split; [apply new_message_empty|].
  intros packet s' H.
  assert (Hs : _service s' = None).
  { run_method_in H. destruct (_service s) as [service|]; [|discriminate].
    fields_in H. repeat case_in H; try discriminate.
    outcome H. reflexivity. }
  split; [exact Hs|]. split.
  - rewrite <- (new_message_rn s), H. reflexivity.
  - apply new_message_empty, Hs.
Qed.

(** ** Sessions a caller can hold *)

Lemma init_add_service (deviceid : Z) (deviceimei : option string)
    (now : datetime) (s : EGTStrack) :
  __init__ deviceid deviceimei now = Ok s ->
  add_service 1 [] now now
    (mkEGTStrack deviceid (str deviceimei) [x01] [x00] (inl 0) None
       [x00; x30; x30] 1 1)
  = (Ok tt, s).
Proof.
  unfold __init__. intros H.
  destruct (add_service 1 [] now now _) as [[e|[]] s1]; [discriminate|].
  inversion H. reflexivity.
Qed.

(** The packet type is always [b'\x01'] and the counter at least 1. *)
Lemma reachable_invariant (s : EGTStrack) :
  reachable s -> _pt s = [x01] /\ 1 <= _rn s.
Proof.
  induction 1 as [deviceid deviceimei now s H
                 |s s' record_types kwargs now_tm now_ntm r _ [IHp IHr] H
                 |s s' r _ [IHp IHr] H].
  - apply init_add_service, add_service_outcome in H.
    destruct H as ((_ & _ & _ & _ & _ & _ & Hp) & _ & _ & _ & _ & Hr & _).
    fields_in Hp. fields_in Hr. split; [tauto|lia].
  - apply add_service_outcome in H.
    destruct H as ((_ & _ & _ & _ & _ & _ & Hp) & Hr). split.
    + destruct Hp as [Hp|Hp]; congruence.
    + destruct r as [e|u].
      * destruct Hr as [_ Hr]. lia.
      * destruct Hr as (_ & _ & _ & _ & Hr & _). lia.
  - pose proof (new_message_pt s) as Hp. pose proof (new_message_rn s) as Hr.
    rewrite H in Hp, Hr. fields_in Hp. fields_in Hr. split; [congruence|lia].
Qed.

Lemma packet_of_fields (service : bytes) (rn : Z) (pt : bytes) :
  len service <= 65535 -> 0 <= rn <= 65535 ->
  frame_data_length (packet_of service rn pt) = len service
  /\ packet_id (packet_of service rn pt) = rn
  /\ nth 3 (packet_of service rn pt) x00 = x0b.
Proof.
  intros Hl Hr. pose proof (len_nonneg service) as H0.
  unfold frame_data_length, packet_id, packet_of, header_of.
  cbn [app le_bytes skipn firstn nth].
  change [byte_of_Z (len service); byte_of_Z (len service / 256)]
    with (le_bytes 2 (len service)).
  change [byte_of_Z rn; byte_of_Z (rn / 256)] with (le_bytes 2 rn).
  rewrite !from_bytes_le_bytes by (simpl; lia). auto.
Qed.

(** ** The records, field by field *)

Lemma len_le_bytes (n : nat) (z : Z) : len (le_bytes n z) = Z.of_nat n.
Proof. unfold len. now rewrite le_bytes_length. Qed.

Lemma len_cons {A : Type} (x : A) (l : list A) : len (x :: l) = 1 + len l.
Proof. unfold len. cbn [length]. lia. Qed.

Ltac len_norm :=
  rewrite ?len_app, ?len_le_bytes, ?len_cons;
  change (len (@nil byte)) with 0;
  change (len (encode "0000000000000000")) with 16;
  change (len (encode "rus")) with 3;
  change (len (encode "000000000000000")) with 15;
  cbn [Z.of_nat Pos.of_succ_nat Pos.succ];
  change (256 ^ 1) with 256; change (256 ^ 2) with 65536;
  change (256 ^ 3) with 16777216; change (256 ^ 4) with 4294967296.

Ltac len_norm_in H :=
  rewrite ?len_app, ?len_le_bytes, ?len_cons in H;
  change (len (@nil byte)) with 0 in H;
  change (len (encode "0000000000000000")) with 16 in H;
  change (len (encode "rus")) with 3 in H;
  change (len (encode "000000000000000")) with 15 in H;
  cbn [Z.of_nat Pos.of_succ_nat Pos.succ] in H;
  change (256 ^ 1) with 256 in H; change (256 ^ 2) with 65536 in H;
  change (256 ^ 3) with 16777216 in H; change (256 ^ 4) with 4294967296 in H.

Lemma len_record_1 (tid : Z) (imei : string) (tm rn : Z) :
  len (record_1 tid imei tm rn) = 57 + len (encode imei).
Proof. unfold record_1. len_norm. lia. Qed.

Lemma add_service_1_ok (kwargs : dict) (now_tm now_ntm : datetime)
    (s : EGTStrack) :
  0 <= _tid s < 2 ^ 32 ->
  0 <= get_date_time now_tm < 2 ^ 32 ->
  0 <= _rn s <= 65535 ->
  len (encode (_imei s)) <= 65493 ->
  add_service 1 kwargs now_tm now_ntm s
  = (Ok tt,
      set_rn (_rn s + 1)
        (set_service
           (Some (pending s
                    ++ record_1 (_tid s) (_imei s) (get_date_time now_tm) (_rn s)))
           (set_pt [x01] s))).
Proof.
  intros Ht Hm Hr Hi. pose proof (len_nonneg (encode (_imei s))) as H0.
  unfold pending, record_1. run_method. cbv beta iota delta [Z.eqb Pos.eqb].
  destruct (_service s) as [b|] eqn:Hs; fields.
  all: rewrite (@to_bytes_ok 2 (_rn s)) by (simpl; lia); cbv beta iota delta [Ok].
  all: rewrite (@to_bytes_ok 4 (_tid s)) by (simpl; lia); cbv beta iota delta [Ok].
  all: rewrite (@to_bytes_ok 4 (get_date_time now_tm)) by (simpl; lia);
    cbv beta iota delta [Ok].
  all: rewrite (@to_bytes_ok 1 1) by (simpl; lia); cbv beta iota delta [Ok].
  all: rewrite to_bytes_ok by (len_norm; lia); cbv beta iota delta [Ok].
  all: rewrite to_bytes_ok by (len_norm; lia); cbv beta iota delta [Ok].
  all: fields; rewrite ?Hs; reflexivity.
Qed.

Lemma add_service_1_inv (kwargs : dict) (now_tm now_ntm : datetime)
    (s s' : EGTStrack) (u : unit) :
  add_service 1 kwargs now_tm now_ntm s = (inr u, s') ->
  0 <= _tid s < 2 ^ 32
  /\ 0 <= get_date_time now_tm < 2 ^ 32
  /\ 0 <= _rn s <= 65535
  /\ len (encode (_imei s)) <= 65493.
Proof.
  intros H. run_method_in H. cbv beta iota delta [Z.eqb Pos.eqb] in H.
  destruct (_service s) as [b|]; fields_in H.
  all: repeat case_in H; try discriminate.
  all: match goal with
       | K : 0 <= len (le_bytes 1 1 ++ _) < _ |- _ => len_norm_in K
       end.
  all: change (2 ^ 32) with 4294967296;
    repeat match goal with
           | K : 0 <= _ < 256 ^ Z.of_nat _ |- _ => len_norm_in K
           end; lia.
Qed.

Lemma record_1_layout (tid : Z) (imei : string) (tm rn : Z) :
  0 <= rn <= 65535 ->
  record_number (record_1 tid imei tm rn) = rn
  /\ nth 15 (record_1 tid imei tm rn) x00 = x01
  /\ record_1 tid imei tm rn <> [].
Proof.
  intros Hr. split; [|split].
  - unfold record_1. cbv zeta. rewrite <- !app_assoc.
    apply record_number_layout; [apply le_bytes_length|exact Hr].
  - reflexivity.
  - discriminate.
Qed.

(** C9: the constructor appends one terminal identity record, numbered 1:
    a session as constructed has that record pending and its counter at 2,
    and (for a hardware identifier of at most 65478 bytes, so that the
    record fits a frame) [new_message] returns at once a packet whose
    packet_id is 2. *)
Theorem construction_appends_identity (deviceid : Z)
    (deviceimei : option string) (now : datetime) (s : EGTStrack) :
  __init__ deviceid deviceimei now = Ok s ->
  len (encode (str deviceimei)) <= 65478 ->
  let record := record_1 deviceid (str deviceimei) (get_date_time now) 1 in
  _service s = Some record
  /\ record <> []
  /\ nth 15 record x00 = x01
  /\ record_number record = 1
  /\ _rn s = 2
  /\ exists packet s', new_message s = (Ok packet, s') /\ packet_id packet = 2.
Proof.
  intros H Hi. cbv zeta. apply init_add_service in H.
  destruct (add_service_1_inv _ _ _ _ H) as (Ht & Hm & Hr & _).
  fields_in Ht. fields_in Hr.
  rewrite add_service_1_ok in H by (fields; trivial; lia).
  inversion H as [Hs]. clear H. fields. unfold pending. fields.
  destruct (@record_1_layout deviceid (str deviceimei) (get_date_time now) 1)
    as (Hn & Ht15 & Hne); [lia|].
  cbn [app]. repeat (split; [assumption || reflexivity|]).
  set (record := record_1 _ _ _ _) in *.
  assert (Hl : len record <= 65535).
  { unfold record. rewrite len_record_1. lia. }
  edestruct (@new_message_ok
               (set_rn (1 + 1) (set_service (Some record)
                  (set_pt [x01]
                     (mkEGTStrack deviceid (str deviceimei) [x01] [x00] (inl 0)
                        None [x00; x30; x30] 1 1)))) record)
    as (s' & Hm' & _); [reflexivity|exact Hl|fields; lia|].
  exists (packet_of record 2 [x01]), s'. split; [exact Hm'|].
  apply packet_of_fields; [exact Hl|lia].
Qed.

Lemma construction_appends_identity_witness :
  exists s,
    __init__ 111111111 (Some "865811111111111"%string) 500000000000000 = Ok s
    /\ _rn s = 2
    /\ exists packet s', new_message s = (Ok packet, s') /\ packet_id packet = 2.
Proof.
  eexists. split; [vm_compute; reflexivity|].
  match goal with
  | |- _rn ?s = 2 /\ _ =>
      destruct (@construction_appends_identity 111111111
                  (Some "865811111111111"%string) 500000000000000 s)
        as (_ & _ & _ & _ & Hr & Hp)
  end.
  - vm_compute. reflexivity.
  - vm_compute. discriminate.
  - split; [exact Hr|exact Hp].
Defined.

(** ** The counter beyond two bytes *)

Lemma add_service_counter_overflow (record_types : Z) (kwargs : dict)
    (now_tm now_ntm : datetime) (s : EGTStrack) :
  65535 < _rn s ->
  add_service record_types kwargs now_tm now_ntm s
  = (Raise OverflowError,
      match _service s with
      | None => set_service (Some []) s
      | Some _ => s
      end).
Proof.
  intros Hr. run_method.
  assert (E : to_bytes 2 (_rn s) = inl OverflowError).
  { unfold to_bytes.
    replace (_rn s <? 256 ^ Z.of_nat 2) with false
      by (symmetry; apply Z.ltb_ge; simpl; lia).
    now rewrite andb_false_r. }
  destruct (_service s) as [b|]; fields; rewrite E; reflexivity.
Qed.

Lemma add_service_4_ok (kwargs : dict) (now_tm now_ntm : datetime)
    (s : EGTStrack) :
  0 <= _tid s < 2 ^ 32 ->
  0 <= _rn s <= 65535 ->
  len (encode (_imei s)) <= 65525 ->
  add_service 4 kwargs now_tm now_ntm s
  = (Ok tt,
      set_rn (_rn s + 1)
        (set_service (Some (pending s ++ record_4 (_tid s) (_imei s) (_rn s)))
           (set_pt [x01] s))).
Proof.
  intros Ht Hr Hi. pose proof (len_nonneg (encode (_imei s))) as H0.
  unfold pending, record_4. run_method. cbv beta iota delta [Z.eqb Pos.eqb].
  destruct (_service s) as [b|] eqn:Hs; fields.
  all: rewrite (@to_bytes_ok 2 (_rn s)) by (simpl; lia); cbv beta iota delta [Ok].
  all: rewrite (@to_bytes_ok 1 4) by (simpl; lia); cbv beta iota delta [Ok].
  all: rewrite (@to_bytes_ok 4 (_tid s)) by (simpl; lia); cbv beta iota delta [Ok].
  all: rewrite to_bytes_ok by (len_norm; lia); cbv beta iota delta [Ok].
  all: rewrite to_bytes_ok by (len_norm; lia); cbv beta iota delta [Ok].
  all: fields; rewrite ?Hs; reflexivity.
Qed.

Lemma run_appends_4 (n : nat) (s : EGTStrack) :
  0 <= _tid s < 2 ^ 32 ->
  len (encode (_imei s)) <= 65525 ->
  0 <= _rn s ->
  _rn s + Z.of_nat n <= 65536 ->
  length (fst (run (appends_4 n) s)) = n
  /\ _tid (snd (run (appends_4 n) s)) = _tid s
  /\ _imei (snd (run (appends_4 n) s)) = _imei s.
Proof.
  revert s. induction n as [|n IH]; intros s Ht Hi H0 Hn.
  - simpl. auto.
  - unfold appends_4. cbn [repeat run]. fold (appends_4 n).
    rewrite add_service_4_ok by (trivial; lia).
    specialize (IH (set_rn (_rn s + 1)
                      (set_service
                         (Some (pending s ++ record_4 (_tid s) (_imei s) (_rn s)))
                         (set_pt [x01] s)))).
    fields_in IH.
    destruct IH as (IH1 & IH2 & IH3); trivial; try lia.
    destruct (run (appends_4 n) _) as [records s''].
    unfold Ok. cbn [fst snd length] in *. rewrite IH1. auto.
Qed.

Lemma init_fields (deviceid : Z) (deviceimei : option string) (now : datetime)
    (s : EGTStrack) :
  __init__ deviceid deviceimei now = Ok s ->
  _tid s = deviceid /\ _imei s = str deviceimei /\ _rn s = 2
  /\ 0 <= deviceid < 2 ^ 32 /\ len (encode (str deviceimei)) <= 65493
  /\ _service s
     = Some (record_1 deviceid (str deviceimei) (get_date_time now) 1).
Proof.
  intros H. apply init_add_service in H.
  destruct (add_service_1_inv _ _ _ _ H) as (Ht & Hm & Hr & Hi).
  fields_in Ht. fields_in Hr. fields_in Hi.
  rewrite add_service_1_ok in H by (fields; trivial; lia).
  inversion H. fields. unfold pending. fields. cbn [app].
  repeat split; trivial; lia.
Qed.

(** C8, as stated, fails: the counter does not wrap.  A session is
    constructed and 65533 service identity records are appended, which
    brings the counter to 65535.  One more append returns, with record
    number 65535, and leaves the counter at 65536, not 0; the append after
    that raises [OverflowError] and numbers nothing. *)
Lemma counter_wrap_counterexample :
  exists s0,
    __init__ 111111111 (Some "865811111111111"%string) 500000000000000 = Ok s0
    /\ let s := snd (run (appends_4 (Z.to_nat 65533)) s0) in
       _rn s = 65535
       /\ exists s1 s2,
            add_service 4 [] 0 0 s = (Ok tt, s1)
            /\ record_number (appended s s1) = 65535
            /\ _rn s1 = 65536
            /\ _rn s1 <> 0
            /\ add_service 4 [] 0 0 s1 = (Raise OverflowError, s2)
            /\ pending s2 = pending s1
            /\ _rn s2 = 65536.
Proof.
  destruct (__init__ 111111111 (Some "865811111111111"%string) 500000000000000)
    as [e|s0] eqn:H; [vm_compute in H; discriminate|].
  exists s0. split; [reflexivity|].
  destruct (init_fields _ _ _ H) as (Ht & Hi & Hr & Htr & Hil & _).
  assert (Hn : Z.of_nat (Z.to_nat 65533) = 65533) by (apply Z2Nat.id; lia).
  destruct (@run_appends_4 (Z.to_nat 65533) s0) as (Hlen & Ht' & Hi');
    try (rewrite ?Ht, ?Hi, ?Hr, ?Hn; trivial; lia).
  destruct (run_record_numbers (appends_4 (Z.to_nat 65533)) s0) as [_ Hrn].
  unfold len in Hrn. rewrite Hlen, Hn, Hr in Hrn.
  set (s := snd (run (appends_4 (Z.to_nat 65533)) s0)) in *. cbv zeta.
  split; [lia|].
  assert (Hadd : add_service 4 [] 0 0 s
                 = (Ok tt,
                     set_rn (_rn s + 1)
                       (set_service
                          (Some (pending s ++ record_4 (_tid s) (_imei s) (_rn s)))
                          (set_pt [x01] s)))).
  { apply add_service_4_ok; rewrite ?Ht', ?Hi', ?Ht, ?Hi; trivial; lia. }
  eexists. eexists. split; [exact Hadd|].
  destruct (add_service_appended _ _ _ _ _ Hadd) as [Hnum Hnext].
  split; [lia|]. split; [lia|]. split; [lia|].
  split; [apply add_service_counter_overflow; lia|].
  fields. unfold pending. fields. split; [reflexivity|lia].
Qed.

(** C8, amended: the counter is an integer without a bound.  The record the
    constructor appends is numbered 1; every append that returns numbers its
    record with the counter and adds one to it; at 65535 an append returns,
    with record number 65535, and leaves 65536; above 65535 every append
    raises [OverflowError], appends nothing and leaves the counter as it
    is. *)
Theorem counter_is_unbounded :
  (forall deviceid deviceimei now s,
      __init__ deviceid deviceimei now = Ok s ->
      record_number (pending s) = 1 /\ _rn s = 2)
  /\ (forall record_types kwargs now_tm now_ntm s s' u,
         add_service record_types kwargs now_tm now_ntm s = (inr u, s') ->
         record_number (appended s s') = _rn s /\ _rn s' = _rn s + 1)
  /\ (forall kwargs now_tm now_ntm s,
         _rn s = 65535 ->
         0 <= _tid s < 2 ^ 32 ->
         len (encode (_imei s)) <= 65525 ->
         exists s',
           add_service 4 kwargs now_tm now_ntm s = (Ok tt, s')
           /\ record_number (appended s s') = 65535
           /\ _rn s' = 65536)
  /\ (forall record_types kwargs now_tm now_ntm s,
         65535 < _rn s ->
         exists s',
           add_service record_types kwargs now_tm now_ntm s
           = (Raise OverflowError, s')
           /\ pending s' = pending s
           /\ _rn s' = _rn s).
Proof.
  split; [|split; [|split]].
  - intros deviceid deviceimei now s H.
    destruct (init_fields _ _ _ H) as (_ & _ & Hr & _ & _ & Hs).
    split; [|exact Hr]. unfold pending. rewrite Hs.
    apply record_1_layout. lia.
  - intros record_types kwargs now_tm now_ntm s s' u H.
    exact (add_service_appended _ _ _ _ _ H).
  - intros kwargs now_tm now_ntm s Hr Ht Hi.
    pose proof (@add_service_4_ok kwargs now_tm now_ntm s Ht) as Hadd.
    eexists. split; [apply Hadd; trivial; lia|].
    destruct (add_service_appended _ _ _ _ _ (Hadd ltac:(lia) Hi)) as [H1 H2].
    split; lia.
  - intros record_types kwargs now_tm now_ntm s Hr.
    eexists. split; [apply add_service_counter_overflow; exact Hr|].
    unfold pending. destruct (_service s) as [b|] eqn:E; fields;
      rewrite ?E; auto.
Qed.

Lemma counter_is_unbounded_witness :
  let s := mkEGTStrack 111111111 "865811111111111" [x01] [x00] (inl 0) None
             [x00; x30; x30] 1 65536 in
  65535 < _rn s
  /\ exists s',
       add_service 16 [] 0 0 s = (Raise OverflowError, s')
       /\ pending s' = pending s
       /\ _rn s' = _rn s.
Proof.
  cbv zeta. split; [vm_compute; reflexivity|].
  apply (proj2 (proj2 (proj2 counter_is_unbounded))).
  vm_compute. reflexivity.
Defined.

(** ** An unsupported record type on a reset buffer *)

(** C4, where the code departs from it: a session is constructed and its
    first packet taken, so that the buffer is reset.  Appending record type
    99 then raises ([UnboundLocalError], there being no branch for it), but
    only after the reset buffer has been made the empty byte string: the
    [new_message] that raised [TypeError] before the call now returns a
    packet with no record in it. *)
Theorem unsupported_type_on_reset_buffer :
  exists s0 p s1 s2 p2 s3,
    __init__ 111111111 (Some "865811111111111"%string) 500000000000000 = Ok s0
    /\ new_message s0 = (Ok p, s1)
    /\ _service s1 = None
    /\ new_message s1 = (Raise TypeError, s1)
    /\ add_service 99 [] 0 0 s1 = (Raise UnboundLocalError, s2)
    /\ _service s2 = Some []
    /\ _service s2 <> _service s1
    /\ new_message s2 = (Ok p2, s3)
    /\ frame_data_length p2 = 0.
Proof.
  do 6 eexists.
  split; [vm_compute; reflexivity|].
  split; [vm_compute; reflexivity|].
  split; [reflexivity|].
  split; [vm_compute; reflexivity|].
  split; [vm_compute; reflexivity|].
  split; [reflexivity|].
  split; [discriminate|].
  split; [vm_compute; reflexivity|].
  vm_compute. reflexivity.
Qed.

(** ** Position records *)

Lemma coord_bytes_length (x : pynum) (d : Z) (b : bytes) :
  coord_bytes x d = inr b -> len b = 4.
Proof.
  unfold coord_bytes, rbind. intros H.
  destruct x as [z|f].
  - destruct (Z.abs z <=? 2 ^ 53); [|discriminate].
    destruct (coord_int _ d); [discriminate|].
    apply to_bytes_inv in H. destruct H as [_ ->]. apply len_le_bytes.
  - destruct (coord_int f d); [discriminate|].
    apply to_bytes_inv in H. destruct H as [_ ->]. apply len_le_bytes.
Qed.


Lemma speed_bytes_length (x : pynum) (b : bytes) :
  speed_bytes x = inr b -> len b = 2.
Proof.
  unfold speed_bytes, rbind. intros H.
  destruct x as [z|f].
  - apply to_bytes_inv in H. destruct H as [_ ->]. apply len_le_bytes.
  - destruct (int_of_float _); [discriminate|].
    apply to_bytes_inv in H. destruct H as [_ ->]. apply len_le_bytes.
Qed.

Lemma position_flags_range (long lat : pynum) :
  0 <= position_flags long lat < 256.
Proof.
  unfold position_flags. destruct (py_lt0 long), (py_lt0 lat); simpl; lia.
Qed.


Lemma len_record_16 (tid tm ntm rn : Z) (lat long : bytes) (llflags : Z)
    (spd : bytes) :
  len lat = 4 -> len long = 4 -> len spd = 2 ->
  len (record_16 tid tm ntm rn lat long llflags spd) = 39.
Proof. intros H1 H2 H3. unfold record_16. len_norm. lia. Qed.

Lemma add_service_16_inv (kwargs : dict) (now_tm now_ntm : datetime)
    (s s' : EGTStrack) (u : unit) :
  add_service 16 kwargs now_tm now_ntm s = (inr u, s') ->
  exists long lat speed longb latb spdb,
    dict_getitem kwargs "long" = Ok long
    /\ dict_getitem kwargs "lat" = Ok lat
    /\ dict_getitem kwargs "speed" = Ok speed
    /\ coord_bytes long 180 = Ok longb
    /\ coord_bytes lat 90 = Ok latb
    /\ speed_bytes speed = Ok spdb
    /\ 0 <= _rn s <= 65535
    /\ _service s'
       = Some (pending s
                 ++ record_16 (_tid s) (get_date_time now_tm)
                      (get_date_time now_ntm) (_rn s) latb longb
                      (position_flags long lat) spdb).
Proof.
  intros H. unfold pending. run_method_in H.
  cbv beta iota delta [Z.eqb Pos.eqb] in H.
  destruct (_service s) as [b|] eqn:Hs; fields_in H.
  all: repeat case_in H; try discriminate.
  all: rewrite ?Hs in H; cbv beta iota in H; fields_in H.
  all: outcome H.
  all: do 6 eexists.
  all: repeat (split; [first [reflexivity|eassumption]|]).
  all: split; [change (256 ^ Z.of_nat 2) with 65536 in *; lia|reflexivity].
Qed.





Lemma add_service_16_ok (kwargs : dict) (now_tm now_ntm : datetime)
    (s : EGTStrack) (long lat speed : pynum) (longb latb spdb : bytes) :
  0 <= _tid s < 2 ^ 32 ->
  0 <= get_date_time now_tm < 2 ^ 32 ->
  0 <= get_date_time now_ntm < 2 ^ 32 ->
  0 <= _rn s <= 65535 ->
  dict_getitem kwargs "long" = Ok long ->
  dict_getitem kwargs "lat" = Ok lat ->
  dict_getitem kwargs "speed" = Ok speed ->
  coord_bytes long 180 = Ok longb ->
  coord_bytes lat 90 = Ok latb ->
  speed_bytes speed = Ok spdb ->
  add_service 16 kwargs now_tm now_ntm s
  = (Ok tt,
      set_rn (_rn s + 1)
        (set_service
           (Some (pending s
                    ++ record_16 (_tid s) (get_date_time now_tm)
                         (get_date_time now_ntm) (_rn s) latb longb
                         (position_flags long lat) spdb))
           (set_pt [x01] s))).
Proof.
  intros Ht Hm Hn Hr Dlong Dlat Dspeed Clong Clat Cspeed.
  pose proof (coord_bytes_length _ _ Clong) as Llong.
  pose proof (coord_bytes_length _ _ Clat) as Llat.
  pose proof (speed_bytes_length _ Cspeed) as Lspeed.
  pose proof (position_flags_range long lat) as Rf.
  unfold position_flags in Rf. cbv zeta in Rf.
  unfold pending, record_16, position_flags. run_method.
  cbv beta iota delta [Z.eqb Pos.eqb].
  destruct (_service s) as [b|] eqn:Hs; fields.
  all: repeat (first [rewrite Dlong | rewrite Dlat | rewrite Dspeed
                     | rewrite Clong | rewrite Clat | rewrite Cspeed
                     | rewrite to_bytes_ok by (len_norm; lia)];
               cbv beta iota delta [Ok]).
  all: fields; rewrite ?Hs; reflexivity.
Qed.

Lemma init_ok (deviceid : Z) (deviceimei : option string) (now : datetime) :
  0 <= deviceid < 2 ^ 32 ->
  0 <= get_date_time now < 2 ^ 32 ->
  len (encode (str deviceimei)) <= 65493 ->
  __init__ deviceid deviceimei now
  = Ok (mkEGTStrack deviceid (str deviceimei) [x01] [x00] (inl 0)
          (Some (record_1 deviceid (str deviceimei) (get_date_time now) 1))
          [x00; x30; x30] 1 2).
Proof.
  intros Ht Hm Hi. unfold __init__.
  rewrite add_service_1_ok by (fields; trivial; lia).
  reflexivity.
Qed.

(** ** The end-to-end example *)

(** C7, as stated, fails: with a terminal identity record appended after
    construction the packet holds three records and its packet_id is 4. *)
Lemma end_to_end_counterexample :
  exists packet,
    end_to_end (Some "865811111111111"%string) 500000000000000
      500000000000000 500000000000000 500000000000000
    = Ok packet
    /\ packet_id packet = 4
    /\ packet_id packet <> 3.
Proof.
  eexists. split; [vm_compute; reflexivity|].
  split; [vm_compute; reflexivity|]. vm_compute. discriminate.
Qed.

Lemma trailer_packet_of (service : bytes) (rn : Z) (pt : bytes) :
  trailer (packet_of service rn pt) = le_bytes 2 (payload_crc16 service).
Proof.
  unfold trailer, packet_of. cbv zeta.
  set (h := header_of _ _ _). set (c := le_bytes 1 _).
  set (t := le_bytes 2 _).
  replace (h ++ c ++ service ++ t) with ((h ++ c ++ service) ++ t)
    by (now rewrite <- !app_assoc).
  replace (length ((h ++ c ++ service) ++ t) - 2)%nat
    with (length (h ++ c ++ service)).
  - apply skipn_length_app.
  - rewrite (length_app (h ++ c ++ service) t). unfold t.
    rewrite le_bytes_length. lia.
Qed.

Lemma record_16_layout (tid tm ntm rn llflags : Z) (lat long spd : bytes) :
  0 <= rn <= 65535 ->
  record_number (record_16 tid tm ntm rn lat long llflags spd) = rn
  /\ nth 15 (record_16 tid tm ntm rn lat long llflags spd) x00 = x10.
Proof.
  intros Hr. split.
  - unfold record_16. cbv zeta. rewrite <- !app_assoc.
    apply record_number_layout; [apply le_bytes_length|exact Hr].
  - reflexivity.
Qed.

(** What [new_message] returns in a script, for a buffer that fits. *)
Lemma call_ok_new_message (s : EGTStrack) (service : bytes) :
  _service s = Some service ->
  len service <= 65535 ->
  0 <= _rn s <= 65535 ->
  exists s',
    call_ok new_message s = Ok (packet_of service (_rn s) (_pt s), s').
Proof.
  intros Hs Hl Hr. destruct (new_message_ok s Hs Hl Hr) as (s' & H & _).
  exists s'. unfold call_ok. rewrite H. reflexivity.
Qed.

Lemma demo_kwargs_encoded :
  coord_bytes (PyFloat demo_long) 180 = Ok (le_bytes 4 955754419)
  /\ coord_bytes (PyFloat demo_lat) 90 = Ok (le_bytes 4 2263153129)
  /\ speed_bytes (PyInt 90) = Ok (le_bytes 2 900).
Proof. repeat split; vm_compute; reflexivity. Qed.

Lemma add_service_16_demo (now_tm now_ntm : datetime) (s : EGTStrack) :
  _tid s = 111111111 ->
  0 <= get_date_time now_tm < 2 ^ 32 ->
  0 <= get_date_time now_ntm < 2 ^ 32 ->
  0 <= _rn s <= 65535 ->
  call_ok (add_service 16 demo_kwargs now_tm now_ntm) s
  = Ok (tt,
         set_rn (_rn s + 1)
           (set_service
              (Some (pending s
                       ++ demo_record_16 (get_date_time now_tm)
                            (get_date_time now_ntm) (_rn s)))
              (set_pt [x01] s))).
Proof.
  intros Ht Hm Hn Hr. unfold call_ok, demo_record_16.
  destruct demo_kwargs_encoded as (Clong & Clat & Cspeed).
  rewrite (@add_service_16_ok demo_kwargs now_tm now_ntm s
             (PyFloat demo_long) (PyFloat demo_lat) (PyInt 90)
             (le_bytes 4 955754419) (le_bytes 4 2263153129) (le_bytes 2 900));
    trivial.
  - rewrite Ht. reflexivity.
  - rewrite Ht. lia.
Qed.

Lemma add_service_16_demo_ok (now_tm now_ntm : datetime) (s : EGTStrack) :
  _tid s = 111111111 ->
  0 <= get_date_time now_tm < 2 ^ 32 ->
  0 <= get_date_time now_ntm < 2 ^ 32 ->
  0 <= _rn s <= 65535 ->
  add_service 16 demo_kwargs now_tm now_ntm s
  = (Ok tt,
      set_rn (_rn s + 1)
        (set_service
           (Some (pending s
                    ++ demo_record_16 (get_date_time now_tm)
                         (get_date_time now_ntm) (_rn s)))
           (set_pt [x01] s))).
Proof.
  intros Ht Hm Hn Hr.
  pose proof (@add_service_16_demo now_tm now_ntm s Ht Hm Hn Hr) as H.
  unfold call_ok in H.
  destruct (add_service 16 demo_kwargs now_tm now_ntm s) as [[e|[]] s'];
    [discriminate|].
  inversion H. reflexivity.
Qed.

Lemma appended_app (s s' : EGTStrack) (record : bytes) :
  pending s' = pending s ++ record -> appended s s' = record.
Proof. intros H. unfold appended. rewrite H. apply skipn_length_app. Qed.

Lemma packet_of_payload (service : bytes) (rn : Z) :
  skipn 11 (packet_of service rn [x01])
  = service ++ trailer (packet_of service rn [x01])
  /\ length (trailer (packet_of service rn [x01])) = 2%nat
  /\ from_bytes (trailer (packet_of service rn [x01]))
     = payload_crc16 service
  /\ data_crc service
     = Ok (from_bytes (trailer (packet_of service rn [x01]))).
Proof.
  rewrite trailer_packet_of.
  assert (H : from_bytes (le_bytes 2 (payload_crc16 service))
              = payload_crc16 service).
  { apply from_bytes_le_bytes. pose proof (payload_crc16_range service).
    simpl. lia. }
  rewrite H, data_crc_eq. repeat split; reflexivity.
Qed.

(** C7, amended: for terminal 111111111, with the clock within the four
    bytes of the time fields and a hardware identifier the frame has room
    for, the script that appends a terminal identity record and the
    position record after construction gets a packet whose byte 3 is
    [0x0B], whose packet_id is 4, and which holds, after its eleven header
    bytes, the three records appended (the constructor's terminal identity
    record, numbered 1, then the caller's terminal identity and position
    records, numbered 2 and 3) and ends with two bytes that are the CRC-16
    of these three records.  With the constructor's terminal identity
    record as the only one, the packet holds two records, numbered 1 and 2,
    in the same way, and its packet_id is 3. *)
Theorem end_to_end_packet (deviceimei : option string)
    (t0 t1 t2 t3 : datetime) :
  0 <= get_date_time t0 < 2 ^ 32 ->
  0 <= get_date_time t1 < 2 ^ 32 ->
  0 <= get_date_time t2 < 2 ^ 32 ->
  0 <= get_date_time t3 < 2 ^ 32 ->
  len (encode (str deviceimei)) <= 32691 ->
  let r0 := record_1 111111111 (str deviceimei) (get_date_time t0) 1 in
  (let r1 := record_1 111111111 (str deviceimei) (get_date_time t1) 2 in
   let r2 := demo_record_16 (get_date_time t2) (get_date_time t3) 3 in
   exists s0 s1 s2 s3 packet,
     __init__ 111111111 deviceimei t0 = Ok s0
     /\ pending s0 = r0
     /\ add_service 1 [] t1 t1 s0 = (Ok tt, s1)
     /\ appended s0 s1 = r1
     /\ add_service 16 demo_kwargs t2 t3 s1 = (Ok tt, s2)
     /\ appended s1 s2 = r2
     /\ pending s2 = r0 ++ r1 ++ r2
     /\ new_message s2 = (Ok packet, s3)
     /\ end_to_end deviceimei t0 t1 t2 t3 = Ok packet
     /\ nth 3 packet x00 = x0b
     /\ packet_id packet = 4
     /\ frame_data_length packet = len (r0 ++ r1 ++ r2)
     /\ skipn 11 packet = (r0 ++ r1 ++ r2) ++ trailer packet
     /\ length (trailer packet) = 2%nat
     /\ from_bytes (trailer packet) = payload_crc16 (r0 ++ r1 ++ r2)
     /\ data_crc (r0 ++ r1 ++ r2) = Ok (from_bytes (trailer packet))
     /\ map record_number [r0; r1; r2] = [1; 2; 3]
     /\ map (fun r => nth 15 r x00) [r0; r1; r2] = [x01; x01; x10])
  /\ (let r2 := demo_record_16 (get_date_time t2) (get_date_time t3) 2 in
      exists s0 s2 s3 packet,
        __init__ 111111111 deviceimei t0 = Ok s0
        /\ pending s0 = r0
        /\ add_service 16 demo_kwargs t2 t3 s0 = (Ok tt, s2)
        /\ appended s0 s2 = r2
        /\ pending s2 = r0 ++ r2
        /\ new_message s2 = (Ok packet, s3)
        /\ end_to_end_implicit deviceimei t0 t2 t3 = Ok packet
        /\ nth 3 packet x00 = x0b
        /\ packet_id packet = 3
        /\ frame_data_length packet = len (r0 ++ r2)
        /\ skipn 11 packet = (r0 ++ r2) ++ trailer packet
        /\ length (trailer packet) = 2%nat
        /\ from_bytes (trailer packet) = payload_crc16 (r0 ++ r2)
        /\ data_crc (r0 ++ r2) = Ok (from_bytes (trailer packet))
        /\ map record_number [r0; r2] = [1; 2]
        /\ map (fun r => nth 15 r x00) [r0; r2] = [x01; x10]).
Proof.
  intros H0 H1 H2 H3 Hi. cbv zeta.
  pose proof (len_nonneg (encode (str deviceimei))) as Hi0.
  set (imei := str deviceimei) in *.
  set (r0 := record_1 111111111 imei (get_date_time t0) 1).
  set (r1 := record_1 111111111 imei (get_date_time t1) 2).
  assert (L0 : len r0 = 57 + len (encode imei)) by apply len_record_1.
  assert (L1 : len r1 = 57 + len (encode imei)) by apply len_record_1.
  assert (L2 : forall tm ntm rn, len (demo_record_16 tm ntm rn) = 39).
  { intros. unfold demo_record_16.
    apply len_record_16; exact (len_le_bytes _ _). }
  set (s0 := mkEGTStrack 111111111 imei [x01] [x00] (inl 0) (Some r0)
               [x00; x30; x30] 1 2).
  assert (E0 : __init__ 111111111 deviceimei t0 = Ok s0).
  { apply init_ok; trivial; fold imei; lia. }
  split.
  - set (r2 := demo_record_16 (get_date_time t2) (get_date_time t3) 3).
    assert (Hl : len (r0 ++ r1 ++ r2) <= 65535).
    { rewrite !len_app, L0, L1. unfold r2. rewrite L2. lia. }
    set (s1 := set_rn 3 (set_service (Some (r0 ++ r1)) (set_pt [x01] s0))).
    assert (E1 : add_service 1 [] t1 t1 s0 = (Ok tt, s1)).
    { unfold s0.
      rewrite add_service_1_ok by (fields; trivial; fold imei; lia).
      reflexivity. }
    set (s2 := set_rn 4 (set_service (Some ((r0 ++ r1) ++ r2))
                           (set_pt [x01] s1))).
    assert (E2 : add_service 16 demo_kwargs t2 t3 s1 = (Ok tt, s2)).
    { unfold s1, s0.
      rewrite add_service_16_demo_ok by (fields; trivial; lia).
      reflexivity. }
    assert (P2 : pending s2 = r0 ++ r1 ++ r2).
    { unfold s2, pending. fields. symmetry. apply app_assoc. }
    destruct (@new_message_ok s2 (r0 ++ r1 ++ r2)) as (s3 & Em & _);
      [unfold s2; fields; now rewrite <- app_assoc|exact Hl
      |unfold s2; fields; lia|].
    assert (Hpt : _pt s2 = [x01]) by reflexivity.
    assert (Hrn : _rn s2 = 4) by reflexivity.
    rewrite Hpt, Hrn in Em.
    exists s0, s1, s2, s3, (packet_of (r0 ++ r1 ++ r2) 4 [x01]).
    destruct (@packet_of_fields (r0 ++ r1 ++ r2) 4 [x01] Hl)
      as (Hf & Hp & H3b); [lia|].
    destruct (packet_of_payload (r0 ++ r1 ++ r2) 4) as (Q1 & Q2 & Q3 & Q4).
    split; [exact E0|]. split; [reflexivity|]. split; [exact E1|].
    split; [apply appended_app; reflexivity|]. split; [exact E2|].
    split; [apply appended_app; reflexivity|]. split; [exact P2|].
    split; [exact Em|].
    split.
    { unfold end_to_end. rewrite E0. cbv beta iota delta [rbind Ok].
      unfold call_ok. rewrite E1. cbv beta iota delta [rbind Ok snd].
      rewrite E2. cbv beta iota delta [rbind Ok snd].
      rewrite Em. reflexivity. }
    repeat (split; [assumption|]).
    split; [|reflexivity].
    cbn [map]. unfold r0, r1, r2, demo_record_16.
    rewrite (proj1 (@record_1_layout 111111111 imei _ 1 ltac:(lia))).
    rewrite (proj1 (@record_1_layout 111111111 imei _ 2 ltac:(lia))).
    rewrite (proj1 (@record_16_layout 111111111 _ _ 3 _ _ _ _ ltac:(lia))).
    reflexivity.
  - set (r2 := demo_record_16 (get_date_time t2) (get_date_time t3) 2).
    assert (Hl : len (r0 ++ r2) <= 65535).
    { rewrite !len_app, L0. unfold r2. rewrite L2. lia. }
    set (s2 := set_rn 3 (set_service (Some (r0 ++ r2)) (set_pt [x01] s0))).
    assert (E2 : add_service 16 demo_kwargs t2 t3 s0 = (Ok tt, s2)).
    { unfold s0.
      rewrite add_service_16_demo_ok by (fields; trivial; lia).
      reflexivity. }
    destruct (@new_message_ok s2 (r0 ++ r2)) as (s3 & Em & _);
      [reflexivity|exact Hl|unfold s2; fields; lia|].
    assert (Hpt : _pt s2 = [x01]) by reflexivity.
    assert (Hrn : _rn s2 = 3) by reflexivity.
    rewrite Hpt, Hrn in Em.
    exists s0, s2, s3, (packet_of (r0 ++ r2) 3 [x01]).
    destruct (@packet_of_fields (r0 ++ r2) 3 [x01] Hl)
      as (Hf & Hp & H3b); [lia|].
    destruct (packet_of_payload (r0 ++ r2) 3) as (Q1 & Q2 & Q3 & Q4).
    split; [exact E0|]. split; [reflexivity|]. split; [exact E2|].
    split; [apply appended_app; reflexivity|]. split; [reflexivity|].
    split; [exact Em|].
    split.
    { unfold end_to_end_implicit. rewrite E0. cbv beta iota delta [rbind Ok].
      unfold call_ok. rewrite E2. cbv beta iota delta [rbind Ok snd].
      rewrite Em. reflexivity. }
    repeat (split; [assumption|]).
    split; [|reflexivity].
    cbn [map]. unfold r0, r2, demo_record_16.
    rewrite (proj1 (@record_1_layout 111111111 imei _ 1 ltac:(lia))).
    rewrite (proj1 (@record_16_layout 111111111 _ _ 2 _ _ _ _ ltac:(lia))).
    reflexivity.
Qed.

Ltac by_evaluation :=
  vm_compute; repeat split; solve [discriminate | reflexivity].

Lemma end_to_end_packet_witness :
  0 <= get_date_time 500000000000000 < 2 ^ 32
  /\ len (encode (str (Some "865811111111111"%string))) <= 32691
  /\ (exists packet,
        end_to_end (Some "865811111111111"%string) 500000000000000
          500000000000000 500000000000000 500000000000000
        = Ok packet
        /\ nth 3 packet x00 = x0b
        /\ packet_id packet = 4)
  /\ (exists packet,
        end_to_end_implicit (Some "865811111111111"%string) 500000000000000
          500000000000000 500000000000000
        = Ok packet
        /\ nth 3 packet x00 = x0b
        /\ packet_id packet = 3).
Proof.
  assert (Ht : 0 <= get_date_time 500000000000000 < 2 ^ 32) by by_evaluation.
  assert (Hi : len (encode (str (Some "865811111111111"%string))) <= 32691)
    by by_evaluation.
  split; [exact Ht|]. split; [exact Hi|].
  destruct (@end_to_end_packet (Some "865811111111111"%string) 500000000000000
              500000000000000 500000000000000 500000000000000 Ht Ht Ht Ht Hi)
    as [(s0 & s1 & s2 & s3 & packet
         & _ & _ & _ & _ & _ & _ & _ & _ & He & H3 & Hp & _)
        (s0' & s2' & s3' & packet'
         & _ & _ & _ & _ & _ & _ & He' & H3' & Hp' & _)].
  split.
  - exists packet. auto.
  - exists packet'. auto.
Defined.

Lemma finalize_resets_buffer_witness :
  exists s packet s',
    __init__ 111111111 (Some "865811111111111"%string) 500000000000000 = Ok s
    /\ new_message s = (Ok packet, s')
    /\ _service s' = None
    /\ _rn s' = _rn s
    /\ new_message s' = (Raise TypeError, s').
Proof.
  do 3 eexists.
  split; [vm_compute; reflexivity|].
  match goal with
  | |- new_message ?s = _ /\ _ =>
      assert (Hm : new_message s = (Ok ?[packet], ?[s']))
        by (vm_compute; reflexivity);
      pose proof (proj2 (finalize_resets_buffer s) _ _ Hm) as H
  end.
  split; [exact Hm|exact H].
Defined.

(** * Further properties of the encoder *)

(** ** What [new_message] raises, and what it keeps *)

Lemma to_bytes_overflow (n : nat) (z : Z) :
  ~ (0 <= z < 256 ^ Z.of_nat n) -> to_bytes n z = Raise OverflowError.
Proof.
  intros H. unfold to_bytes.
  destruct (0 <=? z) eqn:H0; destruct (z <? 256 ^ Z.of_nat n) eqn:H1;
    try reflexivity.
  apply Z.leb_le in H0. apply Z.ltb_lt in H1. exfalso. apply H. lia.
Qed.

Lemma new_message_overflow (s : EGTStrack) (service : bytes) :
  _service s = Some service ->
  65535 < len service \/ ~ (0 <= _rn s <= 65535) ->
  exists s',
    new_message s = (Raise OverflowError, s')
    /\ _service s' = Some service /\ _rn s' = _rn s
    /\ _tid s' = _tid s /\ _imei s' = _imei s /\ _pt s' = _pt s.
Proof.
  intros Hs Hbad. run_method. rewrite Hs. fields.
  rewrite data_crc_eq. cbv beta iota delta [Ok].
  rewrite (@to_bytes_ok 2 (payload_crc16 service))
    by (pose proof (payload_crc16_range service); simpl; lia).
  cbv beta iota delta [Ok]. fields.
  destruct (Z_le_gt_dec (len service) 65535) as [Hl|Hl].
  - rewrite (@to_bytes_ok 2 (len service))
      by (pose proof (len_nonneg service); simpl; lia).
    cbv beta iota delta [Ok]. fields.
    rewrite (@to_bytes_overflow 2 (_rn s)) by (simpl; lia).
    cbv beta iota delta [Raise]. fields.
    eexists. split; [reflexivity|]. fields. auto.
  - rewrite (@to_bytes_overflow 2 (len service)) by (simpl; lia).
    cbv beta iota delta [Raise]. fields.
    eexists. split; [reflexivity|]. fields. auto.
Qed.

(** X1: with records pending, [new_message] raises exactly when the buffer
    is longer than 65535 bytes or the counter is outside [0, 65535]; what
    it raises is [OverflowError], and the pending records and the counter
    are kept. *)
Theorem new_message_raises_on_overflow (s : EGTStrack) (service : bytes) :
  _service s = Some service ->
  ((exists e, fst (new_message s) = inl e)
   <-> 65535 < len service \/ ~ (0 <= _rn s <= 65535))
  /\ (forall e s',
         new_message s = (inl e, s') ->
         e = OverflowError /\ _service s' = Some service /\ _rn s' = _rn s).
Proof.
  intros Hs.
  assert (Hdec : (len service <= 65535 /\ 0 <= _rn s <= 65535)
                 \/ (65535 < len service \/ ~ (0 <= _rn s <= 65535))) by lia.
  destruct Hdec as [[Hl Hr]|Hbad].
  - destruct (new_message_ok s Hs Hl Hr) as (s1 & Hm & _).
    split.
    + split.
      * intros [e He]. rewrite Hm in He. discriminate.
      * intros Hbad. exfalso. lia.
    + intros e s' H. rewrite Hm in H. discriminate.
  - destruct (new_message_overflow s Hs Hbad) as (s1 & Hm & Hs1 & Hr1 & _).
    split.
    + split; [intros _; exact Hbad|].
      intros _. exists OverflowError. rewrite Hm. reflexivity.
    + intros e s' H. rewrite Hm in H. inversion H. subst. auto.
Qed.

Lemma new_message_raises_on_overflow_witness :
  let s := mkEGTStrack 111111111 "865811111111111" [x01] [x00] (inl 0)
             (Some [x07; x00]) [x00; x30; x30] 1 65536 in
  _service s = Some [x07; x00]
  /\ forall e s',
       new_message s = (inl e, s') ->
       e = OverflowError /\ _service s' = Some [x07; x00] /\ _rn s' = _rn s.
Proof.
  cbv zeta. split; [reflexivity|].
  apply (proj2 (@new_message_raises_on_overflow
                  (mkEGTStrack 111111111 "865811111111111" [x01] [x00] (inl 0)
                     (Some [x07; x00]) [x00; x30; x30] 1 65536)
                  [x07; x00] eq_refl)).
Defined.

(** X2: a receiver gets the records back from a packet with the two header
    fields alone: the [frame_data_length] bytes that follow the
    [header_length] (byte 3) first bytes are the buffer, and the packet is
    two bytes longer than that. *)
Theorem packet_payload_round_trip (s s' : EGTStrack) (service packet : bytes) :
  reachable s ->
  _service s = Some service ->
  new_message s = (Ok packet, s') ->
  let header_length := byte_val (nth 3 packet x00) in
  firstn (Z.to_nat (frame_data_length packet))
    (skipn (Z.to_nat header_length) packet) = service
  /\ len packet = header_length + frame_data_length packet + 2.
Proof.
  intros Hreach Hs Hm. cbv zeta.
  destruct (reachable_invariant Hreach) as [Hp H1].
  assert (Hok : len service <= 65535 /\ 0 <= _rn s <= 65535).
  { assert (Hdec : (len service <= 65535 /\ 0 <= _rn s <= 65535)
                   \/ (65535 < len service \/ ~ (0 <= _rn s <= 65535))) by lia.
    destruct Hdec as [Hok|Hbad]; [exact Hok|].
    destruct (new_message_overflow s Hs Hbad) as (s1 & Hm1 & _).
    rewrite Hm1 in Hm. discriminate. }
  destruct Hok as [Hl Hr].
  destruct (new_message_ok s Hs Hl Hr) as (s1 & Hm1 & _).
  rewrite Hm1 in Hm. inversion Hm as [[Hpk Hs1]]. clear Hm.
  rewrite Hp.
  destruct (@packet_of_fields service (_rn s) [x01] Hl Hr) as (Hf & _ & H3).
  rewrite Hf, H3. change (byte_val x0b) with 11.
  unfold packet_of, header_of. cbv zeta.
  cbn [app le_bytes]. cbn [skipn Z.to_nat Pos.to_nat Pos.iter_op Nat.add].
  split.
  - unfold len. rewrite Nat2Z.id. apply firstn_length_app.
  - unfold len. cbn [length]. rewrite length_app. cbn [length]. lia.
Qed.

Lemma packet_payload_round_trip_witness :
  exists s service packet s',
    __init__ 111111111 (Some "865811111111111"%string) 500000000000000 = Ok s
    /\ _service s = Some service
    /\ new_message s = (Ok packet, s')
    /\ firstn (Z.to_nat (frame_data_length packet))
         (skipn (Z.to_nat (byte_val (nth 3 packet x00))) packet) = service.
Proof.
  do 4 eexists.
  split; [vm_compute; reflexivity|].
  split; [reflexivity|].
  match goal with
  | |- new_message ?s = _ /\ _ =>
      assert (Hinit : __init__ 111111111 (Some "865811111111111"%string)
                        500000000000000 = Ok s) by (vm_compute; reflexivity);
      assert (Hm : new_message s = (Ok ?[packet], ?[s']))
        by (vm_compute; reflexivity);
      pose proof (proj1 (packet_payload_round_trip (reach_init _ _ _ Hinit)
                           eq_refl Hm)) as H
  end.
  split; [exact Hm|exact H].
Defined.

(** ** What every [add_service] call leaves behind *)

Lemma new_message_frame (s : EGTStrack) :
  let s' := snd (new_message s) in
  _tid s' = _tid s /\ _imei s' = _imei s
  /\ (_pid s' = _pid s \/ _pid s' = _rn s).
Proof.
  cbv zeta. run_method.
  destruct (_service s) as [service|]; [|fields; auto]. fields.
  repeat match goal with
         | |- context [match ?r with inl _ => _ | inr _ => _ end] =>
             destruct r; cbv beta iota; fields
         end; auto.
Qed.

(** X3: whatever an [add_service] call raises, the bytes pending and the
    counter are as they were; and after any [add_service] call, returning or
    raising, the buffer is a byte string, so that the guard of
    [new_message] passes and [new_message] does not raise [TypeError]. *)
Theorem add_service_always_leaves_a_buffer (record_types : Z) (kwargs : dict)
    (now_tm now_ntm : datetime) (s s' : EGTStrack) (r : result unit) :
  add_service record_types kwargs now_tm now_ntm s = (r, s') ->
  (forall e, r = inl e -> pending s' = pending s /\ _rn s' = _rn s)
  /\ _service s' <> None
  /\ fst (new_message s') <> Raise TypeError.
Proof.
  intros H.
  assert (Hsome : exists b, _service s' = Some b).
  { apply add_service_outcome in H. destruct H as [_ H].
    destruct r as [e|u].
    - destruct H as [H _]. eauto.
    - destruct H as (rl & rest & _ & H & _). eauto. }
  split; [|split].
  - intros e ->. exact (add_service_raises _ _ _ _ _ H).
  - destruct Hsome as [b Hb]. congruence.
  - destruct Hsome as [b Hb].
    assert (Hdec : (len b <= 65535 /\ 0 <= _rn s' <= 65535)
                   \/ (65535 < len b \/ ~ (0 <= _rn s' <= 65535))) by lia.
    destruct Hdec as [[Hl Hr]|Hbad].
    + destruct (new_message_ok s' Hb Hl Hr) as (s1 & Hm & _).
      rewrite Hm. discriminate.
    + destruct (new_message_overflow s' Hb Hbad) as (s1 & Hm & _).
      rewrite Hm. discriminate.
Qed.

Lemma add_service_always_leaves_a_buffer_witness :
  let s := mkEGTStrack 111111111 "865811111111111" [x01] [x00] (inl 0) None
             [x00; x30; x30] 2 2 in
  exists s',
    add_service 16 [] 0 0 s = (Raise OverflowError, s')
    /\ _service s' <> None
    /\ fst (new_message s') <> Raise TypeError.
Proof.
  cbv zeta. eexists.
  match goal with
  | |- add_service 16 [] 0 0 ?s = _ /\ _ =>
      assert (H : add_service 16 [] 0 0 s = (Raise OverflowError, ?[s']))
        by (vm_compute; reflexivity);
      pose proof (proj2 (add_service_always_leaves_a_buffer _ _ _ _ _ H)) as K
  end.
  split; [exact H|exact K].
Defined.

(** ** What a session keeps for its whole life *)

Lemma reachable_session_invariants (s : EGTStrack) :
  reachable s ->
  _pt s = [x01]
  /\ 0 <= _tid s < 2 ^ 32
  /\ len (encode (_imei s)) <= 65493
  /\ 2 <= _rn s
  /\ 1 <= _pid s <= _rn s.
Proof.
  induction 1 as [deviceid deviceimei now s H
                 |s s' record_types kwargs now_tm now_ntm r _ IH H
                 |s s' r _ IH H].
  - pose proof (init_fields _ _ _ H) as (Ht & Hi & Hr & Htr & Hil & _).
    apply init_add_service, add_service_outcome in H.
    destruct H as ((_ & _ & _ & _ & _ & Hpid & Hp) & _).
    fields_in Hp. fields_in Hpid.
    rewrite Ht, Hi, Hr, Hpid. repeat split; trivial; try lia. tauto.
  - destruct IH as (IHp & IHt & IHi & IHr & IHpid).
    apply add_service_outcome in H.
    destruct H as ((Ht & Hi & _ & _ & _ & Hpid & Hp) & Hr).
    rewrite Ht, Hi, Hpid.
    assert (Hrn : _rn s <= _rn s').
    { destruct r as [e|u].
      - destruct Hr as [_ Hr]. lia.
      - destruct Hr as (_ & _ & _ & _ & Hr & _). lia. }
    repeat split; trivial; try lia.
    destruct Hp as [Hp|Hp]; congruence.
  - destruct IH as (IHp & IHt & IHi & IHr & IHpid).
    pose proof (new_message_pt s) as Hp. pose proof (new_message_rn s) as Hr.
    pose proof (new_message_frame s) as (Ht & Hi & Hpid).
    rewrite H in Hp, Hr, Ht, Hi, Hpid.
    fields_in Hp. fields_in Hr. fields_in Ht. fields_in Hi. fields_in Hpid.
    rewrite Ht, Hi, Hr. repeat split; trivial; try congruence; lia.
Qed.

(** X4: in every session a caller can hold, the packet type is [b'\x01'],
    the terminal id fits four bytes, the hardware identifier is short enough
    for a terminal identity record, the counter is at least 2 and the
    packet id is between 1 and the counter. *)
Theorem session_invariants (s : EGTStrack) :
  reachable s ->
  _pt s = [x01]
  /\ 0 <= _tid s < 2 ^ 32
  /\ len (encode (_imei s)) <= 65493
  /\ 2 <= _rn s
  /\ 1 <= _pid s <= _rn s.
Proof. exact (@reachable_session_invariants s). Qed.

Lemma session_invariants_witness :
  exists s,
    __init__ 111111111 (Some "865811111111111"%string) 500000000000000 = Ok s
    /\ _pt s = [x01] /\ 2 <= _rn s.
Proof.
  eexists. split; [vm_compute; reflexivity|].
  match goal with
  | |- _pt ?s = _ /\ _ =>
      assert (Hinit : __init__ 111111111 (Some "865811111111111"%string)
                        500000000000000 = Ok s) by (vm_compute; reflexivity);
      destruct (session_invariants (reach_init _ _ _ Hinit))
        as (Hp & _ & _ & Hr & _)
  end.
  split; [exact Hp|exact Hr].
Defined.

(** ** The window of the clock *)

Lemma get_date_time_window (value : datetime) :
  0 <= get_date_time value < 2 ^ 32 <-> clock_first <= value <= clock_last.
Proof.
  unfold get_date_time, clock_first, clock_last.
  change (2 ^ 32) with 4294967296.
  change (180 * 60 * 1000000) with 10800000000.
  pose proof (Z.quot_rem' (value - 10800000000) 1000000) as Hq.
  destruct (Z_le_gt_dec 0 (value - 10800000000)) as [Hs|Hs].
  - pose proof (Z.rem_bound_pos_pos (value - 10800000000) 1000000
                  ltac:(lia) Hs).
    lia.
  - pose proof (Z.rem_bound_pos_neg (value - 10800000000) 1000000
                  ltac:(lia) ltac:(lia)).
    lia.
Qed.

(** ** Records of types 1, 2 and 16: the common frame *)

Lemma add_service_framed (record_types : Z) (kwargs : dict)
    (now_tm now_ntm : datetime) (s s' : EGTStrack) (u : unit) :
  add_service record_types kwargs now_tm now_ntm s = (inr u, s') ->
  record_types <> 4 ->
  exists (st : byte) (body : bytes),
    appended s s'
    = framed (_rn s) (_tid s) (get_date_time now_tm) x05 [st] [st]
        record_types body
    /\ 0 <= _rn s <= 65535
    /\ 0 <= _tid s < 2 ^ 32
    /\ 0 <= get_date_time now_tm < 2 ^ 32
    /\ ((record_types = 1 /\ st = x01) \/ (record_types = 2 /\ st = x01)
        \/ (record_types = 16 /\ st = x02))
    /\ len body <= 65532.
Proof.
  intros H Hne. unfold appended, pending, framed. run_method_in H.
  destruct (_service s) as [b|] eqn:Hs; fields_in H.
  all: case_in H; [discriminate|].
  all: destruct (record_types =? 1) eqn:E1;
    [apply Z.eqb_eq in E1; subst record_types
    |destruct (record_types =? 2) eqn:E2;
      [apply Z.eqb_eq in E2; subst record_types
      |destruct (record_types =? 16) eqn:E16;
        [apply Z.eqb_eq in E16; subst record_types
        |destruct (record_types =? 4) eqn:E4;
          [apply Z.eqb_eq in E4; contradiction|discriminate]]]].
  all: cbv beta iota in H; fields_in H.
  all: repeat case_in H; try discriminate.
  all: rewrite ?Hs in H; cbv beta iota in H; fields_in H.
  all: outcome H; rewrite ?Hs; cbv beta iota.
  all: rewrite ?skipn_length_app, ?app_nil_l.
  all: match goal with
       | K : 0 <= len (le_bytes 1 _ ++ le_bytes 2 _ ++ _) < _ |- _ =>
           rewrite len_app, len_app, !len_le_bytes in K;
           cbn [Z.of_nat Pos.of_succ_nat Pos.succ] in K;
           change (256 ^ 2) with 65536 in K
       end.
  all: change (256 ^ Z.of_nat 2) with 65536 in *;
    change (256 ^ Z.of_nat 4) with (2 ^ 32) in *.
  all: match goal with
       | K : 0 <= _ + (_ + len ?body) < _ |- _ =>
           eexists; exists body; split; [reflexivity|]
       end.
  all: repeat (split; [lia || assumption|]).
  all: split; [tauto|lia].
Qed.

Lemma from_bytes_2 (z : Z) :
  0 <= z < 65536 -> from_bytes [byte_of_Z z; byte_of_Z (z / 256)] = z.
Proof. intros H. apply (@from_bytes_le_bytes 2 z). simpl. lia. Qed.

Lemma from_bytes_4 (z : Z) :
  0 <= z < 2 ^ 32 ->
  from_bytes [byte_of_Z z; byte_of_Z (z / 256); byte_of_Z (z / 256 / 256);
              byte_of_Z (z / 256 / 256 / 256)] = z.
Proof. intros H. apply (@from_bytes_le_bytes 4 z). simpl. lia. Qed.

Lemma framed_fields (rn tid tm : Z) (rfl st : byte) (srt : Z) (body : bytes) :
  0 <= rn <= 65535 -> 0 <= tid < 2 ^ 32 -> 0 <= tm < 2 ^ 32 ->
  0 <= srt < 256 -> len body <= 65532 ->
  let record := framed rn tid tm rfl [st] [st] srt body in
  len record = 15 + from_bytes (firstn 2 record)
  /\ from_bytes (firstn 2 (skipn 16 record)) = len record - 18
  /\ byte_val (nth 15 record x00) = srt
  /\ nth 4 record x00 = rfl
  /\ from_bytes (firstn 4 (skipn 5 record)) = tid
  /\ from_bytes (firstn 4 (skipn 9 record)) = tm
  /\ nth 13 record x00 = st /\ nth 14 record x00 = st
  /\ skipn 18 record = body
  /\ len record = 18 + len body.
Proof.
  intros Hrn Htid Htm Hsrt Hbody. cbv zeta.
  pose proof (len_nonneg body) as H0.
  assert (Hlen : len (framed rn tid tm rfl [st] [st] srt body) = 18 + len body).
  { unfold framed. cbv zeta. rewrite !len_app, !len_le_bytes, !len_cons.
    change (len (@nil byte)) with 0. cbn [Z.of_nat Pos.of_succ_nat Pos.succ].
    lia. }
  rewrite Hlen. unfold framed. cbv zeta.
  set (n := len (le_bytes 1 srt ++ le_bytes 2 (len body) ++ body)).
  assert (Hn : n = 3 + len body).
  { unfold n. rewrite !len_app, !len_le_bytes.
    cbn [Z.of_nat Pos.of_succ_nat Pos.succ]. lia. }
  cbn [app le_bytes skipn firstn nth].
  rewrite !from_bytes_2, !from_bytes_4 by lia.
  rewrite byte_val_of_Z, Z.mod_small by lia.
  repeat split; lia.
Qed.

(** X5: a record of type 1, 2 or 16 frames itself.  In the record a
    returning [add_service] appends, the record_length field is the length
    of what follows the 15-byte header, the subrecord type byte is
    [record_types], the subrecord_length field is the length of what
    follows it, the flags byte is [0x05], and the object id and time fields
    read back as the terminal id and as [get_date_time] of the clock. *)
Theorem record_frames_itself (record_types : Z) (kwargs : dict)
    (now_tm now_ntm : datetime) (s s' : EGTStrack) (u : unit) :
  add_service record_types kwargs now_tm now_ntm s = (inr u, s') ->
  record_types <> 4 ->
  let record := appended s s' in
  len record = 15 + from_bytes (firstn 2 record)
  /\ byte_val (nth 15 record x00) = record_types
  /\ from_bytes (firstn 2 (skipn 16 record)) = len (skipn 18 record)
  /\ nth 4 record x00 = x05
  /\ from_bytes (firstn 4 (skipn 5 record)) = _tid s
  /\ from_bytes (firstn 4 (skipn 9 record)) = get_date_time now_tm
  /\ nth 13 record x00 = nth 14 record x00
  /\ nth 13 record x00 = (if record_types =? 16 then x02 else x01).
Proof.
  intros H Hne. cbv zeta.
  destruct (add_service_framed _ _ _ _ H Hne)
    as (st & body & -> & Hrn & Htid & Htm & Hrt & Hbody).
  assert (Hsrt : 0 <= record_types < 256) by lia.
  destruct (@framed_fields (_rn s) (_tid s) (get_date_time now_tm) x05 st
              record_types body Hrn Htid Htm Hsrt Hbody)
    as (F1 & F2 & F3 & F4 & F5 & F6 & F7 & F8 & F9 & F10).
  rewrite F9.
  repeat (split; [assumption || lia|]).
  rewrite F7.
  destruct Hrt as [[-> ->]|[[-> ->]|[-> ->]]]; reflexivity.
Qed.

Lemma record_frames_itself_witness :
  exists s s',
    __init__ 111111111 (Some "865811111111111"%string) 500000000000000 = Ok s
    /\ add_service 2 [] 500000000000000 0 s = (inr tt, s')
    /\ len (appended s s') = 15 + from_bytes (firstn 2 (appended s s'))
    /\ byte_val (nth 15 (appended s s') x00) = 2.
Proof.
  do 2 eexists.
  split; [vm_compute; reflexivity|].
  match goal with
  | |- add_service 2 [] _ 0 ?s = _ /\ _ =>
      assert (H : add_service 2 [] 500000000000000 0 s = (inr tt, ?[s']))
        by (vm_compute; reflexivity);
      destruct (@record_frames_itself 2 [] 500000000000000 0 s _ tt H
                  ltac:(discriminate)) as (F1 & F2 & _)
  end.
  split; [exact H|]. split; [exact F1|exact F2].
Defined.

(** ** The exceptions of [add_service] *)

Lemma dict_getitem_error (d : dict) (k : string) (e : exn) :
  dict_getitem d k = inl e -> e = KeyError.
Proof.
  induction d as [|[k' v] d IH]; simpl.
  - intros H. inversion H. reflexivity.
  - destruct (String.eqb k k'); [discriminate|exact IH].
Qed.

Lemma int_of_float_error (f : float) (e : exn) :
  int_of_float f = inl e -> e = OverflowError \/ e = ValueError.
Proof.
  unfold int_of_float. destruct (Prim2SF f); intros H; inversion H; auto.
Qed.

Lemma coord_bytes_error (x : pynum) (d : Z) (e : exn) :
  coord_bytes x d = inl e -> e = OverflowError \/ e = ValueError.
Proof.
  unfold coord_bytes, coord_int, rbind. intros H. destruct x as [z|f].
  - destruct (Z.abs z <=? 2 ^ 53); [|inversion H; auto].
    destruct (int_of_float _) eqn:E.
    + inversion H. subst. exact (int_of_float_error _ E).
    + left. exact (proj1 (to_bytes_error _ _ H)).
  - destruct (int_of_float _) eqn:E.
    + inversion H. subst. exact (int_of_float_error _ E).
    + left. exact (proj1 (to_bytes_error _ _ H)).
Qed.

Lemma speed_bytes_error (x : pynum) (e : exn) :
  speed_bytes x = inl e -> e = OverflowError \/ e = ValueError.
Proof.
  unfold speed_bytes, rbind. intros H. destruct x as [z|f].
  - left. exact (proj1 (to_bytes_error _ _ H)).
  - destruct (int_of_float _) eqn:E.
    + inversion H. subst. exact (int_of_float_error _ E).
    + left. exact (proj1 (to_bytes_error _ _ H)).
Qed.

(** One step of a method whose outcome is [H], keeping for a call that
    raised what it can have raised. *)
Ltac case_exn_in H :=
  match type of H with
  | context [match to_bytes ?n ?z with inl _ => _ | inr _ => _ end] =>
      let E := fresh "E" in
      destruct (to_bytes n z) as [?|?] eqn:E;
      [apply to_bytes_error in E; destruct E as [E _]|clear E]
  | context [match dict_getitem ?d ?k with inl _ => _ | inr _ => _ end] =>
      let E := fresh "E" in
      destruct (dict_getitem d k) as [?|?] eqn:E;
      [apply dict_getitem_error in E|clear E]
  | context [match coord_bytes ?x ?d with inl _ => _ | inr _ => _ end] =>
      let E := fresh "E" in
      destruct (coord_bytes x d) as [?|?] eqn:E;
      [apply coord_bytes_error in E|clear E]
  | context [match speed_bytes ?x with inl _ => _ | inr _ => _ end] =>
      let E := fresh "E" in
      destruct (speed_bytes x) as [?|?] eqn:E;
      [apply speed_bytes_error in E|clear E]
  end; cbv beta iota in H; fields_in H.

Lemma add_service_exception_kinds (record_types : Z) (kwargs : dict)
    (now_tm now_ntm : datetime) (s s' : EGTStrack) (e : exn) :
  add_service record_types kwargs now_tm now_ntm s = (inl e, s') ->
  e = OverflowError
  \/ (record_types = 16 /\ (e = KeyError \/ e = ValueError))
  \/ (e = UnboundLocalError
      /\ record_types <> 1 /\ record_types <> 2
      /\ record_types <> 16 /\ record_types <> 4).
Proof.
  intros H. run_method_in H.
  destruct (_service s) as [b|] eqn:Hs; fields_in H.
  all: case_exn_in H; [inversion H; subst; auto|].
  all: destruct (record_types =? 1) eqn:E1;
    [apply Z.eqb_eq in E1
    |destruct (record_types =? 2) eqn:E2;
      [apply Z.eqb_eq in E2
      |destruct (record_types =? 16) eqn:E16;
        [apply Z.eqb_eq in E16
        |destruct (record_types =? 4) eqn:E4;
          [apply Z.eqb_eq in E4
          |apply Z.eqb_neq in E1, E2, E16, E4]]]].
  all: cbv beta iota in H; fields_in H.
  all: repeat case_exn_in H.
  all: rewrite ?Hs in H; cbv beta iota in H; fields_in H.
  all: try discriminate.
  all: inversion H; clear H.
  all: repeat match goal with
              | K : _ = OverflowError \/ _ = ValueError |- _ =>
                  destruct K as [K|K]
              end.
  all: subst.
  all: try (left; reflexivity).
  all: try (right; left; split; [reflexivity|auto]).
  all: right; right; repeat split; assumption.
Qed.

(** X6: for the calls the embedding has (an [int] record type, keyword
    values that are [int]s or [float]s, a hardware identifier that has a
    UTF-8 encoding), [add_service] raises nothing but [OverflowError] (a
    field that does not fit its bytes), [KeyError] and [ValueError] (a
    position record with a keyword missing, or with a coordinate or speed
    that is not a number), and [UnboundLocalError] (a record type that has
    no branch). *)
Theorem add_service_exceptions (record_types : Z) (kwargs : dict)
    (now_tm now_ntm : datetime) (s s' : EGTStrack) (e : exn) :
  add_service record_types kwargs now_tm now_ntm s = (inl e, s') ->
  e = OverflowError
  \/ (record_types = 16 /\ (e = KeyError \/ e = ValueError))
  \/ (e = UnboundLocalError
      /\ record_types <> 1 /\ record_types <> 2
      /\ record_types <> 16 /\ record_types <> 4).
Proof. apply add_service_exception_kinds. Qed.

Lemma add_service_exceptions_witness :
  let s := mkEGTStrack 111111111 "865811111111111" [x01] [x00] (inl 0) None
             [x00; x30; x30] 2 2 in
  exists s',
    add_service 16 [] 500000000000000 500000000000000 s = (inl KeyError, s')
    /\ (KeyError = OverflowError
        \/ (16 = 16 /\ (KeyError = KeyError \/ KeyError = ValueError))
        \/ (KeyError = UnboundLocalError
            /\ 16 <> 1 /\ 16 <> 2 /\ 16 <> 16 /\ 16 <> 4)).
Proof.
  cbv zeta. eexists.
  match goal with
  | |- add_service 16 [] ?t ?t ?s = _ /\ _ =>
      assert (H : add_service 16 [] t t s = (inl KeyError, ?[s']))
        by (vm_compute; reflexivity);
      pose proof (add_service_exceptions _ _ _ _ _ H) as K
  end.
  split; [exact H|exact K].
Defined.

(** ** When the fixed-content records are appended *)

Lemma add_service_2_ok (kwargs : dict) (now_tm now_ntm : datetime)
    (s : EGTStrack) :
  0 <= _tid s < 2 ^ 32 ->
  0 <= get_date_time now_tm < 2 ^ 32 ->
  0 <= _rn s <= 65535 ->
  add_service 2 kwargs now_tm now_ntm s
  = (Ok tt,
      set_rn (_rn s + 1)
        (set_service
           (Some (pending s
                    ++ framed (_rn s) (_tid s) (get_date_time now_tm) x05
                         [x01] [x01] 2 record_2_body))
           s)).
Proof.
  intros Ht Hm Hr.
  unfold pending, framed, record_2_body. run_method.
  cbv beta iota delta [Z.eqb Pos.eqb].
  destruct (_service s) as [b|] eqn:Hs; fields.
  all: repeat (rewrite to_bytes_ok by (len_norm; lia);
               cbv beta iota delta [Ok]).
  all: fields; rewrite ?Hs; destruct s; reflexivity.
Qed.

Lemma record_1_framed (tid : Z) (imei : string) (tm rn : Z) :
  record_1 tid imei tm rn
  = framed rn tid tm x05 [x01] [x01] 1
      (le_bytes 4 tid ++ [x9e] ++ encode imei ++ encode "0000000000000000"
         ++ encode "rus" ++ encode "000000000000000").
Proof. reflexivity. Qed.

(** X7: in a session, [add_service(1)] and [add_service(2)] return exactly
    when the clock is within the window of the four-byte time field
    (2010-01-01T02:59:59.000001 to 2146-02-07T09:28:15.999999) and the
    counter is at most 65535; otherwise they raise [OverflowError].  The
    keyword arguments play no part. *)
Theorem identity_and_module_records_returned (record_types : Z)
    (kwargs : dict) (now_tm now_ntm : datetime) (s : EGTStrack) :
  reachable s ->
  record_types = 1 \/ record_types = 2 ->
  ((exists s', add_service record_types kwargs now_tm now_ntm s = (Ok tt, s'))
   <-> clock_first <= now_tm <= clock_last /\ _rn s <= 65535)
  /\ (forall e s',
         add_service record_types kwargs now_tm now_ntm s = (inl e, s') ->
         e = OverflowError).
Proof.
  intros Hreach Hrt.
  destruct (reachable_session_invariants Hreach) as (_ & Ht & Hi & Hr & _).
  split.
  - split.
    + intros [s' H].
      destruct (@add_service_framed record_types kwargs now_tm now_ntm s s' tt H)
        as (st & body & _ & Hrn & _ & Htm & _); [lia|].
      split; [apply get_date_time_window; exact Htm|lia].
    + intros [Hw Hrn]. apply get_date_time_window in Hw.
      destruct Hrt as [-> | ->]; eexists.
      * apply add_service_1_ok; trivial; lia.
      * apply add_service_2_ok; trivial; lia.
  - intros e s' H.
    destruct (add_service_exception_kinds _ _ _ _ _ H)
      as [He|[[H16 _]|(_ & H1 & H2 & _)]]; [exact He|lia|lia].
Qed.

Lemma identity_and_module_records_returned_witness :
  exists s,
    __init__ 111111111 (Some "865811111111111"%string) 500000000000000 = Ok s
    /\ ((exists s', add_service 2 [] 10799000000 0 s = (Ok tt, s'))
        <-> clock_first <= 10799000000 <= clock_last /\ _rn s <= 65535).
Proof.
  eexists. split; [vm_compute; reflexivity|].
  match goal with
  | |- (exists s', add_service 2 [] _ 0 ?s = _) <-> _ =>
      assert (Hinit : __init__ 111111111 (Some "865811111111111"%string)
                        500000000000000 = Ok s) by (vm_compute; reflexivity);
      exact (proj1 (@identity_and_module_records_returned 2 [] 10799000000 0 s
                      (reach_init _ _ _ Hinit) (or_intror eq_refl)))
  end.
Defined.

(** X8: the terminal identity record gives back what the session was
    constructed with.  In the record a returning [add_service(1)] appends,
    the four bytes at offset 18 read back as the terminal id, the byte after
    them is [0x9E], the bytes from offset 23 are the hardware identifier,
    and what follows it is sixteen ['0'], ['rus'] and fifteen ['0']; the
    record is 57 bytes longer than the identifier. *)
Theorem identity_record_round_trip (kwargs : dict) (now_tm now_ntm : datetime)
    (s s' : EGTStrack) (u : unit) :
  add_service 1 kwargs now_tm now_ntm s = (inr u, s') ->
  let record := appended s s' in
  let imei := encode (_imei s) in
  from_bytes (firstn 4 (skipn 18 record)) = _tid s
  /\ nth 22 record x00 = x9e
  /\ firstn (length imei) (skipn 23 record) = imei
  /\ skipn (length imei) (skipn 23 record)
     = encode "0000000000000000" ++ encode "rus" ++ encode "000000000000000"
  /\ len record = 57 + len imei.
Proof.
  intros H. cbv zeta.
  destruct (add_service_1_inv _ _ _ _ H) as (Ht & Hm & Hr & Hi).
  assert (Happ : appended s s'
                 = record_1 (_tid s) (_imei s) (get_date_time now_tm) (_rn s)).
  { rewrite add_service_1_ok in H by trivial.
    assert (Hs' : snd (add_service 1 kwargs now_tm now_ntm s) = s')
      by (rewrite add_service_1_ok by trivial; inversion H; reflexivity).
    rewrite add_service_1_ok in Hs' by trivial. rewrite <- Hs'.
    unfold appended, pending at 2. fields. apply skipn_length_app. }
  rewrite Happ, len_record_1. unfold record_1. cbv zeta.
  cbn [app le_bytes skipn firstn nth].
  rewrite from_bytes_4 by exact Ht.
  rewrite firstn_length_app, skipn_length_app. auto.
Qed.

Lemma identity_record_round_trip_witness :
  let s := mkEGTStrack 111111111 "865811111111111" [x01] [x00] (inl 0) None
             [x00; x30; x30] 2 2 in
  exists s',
    add_service 1 [] 500000000000000 0 s = (inr tt, s')
    /\ from_bytes (firstn 4 (skipn 18 (appended s s'))) = 111111111
    /\ firstn 15 (skipn 23 (appended s s')) = encode "865811111111111".
Proof.
  cbv zeta. eexists.
  match goal with
  | |- add_service 1 [] ?t 0 ?s = _ /\ _ =>
      assert (H : add_service 1 [] t 0 s = (inr tt, ?[s']))
        by (vm_compute; reflexivity);
      destruct (identity_record_round_trip _ _ _ _ H) as (F1 & _ & F3 & _)
  end.
  split; [exact H|]. split; [exact F1|exact F3].
Defined.

(** X9: the module data record does not depend on the session's data: in
    the record a returning [add_service(2)] appends, what follows the
    subrecord header is the same 25 bytes, and the record is 43 bytes
    long. *)
Theorem module_record_is_constant (kwargs : dict) (now_tm now_ntm : datetime)
    (s s' : EGTStrack) (u : unit) :
  add_service 2 kwargs now_tm now_ntm s = (inr u, s') ->
  skipn 18 (appended s s') = record_2_body
  /\ len (appended s s') = 43.
Proof.
  intros H.
  destruct (@add_service_framed 2 kwargs now_tm now_ntm s s' u H)
    as (st & body & Happ & Hr & Ht & Hm & _); [lia|].
  assert (Hs' : snd (add_service 2 kwargs now_tm now_ntm s) = s')
    by (rewrite H; reflexivity).
  rewrite add_service_2_ok in Hs' by trivial. cbn [snd] in Hs'.
  assert (Happ2 : appended s s'
                  = framed (_rn s) (_tid s) (get_date_time now_tm) x05
                      [x01] [x01] 2 record_2_body).
  { rewrite <- Hs'. unfold appended, pending at 2. fields.
    apply skipn_length_app. }
  rewrite Happ2.
  destruct (@framed_fields (_rn s) (_tid s) (get_date_time now_tm) x05 x01 2
              record_2_body Hr Ht Hm)
    as (_ & _ & _ & _ & _ & _ & _ & _ & F9 & F10);
    [lia|vm_compute; discriminate|].
  split; [exact F9|]. rewrite F10. reflexivity.
Qed.

Lemma module_record_is_constant_witness :
  let s := mkEGTStrack 111111111 "865811111111111" [x01] [x00] (inl 0) None
             [x00; x30; x30] 2 2 in
  exists s',
    add_service 2 [] 500000000000000 0 s = (inr tt, s')
    /\ len (appended s s') = 43.
Proof.
  cbv zeta. eexists.
  match goal with
  | |- add_service 2 [] ?t 0 ?s = _ /\ _ =>
      assert (H : add_service 2 [] t 0 s = (inr tt, ?[s']))
        by (vm_compute; reflexivity);
      pose proof (proj2 (module_record_is_constant _ _ _ _ H)) as F
  end.
  split; [exact H|exact F].
Defined.

(** ** Service identity records *)

Lemma record_4_fields (tid : Z) (imei : string) (rn : Z) :
  0 <= tid < 2 ^ 32 -> 0 <= rn <= 65535 -> len (encode imei) <= 65525 ->
  let record := record_4 tid imei rn in
  len record = 7 + from_bytes (firstn 2 record)
  /\ nth 4 record x00 = x00
  /\ nth 5 record x00 = x01 /\ nth 6 record x00 = x01
  /\ nth 7 record x00 = x04
  /\ from_bytes (firstn 2 (skipn 8 record)) = len (skipn 10 record)
  /\ from_bytes (firstn 4 (skipn 12 record)) = tid
  /\ skipn 17 record = encode imei.
Proof.
  intros Ht Hr Hi. cbv zeta. pose proof (len_nonneg (encode imei)) as H0.
  assert (Hlen : len (record_4 tid imei rn) = 17 + len (encode imei)).
  { unfold record_4. len_norm. lia. }
  rewrite Hlen. unfold record_4. cbv zeta.
  set (m := len ([x02] ++ [x02] ++ le_bytes 4 tid ++ [x02] ++ encode imei)).
  assert (Hm : m = 7 + len (encode imei)) by (unfold m; len_norm; lia).
  set (n := len (le_bytes 1 4 ++ le_bytes 2 m ++ _)).
  assert (Hn : n = 10 + len (encode imei)) by (unfold n; len_norm; lia).
  cbn [app le_bytes skipn firstn nth].
  rewrite !from_bytes_2, from_bytes_4 by lia.
  rewrite !len_cons. repeat split; lia.
Qed.

(** X10: in a session, [add_service(4)] returns exactly when the counter is
    at most 65535, whatever the clock and the keyword arguments.  Its record
    has a seven-byte header without object id and time: record_length (the
    length of what follows the header), record number, flags [0x00] and the
    service types [0x01], [0x01]; then the subrecord type [0x04], the
    subrecord length and a body that carries the terminal id at offset 12
    and ends with the hardware identifier, from offset 17. *)
Theorem service_identity_record (kwargs : dict) (now_tm now_ntm : datetime)
    (s : EGTStrack) :
  reachable s ->
  ((exists s', add_service 4 kwargs now_tm now_ntm s = (Ok tt, s'))
   <-> _rn s <= 65535)
  /\ (forall s' u,
         add_service 4 kwargs now_tm now_ntm s = (inr u, s') ->
         let record := appended s s' in
         len record = 7 + from_bytes (firstn 2 record)
         /\ nth 4 record x00 = x00
         /\ nth 5 record x00 = x01 /\ nth 6 record x00 = x01
         /\ nth 7 record x00 = x04
         /\ from_bytes (firstn 2 (skipn 8 record)) = len (skipn 10 record)
         /\ from_bytes (firstn 4 (skipn 12 record)) = _tid s
         /\ skipn 17 record = encode (_imei s)).
Proof.
  intros Hreach.
  destruct (reachable_session_invariants Hreach) as (_ & Ht & Hi & Hr & _).
  assert (Hinv : forall s' u,
             add_service 4 kwargs now_tm now_ntm s = (inr u, s') ->
             _rn s <= 65535).
  { intros s' u H. apply add_service_outcome in H.
    destruct H as (_ & _ & _ & _ & _ & _ & H). lia. }
  split.
  - split.
    + intros [s' H]. exact (Hinv _ _ H).
    + intros Hrn. eexists. apply add_service_4_ok; trivial; lia.
  - intros s' u H. cbv zeta. pose proof (Hinv _ _ H) as Hrn.
    assert (Hs' : snd (add_service 4 kwargs now_tm now_ntm s) = s')
      by (rewrite H; reflexivity).
    rewrite add_service_4_ok in Hs' by (trivial; lia). cbn [snd] in Hs'.
    assert (Happ : appended s s' = record_4 (_tid s) (_imei s) (_rn s)).
    { rewrite <- Hs'. unfold appended, pending at 2. fields.
      apply skipn_length_app. }
    rewrite Happ. apply record_4_fields; trivial; lia.
Qed.

Lemma service_identity_record_witness :
  exists s,
    __init__ 111111111 (Some "865811111111111"%string) 500000000000000 = Ok s
    /\ ((exists s', add_service 4 [] 0 0 s = (Ok tt, s')) <-> _rn s <= 65535).
Proof.
  eexists. split; [vm_compute; reflexivity|].
  match goal with
  | |- (exists s', add_service 4 [] 0 0 ?s = _) <-> _ =>
      assert (Hinit : __init__ 111111111 (Some "865811111111111"%string)
                        500000000000000 = Ok s) by (vm_compute; reflexivity);
      exact (proj1 (@service_identity_record [] 0 0 s
                      (reach_init _ _ _ Hinit)))
  end.
Defined.

(** ** Position records: the other fields *)

Lemma bytes_of_len_4 (b : bytes) :
  len b = 4 -> exists b0 b1 b2 b3, b = [b0; b1; b2; b3].
Proof.
  unfold len. destruct b as [|b0 [|b1 [|b2 [|b3 [|b4 b]]]]];
    cbn [length]; intros H; try lia.
  eauto.
Qed.

Lemma add_service_16_fix_time (kwargs : dict) (now_tm now_ntm : datetime)
    (s s' : EGTStrack) (u : unit) :
  add_service 16 kwargs now_tm now_ntm s = (inr u, s') ->
  0 <= get_date_time now_ntm < 2 ^ 32.
Proof.
  intros H. run_method_in H. cbv beta iota delta [Z.eqb Pos.eqb] in H.
  destruct (_service s) as [b|]; fields_in H.
  all: repeat case_in H; try discriminate.
  all: repeat match goal with
              | K : 0 <= _ < 256 ^ Z.of_nat 4 |- _ =>
                  change (256 ^ Z.of_nat 4) with (2 ^ 32) in K
              end; assumption.
Qed.

(** X11: the rest of a position record.  In the record a returning
    [add_service(16)] appends, the four bytes at offset 18 are the time of
    the second reading of the clock, the two bytes at offset 31 are
    [int(speed * 10)] (ten times an [int] speed), the direction byte is 0,
    the odometer reads 1200, the two last bytes are [0x01] and [0x00], and
    the record is 39 bytes long. *)
Theorem position_record_fields (kwargs : dict) (now_tm now_ntm : datetime)
    (s s' : EGTStrack) (u : unit) :
  add_service 16 kwargs now_tm now_ntm s = (inr u, s') ->
  let record := appended s s' in
  len record = 39
  /\ from_bytes (firstn 4 (skipn 18 record)) = get_date_time now_ntm
  /\ (forall z, dict_getitem kwargs "speed" = Ok (PyInt z) ->
                from_bytes (firstn 2 (skipn 31 record)) = z * 10)
  /\ (forall f, dict_getitem kwargs "speed" = Ok (PyFloat f) ->
                int_of_float (PrimFloat.mul f 10)
                = Ok (from_bytes (firstn 2 (skipn 31 record))))
  /\ nth 33 record x00 = x00
  /\ from_bytes (firstn 3 (skipn 34 record)) = 1200
  /\ nth 37 record x00 = x01
  /\ nth 38 record x00 = x00.
Proof.
  intros H. cbv zeta.
  pose proof (add_service_16_fix_time _ _ _ _ H) as Hntm.
  destruct (add_service_16_inv _ _ _ _ H)
    as (long & lat & speed & longb & latb & spdb
        & _ & _ & Dspeed & Clong & Clat & Cspeed & _ & Hs).
  assert (Happ : appended s s'
                 = record_16 (_tid s) (get_date_time now_tm)
                     (get_date_time now_ntm) (_rn s) latb longb
                     (position_flags long lat) spdb).
  { unfold appended, pending at 2. rewrite Hs. apply skipn_length_app. }
  rewrite Happ.
  pose proof (coord_bytes_length _ _ Clong) as Llong.
  pose proof (coord_bytes_length _ _ Clat) as Llat.
  pose proof (speed_bytes_length _ Cspeed) as Lspeed.
  split; [apply len_record_16; assumption|].
  destruct (@bytes_of_len_4 longb Llong) as (g0 & g1 & g2 & g3 & ->).
  destruct (@bytes_of_len_4 latb Llat) as (a0 & a1 & a2 & a3 & ->).
  unfold record_16. cbv zeta. cbn [app le_bytes skipn firstn nth].
  rewrite from_bytes_4 by exact Hntm.
  split; [reflexivity|].
  split; [|split].
  - intros z Hz. rewrite Hz in Dspeed. inversion Dspeed. subst speed.
    unfold speed_bytes in Cspeed. apply to_bytes_inv in Cspeed.
    destruct Cspeed as [Hr ->]. cbn [app le_bytes skipn firstn].
    apply from_bytes_2. simpl in Hr. lia.
  - intros f Hf. rewrite Hf in Dspeed. inversion Dspeed. subst speed.
    unfold speed_bytes, rbind in Cspeed.
    change (float_of_Z 10) with 10%float in Cspeed.
    destruct (int_of_float (f * 10)) as [e|n]; [discriminate|].
    apply to_bytes_inv in Cspeed. destruct Cspeed as [Hr ->].
    cbn [app le_bytes skipn firstn]. rewrite from_bytes_2; [reflexivity|].
    simpl in Hr. lia.
  - unfold len in Lspeed.
    destruct spdb as [|p0 [|p1 [|p2 spdb]]]; cbn [length] in Lspeed; try lia.
    cbn [app skipn firstn nth]. repeat split; reflexivity.
Qed.

Lemma position_record_fields_witness :
  let s := mkEGTStrack 111111111 "865811111111111" [x01] [x00] (inl 0) None
             [x00; x30; x30] 2 2 in
  exists s',
    add_service 16 demo_kwargs 500000000000000 500000000000000 s = (inr tt, s')
    /\ len (appended s s') = 39
    /\ from_bytes (firstn 2 (skipn 31 (appended s s'))) = 90 * 10.
Proof.
  cbv zeta. eexists.
  match goal with
  | |- add_service 16 _ ?t ?t ?s = _ /\ _ =>
      assert (H : add_service 16 demo_kwargs t t s = (inr tt, ?[s']))
        by (vm_compute; reflexivity);
      destruct (position_record_fields _ _ _ _ H) as (F1 & _ & F3 & _)
  end.
  split; [exact H|]. split; [exact F1|]. apply F3. reflexivity.
Defined.

(** X12: a position record needs its three keywords.  With ['long'],
    ['lat'] or ['speed'] missing, [add_service(16)] raises and appends
    nothing; and where the terminal id, the counter and the clock are in
    range, a missing ['long'] or ['lat'] is met first and what is raised is
    [KeyError]. *)
Theorem position_needs_its_keywords (kwargs : dict)
    (now_tm now_ntm : datetime) (s : EGTStrack) :
  dict_getitem kwargs "long" = Raise KeyError
  \/ dict_getitem kwargs "lat" = Raise KeyError
  \/ dict_getitem kwargs "speed" = Raise KeyError ->
  (exists e s',
      add_service 16 kwargs now_tm now_ntm s = (inl e, s')
      /\ pending s' = pending s /\ _rn s' = _rn s)
  /\ (0 <= _tid s < 2 ^ 32 ->
      0 <= _rn s <= 65535 ->
      clock_first <= now_tm <= clock_last ->
      dict_getitem kwargs "long" = Raise KeyError
      \/ dict_getitem kwargs "lat" = Raise KeyError ->
      fst (add_service 16 kwargs now_tm now_ntm s) = Raise KeyError).
Proof.
  intros Hmiss. split.
  - destruct (add_service 16 kwargs now_tm now_ntm s) as [[e|u] s'] eqn:H.
    + exists e, s'. split; [reflexivity|].
      exact (add_service_raises _ _ _ _ _ H).
    + exfalso.
      destruct (add_service_16_inv _ _ _ _ H)
        as (long & lat & speed & _ & _ & _ & D1 & D2 & D3 & _).
      unfold Ok, Raise in *. destruct Hmiss as [K|[K|K]]; congruence.
  - intros Ht Hr Hw Hk. apply get_date_time_window in Hw.
    run_method. cbv beta iota delta [Z.eqb Pos.eqb].
    destruct (_service s) as [b|]; fields.
    all: rewrite (@to_bytes_ok 2 (_rn s)) by (simpl; lia);
      cbv beta iota delta [Ok].
    all: rewrite (@to_bytes_ok 4 (_tid s)) by (simpl; lia);
      cbv beta iota delta [Ok].
    all: rewrite (@to_bytes_ok 4 (get_date_time now_tm)) by (simpl; lia);
      cbv beta iota delta [Ok]; fields.
    all: rewrite (@to_bytes_ok 1 16) by (simpl; lia);
      cbv beta iota delta [Ok].
    all: destruct (dict_getitem kwargs "long") as [e1|v1] eqn:D1;
      [apply dict_getitem_error in D1; subst e1; reflexivity|].
    all: destruct Hk as [K|K]; [discriminate|].
    all: rewrite K; reflexivity.
Qed.

Lemma position_needs_its_keywords_witness :
  let s := mkEGTStrack 111111111 "865811111111111" [x01] [x00] (inl 0) None
             [x00; x30; x30] 2 2 in
  dict_getitem [("long"%string, PyFloat demo_long)] "lat" = Raise KeyError
  /\ fst (add_service 16 [("long"%string, PyFloat demo_long)]
            500000000000000 500000000000000 s) = Raise KeyError.
Proof.
  cbv zeta. split; [reflexivity|].
  apply (proj2 (@position_needs_its_keywords
                  [("long"%string, PyFloat demo_long)]
                  500000000000000 500000000000000
                  (mkEGTStrack 111111111 "865811111111111" [x01] [x00]
                     (inl 0) None [x00; x30; x30] 2 2)
                  (or_intror (or_introl eq_refl)))).
  - by_evaluation.
  - by_evaluation.
  - by_evaluation.
  - right. reflexivity.
Defined.

(** ** The checksums as polynomial division *)

Lemma below_In (n : nat) (k : Z) : 0 <= k < Z.of_nat n -> In k (below n).
Proof.
  intros Hk. unfold below. rewrite <- (Z2Nat.id k) by lia.
  apply in_map, in_seq. lia.
Qed.

Lemma forallb_below (f : Z -> bool) (n : nat) :
  forallb f (below n) = true ->
  forall k, 0 <= k < Z.of_nat n -> f k = true.
Proof.
  intros H k Hk. rewrite forallb_forall in H. apply H, below_In, Hk.
Qed.

Lemma TABLE8_generated (k : Z) :
  0 <= k < 256 -> TABLE8 k = crc_shift8 8 0x31 k.
Proof.
  intros Hk. apply Z.eqb_eq.
  apply (@forallb_below (fun k => TABLE8 k =? crc_shift8 8 0x31 k) 256);
    [vm_compute; reflexivity|exact Hk].
Qed.

Lemma TABLE16_generated (k : Z) :
  0 <= k < 256 -> TABLE16 k = crc_shift8 16 0x1021 (Z.shiftl k 8).
Proof.
  intros Hk. apply Z.eqb_eq.
  apply (@forallb_below
           (fun k => TABLE16 k =? crc_shift8 16 0x1021 (Z.shiftl k 8)) 256);
    [vm_compute; reflexivity|exact Hk].
Qed.

Lemma crc16_register_all :
  forallb
    (fun hi => forallb (fun lo => crc16_register_ok (hi * 256 + lo)) (below 256))
    (below 256)
  = true.
Proof. vm_compute. reflexivity. Qed.

Lemma crc16_register (v : Z) :
  0 <= v < 65536 ->
  Z.lxor (Z.shiftl v 8 mod 65536) (TABLE16 (Z.shiftr v 8))
  = crc_shift8 16 0x1021 v.
Proof.
  intros Hv. apply Z.eqb_eq. fold (crc16_register_ok v).
  pose proof crc16_register_all as H.
  pose proof (Z.div_mod v 256 ltac:(lia)) as Hdm.
  pose proof (Z.mod_pos_bound v 256 ltac:(lia)) as Hlo.
  assert (Hhi : 0 <= v / 256 < 256).
  { split; [apply Z.div_pos; lia|apply Z.div_lt_upper_bound; lia]. }
  pose proof (@forallb_below _ 256 H (v / 256) Hhi) as H1.
  cbv beta in H1.
  pose proof (@forallb_below _ 256 H1 (v mod 256) Hlo) as H2.
  cbv beta in H2.
  replace (v / 256 * 256 + v mod 256) with v in H2 by lia.
  exact H2.
Qed.

Lemma lxor_mod_pow2 (a b n : Z) :
  0 <= n -> Z.lxor a b mod 2 ^ n = Z.lxor (a mod 2 ^ n) (b mod 2 ^ n).
Proof.
  intros Hn. apply Z.bits_inj'. intros k Hk.
  rewrite Z.lxor_spec.
  destruct (Z_lt_le_dec k n) as [Hlt|Hge].
  - rewrite !Z.mod_pow2_bits_low by lia. apply Z.lxor_spec.
  - rewrite !Z.mod_pow2_bits_high by lia. reflexivity.
Qed.

Lemma payload_crc16_step_bitwise (crc : Z) (x : byte) :
  0 <= crc < 65536 -> payload_crc16_step crc x = crc16_bitwise_step crc x.
Proof.
  intros Hc. pose proof (byte_val_range x) as Hx.
  unfold payload_crc16_step, crc16_bitwise_step.
  set (v := Z.lxor crc (Z.shiftl (byte_val x) 8)).
  assert (Hx8 : 0 <= Z.shiftl (byte_val x) 8 < 65536).
  { rewrite Z.shiftl_mul_pow2 by lia. change (2 ^ 8) with 256. lia. }
  assert (Hv : 0 <= v < 65536).
  { apply (lxor_range (n := 16)); [lia|exact Hc|exact Hx8]. }
  rewrite <- (crc16_register Hv).
  assert (Hhi : Z.shiftr v 8 = Z.lxor (Z.shiftr crc 8) (byte_val x)).
  { unfold v. rewrite Z.shiftr_lxor, Z.shiftr_shiftl_l by lia.
    rewrite Z.sub_diag, Z.shiftl_0_r. reflexivity. }
  assert (Hlo : Z.shiftl v 8 mod 65536 = Z.shiftl crc 8 mod 65536).
  { unfold v. rewrite Z.shiftl_lxor, Z.shiftl_shiftl by lia.
    change 65536 with (2 ^ 16). rewrite lxor_mod_pow2 by lia.
    replace (Z.shiftl (byte_val x) (8 + 8) mod 2 ^ 16) with 0.
    - apply Z.lxor_0_r.
    - rewrite Z.shiftl_mul_pow2 by lia. symmetry. apply Z.mod_mul. lia. }
  rewrite Hhi, Hlo. reflexivity.
Qed.

Lemma header_crc8_step_bitwise (crc : Z) (x : byte) :
  0 <= crc < 256 -> header_crc8_step crc x = crc8_bitwise_step crc x.
Proof.
  intros Hc. unfold header_crc8_step, crc8_bitwise_step.
  apply TABLE8_generated.
  apply (lxor_range (n := 8)); [lia|exact Hc|apply byte_val_range].
Qed.

Lemma fold_left_agree (f g : Z -> byte -> Z) (P : Z -> Prop) :
  (forall c x, P c -> f c x = g c x) ->
  (forall c x, P c -> P (f c x)) ->
  forall b c, P c -> fold_left f b c = fold_left g b c.
Proof.
  intros Hfg HP. induction b as [|x b IH]; intros c Hc; simpl; [reflexivity|].
  rewrite <- (Hfg c x Hc). apply IH, HP, Hc.
Qed.

(** X13: the tables are those of the polynomials [0x31] (CRC-8) and
    [0x1021] (CRC-16): entry [k] is the remainder that eight bits of
    division leave from [k]; and on every byte sequence [header_crc] and
    [data_crc] are the bit-by-bit CRC-8 and CRC-16 with initial values
    [0xFF] and [0xFFFF], most significant bit first, with no final
    complement. *)
Theorem checksums_are_polynomial_division (b : bytes) :
  header_crc b = Ok (crc8_bitwise b)
  /\ data_crc b = Ok (crc16_bitwise b)
  /\ CRC8_TABLE = map (crc_shift8 8 0x31) (below 256)
  /\ CRC16_TABLE
     = map (fun k => crc_shift8 16 0x1021 (Z.shiftl k 8)) (below 256).
Proof.
  split; [|split; [|split]].
  - rewrite header_crc_eq. f_equal. unfold header_crc8, crc8_bitwise.
    apply (@fold_left_agree header_crc8_step crc8_bitwise_step
             (fun c => 0 <= c < 256)).
    + intros c x Hc. apply header_crc8_step_bitwise, Hc.
    + intros c x Hc. apply header_crc8_step_range, Hc.
    + lia.
  - rewrite data_crc_eq. f_equal. unfold payload_crc16, crc16_bitwise.
    apply (@fold_left_agree payload_crc16_step crc16_bitwise_step
             (fun c => 0 <= c < 65536)).
    + intros c x Hc. apply payload_crc16_step_bitwise, Hc.
    + intros c x Hc. apply payload_crc16_step_range, Hc.
    + lia.
  - vm_compute. reflexivity.
  - vm_compute. reflexivity.
Qed.

(** ** A changed byte changes the checksum *)

Lemma lxor_cancel_r (a b t : Z) : Z.lxor a t = Z.lxor b t -> a = b.
Proof.
  intros H.
  rewrite <- (Z.lxor_0_r a), <- (Z.lxor_0_r b), <- (Z.lxor_nilpotent t).
  rewrite <- !Z.lxor_assoc, H. reflexivity.
Qed.

Lemma lxor_cancel_l (a b t : Z) : Z.lxor t a = Z.lxor t b -> a = b.
Proof. rewrite !(Z.lxor_comm t). apply lxor_cancel_r. Qed.

Lemma byte_val_inj (x y : byte) : byte_val x = byte_val y -> x = y.
Proof.
  intros H. rewrite <- (byte_of_Z_val x), <- (byte_of_Z_val y), H. reflexivity.
Qed.

Lemma injective_below_256_spec (f : Z -> Z) (i j : Z) :
  injective_below_256 f = true ->
  0 <= i < 256 -> 0 <= j < 256 -> f i = f j -> i = j.
Proof.
  intros H Hi Hj Hf. unfold injective_below_256 in H.
  pose proof (@forallb_below _ 256 H i Hi) as H1. cbv beta in H1.
  pose proof (@forallb_below _ 256 H1 j Hj) as H2. cbv beta in H2.
  apply Z.eqb_eq in Hf. rewrite Hf in H2. apply Z.eqb_eq. exact H2.
Qed.

Lemma TABLE8_injective (i j : Z) :
  0 <= i < 256 -> 0 <= j < 256 -> TABLE8 i = TABLE8 j -> i = j.
Proof.
  apply injective_below_256_spec. vm_compute. reflexivity.
Qed.

Lemma TABLE16_low_injective (i j : Z) :
  0 <= i < 256 -> 0 <= j < 256 ->
  TABLE16 i mod 2 ^ 8 = TABLE16 j mod 2 ^ 8 -> i = j.
Proof.
  apply (@injective_below_256_spec (fun k => TABLE16 k mod 2 ^ 8)).
  vm_compute. reflexivity.
Qed.

Lemma header_crc8_step_inj_byte (c : Z) (x y : byte) :
  0 <= c < 256 -> header_crc8_step c x = header_crc8_step c y -> x = y.
Proof.
  intros Hc H. unfold header_crc8_step in H.
  apply TABLE8_injective in H;
    try (apply (lxor_range (n := 8)); [lia|exact Hc|apply byte_val_range]).
  apply byte_val_inj, (@lxor_cancel_l _ _ _ H).
Qed.

Lemma header_crc8_step_inj_crc (c1 c2 : Z) (x : byte) :
  0 <= c1 < 256 -> 0 <= c2 < 256 ->
  header_crc8_step c1 x = header_crc8_step c2 x -> c1 = c2.
Proof.
  intros H1 H2 H. unfold header_crc8_step in H.
  apply TABLE8_injective in H;
    try (apply (lxor_range (n := 8)); [lia|assumption|apply byte_val_range]).
  exact (@lxor_cancel_r _ _ _ H).
Qed.

Lemma shifted_low_byte (c : Z) : (Z.shiftl c 8 mod 65536) mod 2 ^ 8 = 0.
Proof.
  rewrite Z.shiftl_mul_pow2 by lia. change (2 ^ 8) with 256.
  change 65536 with (256 * 256).
  rewrite Z.rem_mul_r by lia.
  rewrite Z.mod_mul by lia.
  rewrite Z.add_0_l, Z.mul_comm. apply Z.mod_mul. lia.
Qed.

Lemma payload_crc16_step_low (c : Z) (x : byte) :
  payload_crc16_step c x mod 2 ^ 8
  = TABLE16 (Z.lxor (Z.shiftr c 8) (byte_val x)) mod 2 ^ 8.
Proof.
  unfold payload_crc16_step.
  rewrite lxor_mod_pow2 by lia. rewrite shifted_low_byte. apply Z.lxor_0_l.
Qed.

Lemma payload_crc16_step_inj_byte (c : Z) (x y : byte) :
  0 <= c < 65536 -> payload_crc16_step c x = payload_crc16_step c y -> x = y.
Proof.
  intros Hc H.
  assert (Hlow : payload_crc16_step c x mod 2 ^ 8
                 = payload_crc16_step c y mod 2 ^ 8) by (rewrite H; reflexivity).
  rewrite !payload_crc16_step_low in Hlow.
  apply TABLE16_low_injective in Hlow;
    try (apply payload_crc16_index_range; exact Hc).
  apply byte_val_inj, (@lxor_cancel_l _ _ _ Hlow).
Qed.

Lemma payload_crc16_step_inj_crc (c1 c2 : Z) (x : byte) :
  0 <= c1 < 65536 -> 0 <= c2 < 65536 ->
  payload_crc16_step c1 x = payload_crc16_step c2 x -> c1 = c2.
Proof.
  intros H1 H2 H.
  assert (Hlow : payload_crc16_step c1 x mod 2 ^ 8
                 = payload_crc16_step c2 x mod 2 ^ 8) by (rewrite H; reflexivity).
  rewrite !payload_crc16_step_low in Hlow.
  apply TABLE16_low_injective in Hlow;
    try (apply payload_crc16_index_range; assumption).
  unfold payload_crc16_step in H. rewrite Hlow in H.
  apply lxor_cancel_r in H. apply lxor_cancel_r in Hlow.
  rewrite !Z.shiftr_div_pow2 in Hlow by lia.
  rewrite !Z.shiftl_mul_pow2 in H by lia.
  change (2 ^ 8) with 256 in *. change 65536 with (256 * 256) in H.
  rewrite !Z.mul_mod_distr_r in H by lia.
  pose proof (Z.div_mod c1 256 ltac:(lia)).
  pose proof (Z.div_mod c2 256 ltac:(lia)).
  lia.
Qed.

Lemma fold_left_inj_crc (f : Z -> byte -> Z) (P : Z -> Prop) :
  (forall c1 c2 x, P c1 -> P c2 -> f c1 x = f c2 x -> c1 = c2) ->
  (forall c x, P c -> P (f c x)) ->
  forall b c1 c2, P c1 -> P c2 -> fold_left f b c1 = fold_left f b c2 -> c1 = c2.
Proof.
  intros Hinj HP. induction b as [|x b IH]; intros c1 c2 H1 H2 H; simpl in H.
  - exact H.
  - apply (Hinj c1 c2 x H1 H2). apply IH; auto.
Qed.

Lemma fold_left_range (f : Z -> byte -> Z) (P : Z -> Prop) :
  (forall c x, P c -> P (f c x)) ->
  forall b c, P c -> P (fold_left f b c).
Proof.
  intros HP. induction b as [|x b IH]; intros c Hc; simpl; auto.
Qed.

Lemma fold_left_detects (f : Z -> byte -> Z) (P : Z -> Prop) :
  (forall c x y, P c -> f c x = f c y -> x = y) ->
  (forall c1 c2 x, P c1 -> P c2 -> f c1 x = f c2 x -> c1 = c2) ->
  (forall c x, P c -> P (f c x)) ->
  forall pre suf x y c,
    P c ->
    fold_left f (pre ++ x :: suf) c = fold_left f (pre ++ y :: suf) c ->
    x = y.
Proof.
  intros Hb Hc HP pre suf x y c Pc H.
  rewrite !fold_left_app in H. cbn [fold_left] in H.
  pose proof (@fold_left_range f P HP pre c Pc) as Ppre.
  apply (@fold_left_inj_crc f P Hc HP) in H; auto.
  exact (Hb _ _ _ Ppre H).
Qed.

(** X14: a changed byte is always detected.  Two byte sequences that differ
    in exactly one byte, wherever it is, have different [header_crc] and
    different [data_crc]. *)
Theorem checksums_detect_a_changed_byte (pre suf : bytes) (x y : byte) :
  x <> y ->
  header_crc (pre ++ x :: suf) <> header_crc (pre ++ y :: suf)
  /\ data_crc (pre ++ x :: suf) <> data_crc (pre ++ y :: suf).
Proof.
  intros Hxy. rewrite !header_crc_eq, !data_crc_eq. split; intros H.
  - apply Hxy. injection H as H. unfold header_crc8 in H.
    apply (@fold_left_detects header_crc8_step (fun c => 0 <= c < 256)
             header_crc8_step_inj_byte header_crc8_step_inj_crc
             header_crc8_step_range pre suf x y 0xFF); [lia|exact H].
  - apply Hxy. injection H as H. unfold payload_crc16 in H.
    apply (@fold_left_detects payload_crc16_step (fun c => 0 <= c < 65536)
             payload_crc16_step_inj_byte payload_crc16_step_inj_crc
             payload_crc16_step_range pre suf x y 0xFFFF); [lia|exact H].
Qed.

Lemma checksums_detect_a_changed_byte_witness :
  x01 <> x03
  /\ header_crc ([x01; x00] ++ x01 :: [x0b])
     <> header_crc ([x01; x00] ++ x03 :: [x0b]).
Proof.
  assert (H : x01 <> x03) by discriminate.
  split; [exact H|].
  exact (proj1 (@checksums_detect_a_changed_byte [x01; x00] [x0b] x01 x03 H)).
Defined.

(** ** The remaining methods: [header] and [__str__] *)

Lemma fromhex_hex (b : bytes) : fromhex (hex b) = Some b.
Proof.
  induction b as [|x b IH]; [reflexivity|].
  cbn [hex fromhex]. rewrite IH.
  destruct x; reflexivity.
Qed.

Lemma length_hex (b : bytes) : String.length (hex b) = (2 * length b)%nat.
Proof.
  induction b as [|x b IH]; [reflexivity|].
  cbn [hex String.length length]. rewrite IH. lia.
Qed.

(** X15: [str(session)] is [new_message] in hexadecimal, and takes the
    packet with it.  Where [new_message] returns a packet, [__str__] returns
    its two lower-case digits a byte, from which [fromhex] gives the packet
    back, and resets the buffer, so that a second [__str__] raises
    [TypeError]; where [new_message] raises, [__str__] raises the same. *)
Theorem str_takes_the_packet (s : EGTStrack) :
  (forall packet s',
      new_message s = (Ok packet, s') ->
      __str__ s = (Ok (hex packet), s')
      /\ String.length (hex packet) = (2 * length packet)%nat
      /\ fromhex (hex packet) = Some packet
      /\ __str__ s' = (Raise TypeError, s'))
  /\ (forall e s', new_message s = (inl e, s') -> __str__ s = (inl e, s')).
Proof.
  split.
  - intros packet s' H.
    assert (Hs : _service s' = None).
    { assert (K := H). run_method_in K.
      destruct (_service s) as [service|]; [|discriminate].
      fields_in K. repeat case_in K; try discriminate.
      outcome K. reflexivity. }
    split; [|split; [|split]].
    + unfold __str__, bind, ret. rewrite H. reflexivity.
    + apply length_hex.
    + apply fromhex_hex.
    + unfold __str__, bind. rewrite (new_message_empty _ Hs). reflexivity.
  - intros e s' H. unfold __str__, bind. rewrite H. reflexivity.
Qed.

Lemma str_takes_the_packet_witness :
  exists s packet s',
    __init__ 111111111 (Some "865811111111111"%string) 500000000000000 = Ok s
    /\ new_message s = (Ok packet, s')
    /\ __str__ s = (Ok (hex packet), s')
    /\ __str__ s' = (Raise TypeError, s').
Proof.
  do 3 eexists.
  split; [vm_compute; reflexivity|].
  match goal with
  | |- new_message ?s = _ /\ _ =>
      assert (Hm : new_message s = (Ok ?[packet], ?[s']))
        by (vm_compute; reflexivity);
      destruct (proj1 (str_takes_the_packet s) _ _ Hm) as (H1 & _ & _ & H4)
  end.
  split; [exact Hm|]. split; [exact H1|exact H4].
Defined.

(** ** The script that drives the class *)

Lemma encodable_spec (g : dict) :
  encodable g = true ->
  exists long lat speed longb latb spdb,
    dict_getitem g "long" = Ok long
    /\ dict_getitem g "lat" = Ok lat
    /\ dict_getitem g "speed" = Ok speed
    /\ coord_bytes long 180 = Ok longb
    /\ coord_bytes lat 90 = Ok latb
    /\ speed_bytes speed = Ok spdb.
Proof.
  unfold encodable. intros H.
  destruct (dict_getitem g "long") as [?|long]; try discriminate.
  destruct (dict_getitem g "lat") as [?|lat]; try discriminate.
  destruct (dict_getitem g "speed") as [?|speed]; try discriminate.
  destruct (coord_bytes long 180) as [?|longb] eqn:E1; try discriminate.
  destruct (coord_bytes lat 90) as [?|latb] eqn:E2; try discriminate.
  destruct (speed_bytes speed) as [?|spdb] eqn:E3; try discriminate.
  exists long, lat, speed, longb, latb, spdb. auto 10.
Qed.

Lemma len_packet_of (service : bytes) (rn : Z) :
  len (packet_of service rn [x01]) = 13 + len service.
Proof.
  unfold packet_of, header_of. cbv zeta.
  rewrite !len_app, !len_le_bytes, !len_cons.
  change (len (@nil byte)) with 0. cbn [Z.of_nat Pos.of_succ_nat Pos.succ]. lia.
Qed.

Lemma skipn_11_packet_of (service : bytes) (rn : Z) :
  skipn 11 (packet_of service rn [x01])
  = service ++ le_bytes 2 (payload_crc16 service).
Proof. reflexivity. Qed.

Lemma send_points_ok (clock : nat -> datetime) (returns : nat -> bool)
    (points : list dict) :
  forallb encodable points = true ->
  forall (k i : nat) (s : EGTStrack),
    _service s = None ->
    _pt s = [x01] ->
    0 <= _tid s < 2 ^ 32 ->
    0 <= _rn s ->
    _rn s + len points <= 65535 ->
    (forall j, (k <= j < k + 2 * length points)%nat ->
               clock_first <= clock j <= clock_last) ->
    (forall j, (i <= j <= i + 3 * length points)%nat -> returns j = true) ->
    exists sent,
      send_points clock returns points k i s = (sent, None)
      /\ map packet_id sent = count_from (_rn s + 1) (length points)
      /\ map len sent = repeat 52 (length points)
      /\ map (fun p => record_number (skipn 11 p)) sent
         = count_from (_rn s) (length points).
Proof.
  induction points as [|g points IH];
    intros Henc k i s Hs Hp Ht H0 Hn Hclock Hret.
  - exists []. cbn [send_points]. rewrite Hret by (cbn [length]; lia).
    repeat split; reflexivity.
  - cbn [forallb] in Henc. apply andb_true_iff in Henc.
    destruct Henc as [Hg Henc].
    destruct (encodable_spec _ Hg)
      as (long & lat & speed & longb & latb & spdb
          & D1 & D2 & D3 & C1 & C2 & C3).
    unfold len in Hn. cbn [length] in Hn, Hclock, Hret.
    assert (Hk0 : 0 <= get_date_time (clock k) < 2 ^ 32)
      by (apply get_date_time_window, Hclock; lia).
    assert (Hk1 : 0 <= get_date_time (clock (S k)) < 2 ^ 32)
      by (apply get_date_time_window, Hclock; lia).
    cbn [send_points].
    rewrite (@add_service_16_ok g (clock k) (clock (S k)) s long lat speed
               longb latb spdb) by (trivial; lia).
    cbv beta iota delta [Ok].
    set (record := record_16 (_tid s) (get_date_time (clock k))
                     (get_date_time (clock (S k))) (_rn s) latb longb
                     (position_flags long lat) spdb).
    assert (Hlen : len record = 39).
    { apply len_record_16;
        [exact (coord_bytes_length _ _ C2)|exact (coord_bytes_length _ _ C1)
        |exact (speed_bytes_length _ C3)]. }
    unfold pending. rewrite Hs. cbn [app].
    match goal with
    | |- context [new_message ?st] =>
        destruct (@new_message_ok st record)
          as (s2 & Hm & Hs2 & Hr2 & _ & Hp2 & Ht2 & _);
        [reflexivity|lia|fields; lia|]
    end.
    rewrite Hm. cbv beta iota delta [Ok]. fields_in Hr2. fields_in Hp2.
    fields_in Ht2. fields.
    rewrite (Hret i), (Hret (S i)), (Hret (S (S i))) by lia. cbn [negb].
    destruct (IH Henc (S (S k)) (S (S (S i))) s2)
      as (sent & Hsend & Hid & Hl & Hrec);
      try (rewrite ?Hr2, ?Ht2, ?Hp2; trivial; unfold len; lia).
    { intros j Hj. apply Hclock. lia. }
    { intros j Hj. apply Hret. lia. }
    rewrite Hsend. eexists. split; [reflexivity|].
    cbn [map length count_from repeat].
    rewrite Hid, Hl, Hrec, Hr2.
    destruct (@packet_of_fields record (_rn s + 1) [x01]) as (_ & Hpid & _);
      [lia|lia|].
    assert (Hrn : forall tail, record_number (record ++ tail) = _rn s).
    { intros tail. unfold record, record_16. cbv zeta.
      rewrite <- !app_assoc.
      apply record_number_layout; [apply le_bytes_length|lia]. }
    rewrite Hpid, len_packet_of, Hlen, skipn_11_packet_of, Hrn.
    repeat split; reflexivity.
Qed.

(** X16: what the script sends.  When its twenty-nine calls to the socket
    and to [time.sleep] all return and its seventeen reads of the clock are
    within the window of the time field, the script ends without an
    exception after [sendall] has taken nine packets: the first, of 85
    bytes and packet id 2, carries the terminal identity record the
    constructor appended; the eight others, of 52 bytes and packet ids 3 to
    10, carry one position record each, numbered 2 to 9.  When
    [socket.socket()] or [sock.connect] raises, nothing is sent. *)
Theorem script_sends_nine_packets (clock : nat -> datetime)
    (returns : nat -> bool) :
  ((forall i, (i < 29)%nat -> returns i = true) ->
   (forall j, (j < 17)%nat -> clock_first <= clock j <= clock_last) ->
   exists first sent,
    script clock returns = (first :: sent, None)
    /\ map packet_id (first :: sent) = [2; 3; 4; 5; 6; 7; 8; 9; 10]
    /\ map len (first :: sent) = [85; 52; 52; 52; 52; 52; 52; 52; 52]
    /\ record_number (skipn 11 first) = 1
    /\ nth 15 (skipn 11 first) x00 = x01
    /\ map (fun p => record_number (skipn 11 p)) sent
       = [2; 3; 4; 5; 6; 7; 8; 9])
  /\ (returns 0%nat = false \/ returns 1%nat = false ->
      exists call, script clock returns = ([], Some (Failed call))).
Proof.
  split.
  2: { intros H. unfold script.
       destruct (returns 0%nat); cbn [negb]; [|eexists; reflexivity].
       destruct H as [H|H]; [discriminate|].
       rewrite H. cbn [negb]. eexists. reflexivity. }
  intros Hret Hclock.
  assert (H0 : 0 <= get_date_time (clock 0%nat) < 2 ^ 32)
    by (apply get_date_time_window, Hclock; lia).
  unfold script.
  rewrite (Hret 0%nat), (Hret 1%nat) by lia. cbn [negb].
  rewrite init_ok by (trivial; by_evaluation).
  set (record := record_1 111111111 (str (Some "865811111111111"%string))
                   (get_date_time (clock 0%nat)) 1).
  assert (Hlen : len record = 72).
  { unfold record. rewrite len_record_1. reflexivity. }
  cbv beta iota delta [Ok].
  match goal with
  | |- context [new_message ?st] =>
      destruct (@new_message_ok st record)
        as (s1 & Hm & Hs1 & Hr1 & _ & Hp1 & Ht1 & _);
      [reflexivity|lia|fields; lia|]
  end.
  rewrite Hm. cbv beta iota delta [Ok]. fields_in Hr1. fields_in Hp1.
  fields_in Ht1. fields.
  rewrite (Hret 2%nat), (Hret 3%nat) by lia. cbn [negb].
  assert (Henc : forallb encodable masspoint = true)
    by (vm_compute; reflexivity).
  assert (Ht1' : 0 <= _tid s1 < 2 ^ 32) by (rewrite Ht1; by_evaluation).
  assert (Hr1' : 0 <= _rn s1) by (rewrite Hr1; lia).
  assert (Hn1 : _rn s1 + len masspoint <= 65535)
    by (rewrite Hr1; by_evaluation).
  assert (Hc1 : forall j, (1 <= j < 1 + 2 * length masspoint)%nat ->
                          clock_first <= clock j <= clock_last).
  { intros j Hj. apply Hclock. cbn [length masspoint] in Hj. lia. }
  assert (Hi1 : forall j, (4 <= j <= 4 + 3 * length masspoint)%nat ->
                          returns j = true).
  { intros j Hj. apply Hret. cbn [length masspoint] in Hj. lia. }
  destruct (@send_points_ok clock returns masspoint Henc 1%nat 4%nat s1 Hs1
              Hp1 Ht1' Hr1' Hn1 Hc1 Hi1)
    as (sent & Hsend & Hid & Hl & Hrec).
  rewrite Hsend. do 2 eexists. split; [reflexivity|].
  cbn [map]. rewrite Hid, Hl, Hrec, Hr1.
  destruct (@packet_of_fields record 2 [x01]) as (_ & Hpid & _); [lia|lia|].
  rewrite Hpid, len_packet_of, Hlen, skipn_11_packet_of.
  split; [reflexivity|]. split; [reflexivity|].
  split; [|split; reflexivity].
  unfold record, record_1. cbv zeta. rewrite <- !app_assoc.
  apply record_number_layout; [apply le_bytes_length|lia].
Qed.

Lemma script_sends_nine_packets_witness :
  (forall i : nat, (i < 29)%nat -> (fun _ : nat => true) i = true)
  /\ (forall j : nat, (j < 17)%nat ->
        clock_first <= (fun _ => 500000000000000) j <= clock_last)
  /\ exists first sent,
       script (fun _ => 500000000000000) (fun _ => true)
       = (first :: sent, None)
       /\ map packet_id (first :: sent) = [2; 3; 4; 5; 6; 7; 8; 9; 10].
Proof.
  assert (R : forall i : nat, (i < 29)%nat -> (fun _ : nat => true) i = true).
  { intros i _. reflexivity. }
  assert (H : forall j : nat, (j < 17)%nat ->
                clock_first <= (fun _ : nat => 500000000000000) j <= clock_last).
  { intros j _. by_evaluation. }
  split; [exact R|]. split; [exact H|].
  destruct (proj1 (script_sends_nine_packets (fun _ => 500000000000000)
                     (fun _ => true)) R H)
    as (first & sent & Hs & Hid & _).
  exists first, sent. split; [exact Hs|exact Hid].
Defined.

(** ** Packet ids over a session *)

Lemma new_message_returns (s s' : EGTStrack) (packet : bytes) :
  new_message s = (inr packet, s') ->
  exists service,
    _service s = Some service
    /\ len service <= 65535
    /\ 0 <= _rn s <= 65535
    /\ packet = packet_of service (_rn s) (_pt s)
    /\ _rn s' = _rn s.
Proof.
  intros H.
  destruct (_service s) as [service|] eqn:Hs.
  - assert (Hdec : (len service <= 65535 /\ 0 <= _rn s <= 65535)
                   \/ (65535 < len service \/ ~ (0 <= _rn s <= 65535))) by lia.
    destruct Hdec as [[Hl Hr]|Hbad].
    + destruct (new_message_ok s Hs Hl Hr) as (s1 & Hm & _ & Hr1 & _).
      rewrite Hm in H. inversion H. subst. exists service. auto.
    + destruct (new_message_overflow s Hs Hbad) as (s1 & Hm & _).
      rewrite Hm in H. discriminate.
  - rewrite (new_message_empty _ Hs) in H. discriminate.
Qed.

Lemma nondecreasing_weaken (lo lo' : Z) (l : list Z) :
  lo' <= lo -> nondecreasing lo l -> nondecreasing lo' l.
Proof. destruct l as [|x l]; simpl; [auto|]. intros H [H1 H2]. split; [lia|auto]. Qed.

(** X17: over any sequence of calls, the packet id of each packet returned
    is the record counter [new_message] found when it was called; the ids
    never go down, the first being at least the counter the session
    started the sequence with, and none is above 65535. *)
Theorem packet_ids_never_go_down (calls : list call) (s : EGTStrack) :
  map snd (finalized calls s) = packets calls s
  /\ Forall (fun cp => packet_id (snd cp) = fst cp) (finalized calls s)
  /\ nondecreasing (_rn s) (map packet_id (packets calls s))
  /\ Forall (fun packet => packet_id packet <= 65535) (packets calls s).
Proof.
  revert s. induction calls as [|c calls IH]; intros s.
  - simpl. auto.
  - destruct c as [record_types kwargs now_tm now_ntm|];
      cbn [packets finalized].
    + destruct (add_service record_types kwargs now_tm now_ntm s)
        as [r s'] eqn:E.
      cbn [snd]. destruct (IH s') as (IH0 & IHc & IH1 & IH2).
      split; [exact IH0|]. split; [exact IHc|]. split; [|exact IH2].
      apply (@nondecreasing_weaken (_rn s')); [|exact IH1].
      apply add_service_outcome in E. destruct E as [_ E].
      destruct r as [e|u].
      * destruct E as [_ E]. lia.
      * destruct E as (_ & _ & _ & _ & E & _). lia.
    + destruct (new_message s) as [[e|packet] s'] eqn:E.
      * pose proof (new_message_rn s) as Hr. rewrite E in Hr. cbn [snd] in Hr.
        rewrite <- Hr. apply IH.
      * destruct (new_message_returns _ E)
          as (service & _ & Hl & Hr & -> & Hr').
        destruct (@packet_of_fields service (_rn s) (_pt s) Hl Hr)
          as (_ & Hid & _).
        destruct (IH s') as (IH0 & IHc & IH1 & IH2).
        cbn [map nondecreasing fst snd].
        rewrite Hid, IH0. split; [reflexivity|]. split.
        -- constructor; [exact Hid|exact IHc].
        -- split.
           ++ split; [lia|]. rewrite <- Hr'. exact IH1.
           ++ constructor; [rewrite Hid; lia|exact IH2].
Qed.

(** ** Timestamps *)

(** X18: the result of [get_date_time] fits the four bytes of a time field
    exactly for clocks from 2010-01-01T02:59:59.000001 to
    2146-02-07T09:28:15.999999.  Over these clocks it counts whole seconds
    from 2010-01-01T03:00:00: it gives [n] at the [n]-th second after it,
    for [n] below [2 ^ 32], and it never goes back when the clock goes
    forward. *)
Theorem timestamps (value value' : datetime) (n : Z) :
  (0 <= n < 2 ^ 32 ->
   clock_first <= 180 * 60 * 1000000 + 1000000 * n <= clock_last
   /\ get_date_time (180 * 60 * 1000000 + 1000000 * n) = n)
  /\ (clock_first <= value -> value <= value' -> value' <= clock_last ->
      get_date_time value <= get_date_time value')
  /\ (0 <= get_date_time value < 2 ^ 32
      <-> clock_first <= value <= clock_last)
  /\ ((exists b, to_bytes 4 (get_date_time value) = Ok b)
      <-> clock_first <= value <= clock_last).
Proof.
  split; [|split; [|split]].
  - intros Hn. split; [unfold clock_first, clock_last; lia|].
    unfold get_date_time.
    replace (180 * 60 * 1000000 + 1000000 * n - 180 * 60 * 1000000)
      with (n * 1000000) by lia.
    apply Z.quot_mul. lia.
  - intros _ H _. unfold get_date_time.
    apply Z.quot_le_mono; lia.
  - apply get_date_time_window.
  - rewrite <- get_date_time_window. split.
    + intros [b H]. apply to_bytes_inv in H. destruct H as [H _]. exact H.
    + intros H. eexists. apply to_bytes_ok. exact H.
Qed.

Lemma timestamps_witness :
  0 <= 7 < 2 ^ 32
  /\ clock_first <= 10800000000
  /\ 10800000000 <= 10800000001
  /\ 10800000001 <= clock_last
  /\ get_date_time (180 * 60 * 1000000 + 1000000 * 7) = 7
  /\ get_date_time 10800000000 <= get_date_time 10800000001.
Proof.
  assert (Hn : 0 <= 7 < 2 ^ 32) by lia.
  assert (H1 : clock_first <= 10800000000) by (unfold clock_first; lia).
  assert (H2 : 10800000000 <= 10800000001) by lia.
  assert (H3 : 10800000001 <= clock_last) by (unfold clock_last; lia).
  destruct (timestamps 10800000000 10800000001 7) as (T1 & T2 & _).
  repeat (split; [assumption|]).
  split; [exact (proj2 (T1 Hn))|exact (T2 H1 H2 H3)].
Defined.

(** ** The frame of a packet, and the sessions that get none *)

Lemma run_snd_append (record_types : Z) (kwargs : dict)
    (now_tm now_ntm : datetime) (calls : list call) (s : EGTStrack) :
  snd (run (Append record_types kwargs now_tm now_ntm :: calls) s)
  = snd (run calls (snd (add_service record_types kwargs now_tm now_ntm s))).
Proof.
  cbn [run].
  destruct (add_service record_types kwargs now_tm now_ntm s) as [[e|u] s'];
    cbn [snd]; [reflexivity|].
  destruct (run calls s'). reflexivity.
Qed.

Lemma run_snd_finalize (calls : list call) (s : EGTStrack) :
  snd (run (Finalize :: calls) s) = snd (run calls (snd (new_message s))).
Proof. reflexivity. Qed.

Lemma run_snd_app (calls calls' : list call) (s : EGTStrack) :
  snd (run (calls ++ calls') s) = snd (run calls' (snd (run calls s))).
Proof.
  revert s. induction calls as [|c calls IH]; intros s; [reflexivity|].
  destruct c as [record_types kwargs now_tm now_ntm|].
  - rewrite <- app_comm_cons, !run_snd_append. apply IH.
  - cbn [app run]. apply IH.
Qed.

Lemma run_reachable (calls : list call) (s : EGTStrack) :
  reachable s -> reachable (snd (run calls s)).
Proof.
  revert s. induction calls as [|c calls IH]; intros s H; [exact H|].
  destruct c as [record_types kwargs now_tm now_ntm|].
  - rewrite run_snd_append. apply IH.
    eapply reach_add_service; [exact H|apply surjective_pairing].
  - cbn [run]. apply IH.
    eapply reach_new_message; [exact H|apply surjective_pairing].
Qed.

Lemma len_record_4 (tid : Z) (imei : string) (rn : Z) :
  len (record_4 tid imei rn) = 17 + len (encode imei).
Proof. unfold record_4. cbv zeta. len_norm. lia. Qed.

(** Each record taken as soon as it is appended: the buffer stays short
    while the counter goes up. *)
Lemma run_cycles_4 (n : nat) (s : EGTStrack) :
  _service s = None ->
  0 <= _tid s < 2 ^ 32 ->
  len (encode (_imei s)) <= 65518 ->
  0 <= _rn s ->
  _rn s + Z.of_nat n <= 65535 ->
  _service (snd (run (cycles_4 n) s)) = None
  /\ _rn (snd (run (cycles_4 n) s)) = _rn s + Z.of_nat n
  /\ _tid (snd (run (cycles_4 n) s)) = _tid s
  /\ _imei (snd (run (cycles_4 n) s)) = _imei s.
Proof.
  revert s. induction n as [|n IH]; intros s Hs Ht Hi H0 Hn.
  - cbn [cycles_4 run snd Z.of_nat]. repeat split; trivial; lia.
  - cbn [cycles_4]. rewrite run_snd_append.
    rewrite add_service_4_ok by (trivial; lia).
    cbn [snd run]. unfold pending. rewrite Hs. cbn [app].
    match goal with
    | |- context [new_message ?st] =>
        destruct (@new_message_ok st (record_4 (_tid s) (_imei s) (_rn s)))
          as (s2 & Hm & Hs2 & Hr2 & _ & _ & Ht2 & Hi2);
        [reflexivity|rewrite len_record_4; lia|fields; lia|]
    end.
    rewrite Hm. cbn [snd]. fields_in Hr2. fields_in Ht2. fields_in Hi2.
    destruct (IH s2) as (I1 & I2 & I3 & I4);
      rewrite ?Hr2, ?Ht2, ?Hi2; trivial; try lia.
    rewrite I1, I2, I3, I4, Hr2, Ht2, Hi2. repeat split; trivial; lia.
Qed.

(** C1, as stated, fails: the constructor, the packet taken, then 65533
    times a service identity record appended and the packet taken, then one
    more such record appended, leave a session whose pending buffer holds
    this one record of 32 bytes and whose record counter is 65536;
    [new_message] raises [OverflowError] there and emits nothing. *)
Lemma finalize_counter_counterexample :
  exists s0 s service,
    __init__ 111111111 (Some "865811111111111"%string) 500000000000000
    = Ok s0
    /\ s = snd (run (Finalize :: cycles_4 (Z.to_nat 65533)
                       ++ [Append 4 [] 0 0]) s0)
    /\ reachable s
    /\ _service s = Some service
    /\ service <> []
    /\ len service = 32
    /\ _rn s = 65536
    /\ fst (new_message s) = Raise OverflowError.
Proof.
  pose (st0 := mkEGTStrack 111111111 (str (Some "865811111111111"%string))
                 [x01] [x00] (inl 0)
                 (Some (record_1 111111111
                          (str (Some "865811111111111"%string))
                          (get_date_time 500000000000000) 1))
                 [x00; x30; x30] 1 2).
  assert (E0 : __init__ 111111111 (Some "865811111111111"%string)
                 500000000000000 = Ok st0)
    by (apply init_ok; by_evaluation).
  assert (R0 : reachable st0) by exact (reach_init _ _ _ E0).
  exists st0.
  exists (snd (run (Finalize :: cycles_4 (Z.to_nat 65533)
                      ++ [Append 4 [] 0 0]) st0)).
  assert (E1 : exists s1, snd (new_message st0) = s1 /\ _service s1 = None
                          /\ _tid s1 = 111111111
                          /\ _imei s1 = "865811111111111"%string
                          /\ _rn s1 = 2).
  { eexists. split; [vm_compute; reflexivity|]. repeat split. }
  destruct E1 as (s1 & E1 & Hs1 & Ht1 & Hi1 & Hr1).
  assert (Hn : Z.of_nat (Z.to_nat 65533) = 65533) by (apply Z2Nat.id; lia).
  assert (Hi1' : len (encode (_imei s1)) <= 65518)
    by (rewrite Hi1; by_evaluation).
  destruct (@run_cycles_4 (Z.to_nat 65533) s1 Hs1 ltac:(rewrite Ht1; lia)
              Hi1' ltac:(rewrite Hr1; lia) ltac:(rewrite Hr1, Hn; lia))
    as (Hs2 & Hr2 & Ht2 & Hi2).
  rewrite Hn, Hr1 in Hr2. rewrite Ht1 in Ht2. rewrite Hi1 in Hi2.
  remember (snd (run (cycles_4 (Z.to_nat 65533)) s1)) as s2 eqn:Es2.
  assert (E3 : add_service 4 [] 0 0 s2
               = (Ok tt,
                   set_rn 65536
                     (set_service
                        (Some (record_4 111111111 "865811111111111" 65535))
                        (set_pt [x01] s2)))).
  { rewrite add_service_4_ok;
      [|rewrite Ht2; lia|rewrite Hr2; lia|rewrite Hi2; by_evaluation].
    unfold pending. rewrite Hs2, Ht2, Hi2, Hr2. reflexivity. }
  assert (Hrun : snd (run (Finalize :: cycles_4 (Z.to_nat 65533)
                             ++ [Append 4 [] 0 0]) st0)
                 = set_rn 65536
                     (set_service
                        (Some (record_4 111111111 "865811111111111" 65535))
                        (set_pt [x01] s2))).
  { rewrite run_snd_finalize, E1, run_snd_app, <- Es2, run_snd_append, E3.
    reflexivity. }
  exists (record_4 111111111 "865811111111111" 65535).
  split; [exact E0|]. split; [reflexivity|].
  split; [apply run_reachable; exact R0|].
  rewrite Hrun. fields.
  split; [reflexivity|]. split; [discriminate|].
  split; [vm_compute; reflexivity|]. split; [reflexivity|].
  destruct (@new_message_overflow
              (set_rn 65536
                 (set_service
                    (Some (record_4 111111111 "865811111111111" 65535))
                    (set_pt [x01] s2)))
              (record_4 111111111 "865811111111111" 65535))
    as (s' & Hm & _); [reflexivity|right; fields; lia|].
  rewrite Hm. reflexivity.
Qed.

(** C1, amended: for a session a caller can hold, with a pending buffer of
    at most 65535 bytes and a record counter of at most 65535,
    [new_message] returns the ten header bytes
    [01 00 00 0b 00 | frame_data_length(2) | packet_id(2) | 01], then one byte
    that is the CRC-8 fold [header_crc8] of those ten (what [header_crc]
    returns), then the buffer, then two bytes that are, little-endian, the
    CRC-16 fold [payload_crc16] of the buffer (what [data_crc] returns);
    [frame_data_length] is the length of the buffer and [packet_id] the
    record counter.  With a longer buffer or a higher counter it raises
    [OverflowError], returns no packet and keeps the buffer. *)
Theorem finalize_frame (s : EGTStrack) (service : bytes) :
  reachable s ->
  _service s = Some service ->
  (len service <= 65535 -> _rn s <= 65535 ->
   exists (fdl pid sfrcs : bytes) (hcs : byte) (s' : EGTStrack),
     let header := [x01; x00; x00; x0b; x00] ++ fdl ++ pid ++ [x01] in
     new_message s = (Ok (header ++ [hcs] ++ service ++ sfrcs), s')
     /\ length header = 10%nat
     /\ length fdl = 2%nat /\ from_bytes fdl = len service
     /\ length pid = 2%nat /\ from_bytes pid = _rn s
     /\ byte_val hcs = header_crc8 header
     /\ header_crc header = Ok (byte_val hcs)
     /\ length sfrcs = 2%nat
     /\ from_bytes sfrcs = payload_crc16 service
     /\ data_crc service = Ok (from_bytes sfrcs))
  /\ (65535 < len service \/ 65535 < _rn s ->
      exists s',
        new_message s = (Raise OverflowError, s')
        /\ _service s' = Some service).
Proof.
  intros Hreach Hs.
  destruct (reachable_invariant Hreach) as [Hp H1].
  split.
  - intros Hl Hr.
    destruct (new_message_ok s Hs Hl) as (s' & Hm & _); [lia|].
    pose proof (len_nonneg service) as H0.
    pose proof (payload_crc16_range service) as Hc.
    exists (le_bytes 2 (len service)), (le_bytes 2 (_rn s)),
      (le_bytes 2 (payload_crc16 service)).
    exists (byte_of_Z (header_crc8
              (header_of (le_bytes 2 (len service)) (le_bytes 2 (_rn s))
                 [x01]))).
    exists s'. cbv zeta.
    assert (Hh : byte_val
                   (byte_of_Z
                      (header_crc8
                         (header_of (le_bytes 2 (len service))
                            (le_bytes 2 (_rn s)) [x01])))
                 = header_crc8
                     (header_of (le_bytes 2 (len service))
                        (le_bytes 2 (_rn s)) [x01])).
    { rewrite byte_val_of_Z. apply Z.mod_small, header_crc8_range. }
    assert (Hd : from_bytes (le_bytes 2 (payload_crc16 service))
                 = payload_crc16 service).
    { apply from_bytes_le_bytes. simpl. lia. }
    split; [rewrite Hm, Hp; reflexivity|].
    split; [reflexivity|].
    split; [reflexivity|].
    split; [apply from_bytes_le_bytes; simpl; lia|].
    split; [reflexivity|].
    split; [apply from_bytes_le_bytes; simpl; lia|].
    split; [exact Hh|].
    split; [rewrite header_crc_eq; f_equal; symmetry; exact Hh|].
    split; [reflexivity|].
    split; [exact Hd|].
    rewrite data_crc_eq, Hd. reflexivity.
  - intros Hbad.
    destruct (@new_message_overflow s service Hs) as (s' & Hm & Hs' & _);
      [lia|].
    exists s'. split; [exact Hm|exact Hs'].
Qed.

Lemma finalize_frame_witness :
  exists s service,
    __init__ 111111111 (Some "865811111111111"%string) 500000000000000 = Ok s
    /\ _service s = Some service
    /\ len service <= 65535
    /\ _rn s <= 65535
    /\ exists (fdl pid sfrcs : bytes) (hcs : byte) (s' : EGTStrack),
         new_message s
         = (Ok (([x01; x00; x00; x0b; x00] ++ fdl ++ pid ++ [x01])
                  ++ [hcs] ++ service ++ sfrcs), s')
         /\ from_bytes fdl = len service
         /\ from_bytes pid = _rn s
         /\ byte_val hcs
            = header_crc8 ([x01; x00; x00; x0b; x00] ++ fdl ++ pid ++ [x01])
         /\ from_bytes sfrcs = payload_crc16 service.
Proof.
  do 2 eexists.
  split; [vm_compute; reflexivity|].
  split; [reflexivity|].
  match goal with
  | |- len ?service <= _ /\ _rn ?s <= _ /\ _ =>
      assert (Hinit : __init__ 111111111 (Some "865811111111111"%string)
                        500000000000000 = Ok s) by (vm_compute; reflexivity);
      assert (Hl : len service <= 65535) by by_evaluation;
      assert (Hr : _rn s <= 65535) by by_evaluation;
      destruct (proj1 (@finalize_frame s service (reach_init _ _ _ Hinit)
                         eq_refl) Hl Hr)
        as (fdl & pid & sfrcs & hcs & s' & Hm & _ & _ & Hf & _ & Hp & Hh & _
            & _ & Hc & _)
  end.
  split; [exact Hl|]. split; [exact Hr|].
  exists fdl, pid, sfrcs, hcs, s'. auto.
Defined.

(** C5: the buffer a raising [add_service] leaves behind.  After the
    constructor and a [new_message] the buffer is reset; an [add_service]
    for a position record without its keywords then raises [KeyError] and
    leaves the empty byte string as the buffer: no record is pending, yet
    [new_message] does not raise, it returns the thirteen bytes of a packet
    that holds no record. *)
Theorem empty_buffer_is_finalized :
  exists s0 packet0 s1 s2 packet s3,
    __init__ 111111111 (Some "865811111111111"%string) 500000000000000
    = Ok s0
    /\ new_message s0 = (Ok packet0, s1)
    /\ _service s1 = None
    /\ new_message s1 = (Raise TypeError, s1)
    /\ add_service 16 [] 500000000000000 500000000000000 s1
       = (Raise KeyError, s2)
    /\ reachable s2
    /\ _service s2 = Some []
    /\ new_message s2 = (Ok packet, s3)
    /\ packet
       = [x01; x00; x00; x0b; x00; x00; x00; x02; x00; x01; xa9; xff; xff]
    /\ frame_data_length packet = 0
    /\ skipn 11 packet = trailer packet.
Proof.
  do 6 eexists.
  match goal with
  | |- ?i = _ /\ _ => assert (E0 : i = Ok ?[s0]) by (vm_compute; reflexivity)
  end.
  split; [exact E0|].
  match goal with
  | |- ?m = _ /\ _ =>
      assert (E1 : m = (Ok ?[packet0], ?[s1])) by (vm_compute; reflexivity)
  end.
  split; [exact E1|].
  split; [reflexivity|].
  split; [vm_compute; reflexivity|].
  match goal with
  | |- ?a = _ /\ _ =>
      assert (E2 : a = (Raise KeyError, ?[s2])) by (vm_compute; reflexivity)
  end.
  split; [exact E2|].
  split.
  { eapply reach_add_service; [|exact E2].
    eapply reach_new_message; [|exact E1].
    exact (reach_init _ _ _ E0). }
  split; [reflexivity|].
  split; [vm_compute; reflexivity|].
  split; [reflexivity|].
  split; vm_compute; reflexivity.
Qed.
